(** * Verification of the gadalarbot agent controller

    A shallow embedding of [server/bot.ts] (class [MinecraftBot]),
    [server/storage.ts] (class [MemStorage]) and the types of
    [shared/schema.ts], followed by theorems about the connection
    lifecycle, the status snapshot, the wander step, the rest / wake
    logic and the bounded console log.

    Modelling conventions.
    - A JavaScript number is an IEEE 754 double.  A finite one is
      modelled by its value: an integer-valued one (the home coordinate,
      [timeOfDay], list lengths) in [Z], any other (entity positions, the
      results of [Math.random()]) in [Q].  Every [+], [-] and [*] of the
      source is the exact operation followed by the rounding [Js.fl] to
      the nearest double; [Math.floor] is exact.
    - The controller is a single cooperative actor.  Each callback (API
      call, session event, timer) runs to completion; it is a function
      from the controller state to an outcome, a new state, the outward
      actions it performed itself, in order, and the console frames it
      left to be sent once it has finished (the part of
      [addConsoleMessage] behind its [await]).
    - Calls into the game client library return normally, except
      [createBot] and [quit], whose outcome is read from the [World].
    - A raised JavaScript exception keeps the mutations made before it;
      the monad [Act] below therefore threads the state through a
      [Thrown] outcome as well.
    - What the outside world decides during one callback (the clock, the
      values of [Math.random()], whether [createBot] or [quit] raises,
      which bed [findBlock] returns) is read from a [World] record. *)

From Stdlib Require Import ZArith QArith Qround Qabs Qpower List String Bool Lia.
From Stdlib Require Import DecimalString Ascii Lqa.
Import ListNotations.

Local Open Scope Z_scope.
Local Open Scope string_scope.
Local Open Scope list_scope.

(** Template-string concatenation. *)
Infix "+++" := String.append (right associativity, at level 60).

(** ** JavaScript values *)

Module Js.

(** An [Error] object: [name] is the class ("Error", "TypeError"). *)
Record Error := mkError { name : string; message : string }.

(** [`${err}`] for an [Error]: [Error.prototype.toString]. *)
Definition toString (e : Error) : string :=
  if String.eqb (name e) "" then message e
  else if String.eqb (message e) "" then name e
  else name e +++ ": " +++ message e.

(** *** Numbers *)


(** [2^k] for any integer [k]. *)
Definition pow2 (k : Z) : Q := Qpower 2 k.

(** The exponent of the binade of [q <> 0]: [2^e <= |q| < 2^(e+1)]. *)
Definition ilog2 (q : Q) : Z :=
  let e := Z.log2 (Z.abs (Qnum q)) - Z.log2 (Zpos (Qden q)) in
  if Qle_bool (pow2 e) (Qabs q) then e else e - 1.

(** The integer nearest to [q], the even one of two equally near. *)
Definition nearestEven (q : Q) : Z :=
  let f := Qfloor q in
  match (q - inject_Z f ?= 1 # 2)%Q with
  | Lt => f
  | Gt => f + 1
  | Eq => if Z.even f then f else f + 1
  end.

(** [Infinity] is represented by [2^1024], which lies above every finite
    Number; the controller only compares such a value. *)
Definition infinity : Q := pow2 1024.

(** The exponent of the unit in the last place of the Number nearest to
    [q]: 53 significant bits, denormalized below [2^-1022]. *)
Definition exponent (q : Q) : Z := Z.max (ilog2 q) (-1022) - 52.

Definition nearest (q : Q) : Q :=
  inject_Z (nearestEven (q / pow2 (exponent q))) * pow2 (exponent q).

(** The Number nearest to the real [q] (IEEE 754 binary64, round to
    nearest, ties to even): what an arithmetic operation with the exact
    result [q] returns. *)
Definition fl (q : Q) : Q :=
  if Qeq_bool q 0 then 0%Q
  else if Qle_bool infinity (nearest q) then infinity
  else if Qle_bool (nearest q) (- infinity) then (- infinity)%Q
  else nearest q.

(** [a + b], [a - b] and [a * b] on Numbers. *)
Definition add (a b : Q) : Q := fl (a + b).
Definition sub (a b : Q) : Q := fl (a - b).
Definition mul (a b : Q) : Q := fl (a * b).

(** [Math.floor]. *)
Definition floor (q : Q) : Z := Qfloor q.

(** [a + b] and [a - b] on integer-valued Numbers; the result is
    integer-valued again. *)
Definition plus (a b : Z) : Z := floor (add (inject_Z a) (inject_Z b)).
Definition minus (a b : Z) : Z := floor (sub (inject_Z a) (inject_Z b)).

(** The decimal digits of an integer. *)
Definition decimal (n : Z) : string := NilZero.string_of_int (Z.to_int n).

(** Whether the decimal literal [v] denotes the Number [x]. *)
Definition readsAs (x v : Z) : bool := Qeq_bool (fl (inject_Z v)) (inject_Z x).

(** Among the multiples of [10^p], the one nearest to [x] that denotes
    [x] (of two equally near, the one with the even quotient). *)
Definition shortAt (x p : Z) : option Z :=
  let t := 10 ^ p in
  let lo := x / t * t in
  let hi := lo + t in
  match ((0 <? lo)%Z && readsAs x lo)%bool, readsAs x hi with
  | true, true =>
      match (x - lo ?= hi - x)%Z with
      | Lt => Some lo
      | Gt => Some hi
      | Eq => if Z.even (lo / t) then Some lo else Some hi
      end
  | true, false => Some lo
  | false, true => Some hi
  | false, false => None
  end.

(** The literal with the fewest significant digits that denotes [x]. *)
Fixpoint shortest (x : Z) (p : nat) : Z :=
  match shortAt x (Z.of_nat p) with
  | Some v => v
  | None => match p with O => x | S p' => shortest x p' end
  end.

Fixpoint dropZeros (s : string) : string :=
  match s with
  | EmptyString => EmptyString
  | String c rest =>
      match dropZeros rest with
      | EmptyString => if Ascii.eqb c "0"%char then EmptyString else String c EmptyString
      | rest' => String c rest'
      end
  end.

Definition ofPositive (x : Z) : string :=
  let s := decimal (shortest x (String.length (decimal x))) in
  let n := String.length s in
  if Nat.leb n 21 then s
  else
    match dropZeros s with
    | String c EmptyString => String c ("e+" +++ decimal (Z.of_nat (n - 1)))
    | String c rest => String c ("." +++ rest +++ "e+" +++ decimal (Z.of_nat (n - 1)))
    | EmptyString => EmptyString
    end.

(** [`${n}`] for the Number nearest to the integer [n]:
    [Number::toString] with the fewest digits that denote the Number,
    in exponent form from [1e21] on. *)
Definition ofZ (n : Z) : string :=
  let x := Qfloor (fl (inject_Z n)) in
  if (x =? 0)%Z then "0"
  else if Qle_bool infinity (inject_Z x) then "Infinity"
  else if Qle_bool (inject_Z x) (- infinity) then "-Infinity"
  else if (x <? 0)%Z then "-" +++ ofPositive (- x)
  else ofPositive x.


Definition ofNat (n : nat) : string := ofZ (Z.of_nat n).

(** *** Strings and arrays *)

(** [s.includes(sub)]. *)
Fixpoint prefix (p s : string) : bool :=
  match p, s with
  | EmptyString, _ => true
  | String a p', String b s' => if Ascii.eqb a b then prefix p' s' else false
  | String _ _, EmptyString => false
  end.

Fixpoint includes (sub s : string) : bool :=
  if prefix sub s then true
  else match s with
       | EmptyString => false
       | String _ s' => includes sub s'
       end.

(** [a.filter(p)] is [List.filter]; [a[i] = v] on an existing index. *)
Fixpoint assign {A : Type} (i : nat) (v : A) (l : list A) : list A :=
  match l, i with
  | [], _ => []
  | _ :: t, O => v :: t
  | h :: t, S j => h :: assign j v t
  end.

End Js.

Arguments Js.fl : simpl never.
Arguments Js.add : simpl never.
Arguments Js.sub : simpl never.
Arguments Js.mul : simpl never.
Arguments Js.plus : simpl never.
Arguments Js.minus : simpl never.
Arguments Js.ofZ : simpl never.
Arguments Js.ofNat : simpl never.
Arguments Js.infinity : simpl never.
Arguments Js.pow2 : simpl never.

(** ** shared/schema.ts *)

Module Schema.

Record BotSettings := mkSettings {
  serverAddress : string;
  botUsername : string;
  posX : Z;
  posY : Z;
  posZ : Z
}.

Inductive Severity := info | warning | error.

Record ConsoleMessage := mkMessage {
  timestamp : string;
  message : string;
  type : Severity
}.

Record Coordinate := mkCoord { x : Z; y : Z; z : Z }.

Record BotStatus := mkStatus {
  connected : bool;
  activity : string;
  position : Coordinate;
  time : string;
  players : list string;
  area : list bool
}.

End Schema.

(** ** The session object of the game client library *)

Module Mineflayer.

Record Vec3 := vec3 { x : Q; y : Q; z : Q }.

Record Entity := mkEntity { position : Vec3 }.

Record Time := mkTime { timeOfDay : Z }.

(** The fields of [mineflayer.Bot] that the controller reads.
    [entity] is undefined until the session has logged in; [players]
    holds the keys of the [players] object in the order of
    [Object.keys]. *)
Record Bot := mkBot {
  username : string;
  entity : option Entity;
  isSleeping : bool;
  time : option Time;
  players : option (list string)
}.

Inductive Goal :=
| GoalBlock (gx gy gz : Z)
| GoalNear (gx gy gz : Z) (range : Z).

End Mineflayer.

(** ** server/storage.ts *)

Module Storage.
Import Schema.

Record MemStorage := mkStorage {
  botSettings : BotSettings;
  consoleMessages : list ConsoleMessage
}.

(** State of the store right after its constructor. *)
Definition create : MemStorage :=
  mkStorage (mkSettings "mc.example.com" "MinecraftBot" 0 64 0) [].

Definition getBotSettings (st : MemStorage) : BotSettings := botSettings st.

Definition updateBotSettings (s : BotSettings) (st : MemStorage) : MemStorage :=
  mkStorage s (consoleMessages st).

Definition getConsoleMessages (st : MemStorage) : list ConsoleMessage :=
  consoleMessages st.

(** [push] then, when more than 100 entries are held, one [shift]. *)
Definition addConsoleMessage (m : ConsoleMessage) (st : MemStorage) : MemStorage :=
  let pushed := consoleMessages st ++ [m] in
  mkStorage (botSettings st)
    (if Nat.ltb 100 (List.length pushed) then List.tl pushed else pushed).

Definition clearConsoleMessages (st : MemStorage) : MemStorage :=
  mkStorage (botSettings st) [].

End Storage.

(** ** server/bot.ts: state, effects and the callback monad *)

Module MinecraftBot.
Import Schema.
Module Mf := Mineflayer.

(** Which [bot.wake()] call a promise belongs to: the retrying attempt of
    [checkSleepConditions], its single daytime wake, or the emergency
    attempt of [forceWakeUpNow] with its retry count. *)
Inductive WakeCall :=
| wakeAttempt
| wakeDaytime
| wakeEmergency (retryCount : nat).

(** The closures handed to [setTimeout] and [setInterval]. *)
Inductive Callback :=
| connectionTimeout
| wakeupInterval
| spawnRecheck
| forceWakeLater
| boundaryCheckInterval
| releaseForward
| wanderStepLater (boundary : nat)
| wanderWatchdog (boundary : nat)
| attemptWakeUpLater
| attemptWakeLater (retryCount : nat).

Record Timer := mkTimer {
  handle : nat;
  delay : Q;
  repeats : bool;
  callback : Callback
}.

(** Outward actions: frames sent to the dashboard clients and calls into
    the game client library. *)
Inductive Effect :=
| SendStatus (status : BotStatus)
| SendConsole (m : ConsoleMessage)
| SendConsoleClear
| CreateBot (host user : string) (port : Z)
| LoadPlugin
| Quit (runningSeen : bool)
| Wake (call : WakeCall)
| Sleep (bed : Coordinate)
| FindBlock (maxDistance : Z)
| SetMovements
| SetGoal (goal : option Mf.Goal)
| OnceGoalReached (bed : Coordinate)
| SetControlState (control : string) (state : bool)
| LookAt (target : Mf.Vec3)
| ClearControlStates.

(** The fields of the class, the storage singleton it writes to and the
    timers of the event loop.  [homePosition] is built from the integer
    settings only, hence a [Coordinate]. *)
Record Controller := mkController {
  bot : option Mf.Bot;
  settings : option BotSettings;
  running : bool;
  homePosition : option Coordinate;
  timeoutId : option nat;
  storage : Storage.MemStorage;
  timers : list Timer;
  nextHandle : nat
}.

Definition with_bot (v : option Mf.Bot) (c : Controller) : Controller :=
  mkController v (settings c) (running c) (homePosition c) (timeoutId c)
               (storage c) (timers c) (nextHandle c).
Definition with_settings (v : option BotSettings) (c : Controller) : Controller :=
  mkController (bot c) v (running c) (homePosition c) (timeoutId c)
               (storage c) (timers c) (nextHandle c).
Definition with_running (v : bool) (c : Controller) : Controller :=
  mkController (bot c) (settings c) v (homePosition c) (timeoutId c)
               (storage c) (timers c) (nextHandle c).
Definition with_homePosition (v : option Coordinate) (c : Controller) : Controller :=
  mkController (bot c) (settings c) (running c) v (timeoutId c)
               (storage c) (timers c) (nextHandle c).
Definition with_timeoutId (v : option nat) (c : Controller) : Controller :=
  mkController (bot c) (settings c) (running c) (homePosition c) v
               (storage c) (timers c) (nextHandle c).
Definition with_storage (v : Storage.MemStorage) (c : Controller) : Controller :=
  mkController (bot c) (settings c) (running c) (homePosition c) (timeoutId c)
               v (timers c) (nextHandle c).
Definition with_timers (v : list Timer) (n : nat) (c : Controller) : Controller :=
  mkController (bot c) (settings c) (running c) (homePosition c) (timeoutId c)
               (storage c) v n.

Inductive Outcome (A : Type) :=
| Done (a : A)
| Thrown (e : Js.Error).
Arguments Done {A} a.
Arguments Thrown {A} e.

(** One run of a callback.  [sent] are the actions the callback performs
    while it runs, in order.  [queued] are the console frames of its
    [addConsoleMessage] calls: each is sent by the continuation behind
    the [await] of that call, a microtask that runs, in the order of the
    calls, once the callback has returned. *)
Record Run (A : Type) := ran {
  outcome : Outcome A;
  final : Controller;
  sent : list Effect;
  queued : list Effect
}.
Arguments ran {A} _ _ _ _.
Arguments outcome {A} _.
Arguments final {A} _.
Arguments sent {A} _.
Arguments queued {A} _.

(** Everything a run sends, in the order it goes out. *)
Definition effects {A} (r : Run A) : list Effect := sent r ++ queued r.

(** A run that leaves no frame behind. *)
Definition mkRun {A} (o : Outcome A) (c : Controller) (es : list Effect) : Run A :=
  ran o c es [].

Definition Act (A : Type) : Type := Controller -> Run A.

Definition ret {A} (a : A) : Act A := fun c => mkRun (Done a) c [].

Definition bind {A B} (m : Act A) (k : A -> Act B) : Act B := fun c =>
  match m c with
  | ran (Done a) c1 s1 q1 =>
      match k a c1 with
      | ran o c2 s2 q2 => ran o c2 (s1 ++ s2) (q1 ++ q2)
      end
  | ran (Thrown e) c1 s1 q1 => ran (Thrown e) c1 s1 q1
  end.

Definition throw {A} (e : Js.Error) : Act A := fun c => mkRun (Thrown e) c [].

(** [try { m } catch (e) { h e }] *)
Definition try_catch {A} (m : Act A) (h : Js.Error -> Act A) : Act A := fun c =>
  match m c with
  | ran (Done a) c1 s1 q1 => ran (Done a) c1 s1 q1
  | ran (Thrown e) c1 s1 q1 =>
      match h e c1 with
      | ran o c2 s2 q2 => ran o c2 (s1 ++ s2) (q1 ++ q2)
      end
  end.

Definition get : Act Controller := fun c => mkRun (Done c) c [].
Definition modify (f : Controller -> Controller) : Act unit :=
  fun c => mkRun (Done tt) (f c) [].
Definition emit (e : Effect) : Act unit := fun c => mkRun (Done tt) c [e].
Definition when (b : bool) (m : Act unit) : Act unit := if b then m else ret tt.

Declare Scope act_scope.
Delimit Scope act_scope with act.
Notation "x <- m ;; k" := (bind m (fun x => k))
  (at level 61, m at next level, right associativity) : act_scope.
Notation "m ;; k" := (bind m (fun _ => k))
  (at level 61, right associativity) : act_scope.
Local Open Scope act_scope.

(** [TypeError] of reading a property of [undefined] or [null]. *)
Definition cannotRead (what prop : string) : Js.Error :=
  Js.mkError "TypeError"
    ("Cannot read properties of " +++ what +++ " (reading '" +++ prop +++ "')").

(** *** Timers of the event loop *)

Definition arm (cb : Callback) (ms : Q) (rep : bool) : Act nat := fun c =>
  let h := nextHandle c in
  mkRun (Done h) (with_timers (timers c ++ [mkTimer h ms rep cb]) (S h) c) [].

Definition setTimeout (cb : Callback) (ms : Q) : Act nat := arm cb ms false.
Definition setInterval (cb : Callback) (ms : Q) : Act nat := arm cb ms true.

Definition disarm (h : nat) (c : Controller) : Controller :=
  with_timers (filter (fun t => negb (Nat.eqb (handle t) h)) (timers c))
              (nextHandle c) c.

Definition clearTimeout (h : nat) : Act unit := modify (disarm h).
Definition clearInterval (h : nat) : Act unit := modify (disarm h).

(** *** getBotStatus *)

Definition isSome {A} (o : option A) : bool :=
  match o with Some _ => true | None => false end.

(** The pairs [(z, x)] in the order of the two nested [for] loops. *)
Definition gridCells : list (Z * Z) :=
  flat_map (fun z => map (fun x => (z, x)) [-1; 0; 1]) [-1; 0; 1].

Definition markArea (botX botZ : Z) (home : Coordinate) (area : list bool) : list bool :=
  fold_left
    (fun area zx =>
       let '(z, x) := zx in
       let index := (z + 1) * 3 + (x + 1) in
       let areaX := Js.plus (Schema.x home) x in
       let areaZ := Js.plus (Schema.z home) z in
       Js.assign (Z.to_nat index) ((botX =? areaX)%Z && (botZ =? areaZ)%Z) area)
    gridCells area.

Definition otherPlayers (b : Mf.Bot) (names : list string) : list string :=
  filter (fun name => negb (String.eqb name (Mf.username b))) names.

Definition defaultStatus (c : Controller) : BotStatus :=
  mkStatus (running c && isSome (bot c)) "Idle" (mkCoord 0 0 0) "day" []
           (repeat false 9).

Definition getBotStatus (c : Controller) : Outcome BotStatus :=
  let status := defaultStatus c in
  match bot c with
  | Some b =>
      if running c then
        let activity' :=
          if Mf.isSleeping b then "Sleeping"
          else if running c then "Wandering in 3x3 area"
          else activity status in
        let position' :=
          match Mf.entity b with
          | Some e =>
              let p := Mf.position e in
              mkCoord (Js.floor (Mf.x p)) (Js.floor (Mf.y p)) (Js.floor (Mf.z p))
          | None => position status
          end in
        let time' :=
          match Mf.time b with
          | Some t =>
              let timeOfDay := Mf.timeOfDay t in
              if (0 <=? timeOfDay)%Z && (timeOfDay <? 13000)%Z then "day" else "night"
          | None => time status
          end in
        let players' :=
          match Mf.players b with
          | Some names => otherPlayers b names
          | None => players status
          end in
        match homePosition c with
        | Some home =>
            match Mf.entity b with
            | Some e =>
                let botX := Js.floor (Mf.x (Mf.position e)) in
                let botZ := Js.floor (Mf.z (Mf.position e)) in
                Done (mkStatus (connected status) activity' position' time' players'
                               (markArea botX botZ home (area status)))
            | None => Thrown (cannotRead "undefined" "position")
            end
        | None =>
            Done (mkStatus (connected status) activity' position' time' players'
                           (area status))
        end
      else Done status
  | None => Done status
  end.

(** One [SendStatus] stands for the fan-out to every open client. *)
Definition broadcastStatus : Act unit := fun c =>
  match getBotStatus c with
  | Done status => mkRun (Done tt) c [SendStatus status]
  | Thrown e => mkRun (Thrown e) c []
  end.

(** What one callback run reads from outside the controller. *)
Record World := mkWorld {
  clock : string;
  createBot : Js.Error + Mf.Bot;
  quit : option Js.Error;
  findBlock : option Coordinate;
  random1 : Q;
  random2 : Q;
  random3 : Q;
  idleFor : Q
}.

(** ** server/bot.ts: the methods and closures of the class *)

Section Callbacks.
Variable w : World.

(** An [async] method that no caller awaits.  Up to its [await] it runs
    within the caller: the time stamp is taken and the store is written
    (the store's own method has no suspension).  The send to the clients
    is behind the [await]. *)
Definition addConsoleMessage (message : string) (type : Severity) : Act unit :=
  fun c =>
    let consoleMessage := mkMessage (clock w) message type in
    ran (Done tt)
        (with_storage (Storage.addConsoleMessage consoleMessage (storage c)) c)
        []
        [SendConsole consoleMessage].

Definition showXYZ (cx cy cz : Z) : string :=
  "X:" +++ Js.ofZ cx +++ " Y:" +++ Js.ofZ cy +++ " Z:" +++ Js.ofZ cz.

(** [bot.time && timeOfDay >= 13000 && timeOfDay <= 23000] *)
Definition isNightTime (b : Mf.Bot) : bool :=
  match Mf.time b with
  | Some t => (13000 <=? Mf.timeOfDay t)%Z && (Mf.timeOfDay t <=? 23000)%Z
  | None => false
  end.

(** [Object.keys(bot.players || {}).filter(name => name !== username)] *)
Definition others (b : Mf.Bot) : list string :=
  otherPlayers b (match Mf.players b with Some names => names | None => [] end).

Definition shouldSleep : Act bool :=
  c <- get ;;
  match bot c with
  | None => ret false
  | Some b =>
      let playersOnline :=
        match Mf.players b with
        | Some names => Nat.ltb 1 (List.length names)
        | None => false
        end in
      if isNightTime b && playersOnline then
        addConsoleMessage "Night time detected with players online - should sleep" info ;;
        ret true
      else ret false
  end.

Definition findAndSleepInBed : Act unit :=
  c <- get ;;
  match bot c with
  | None => ret tt
  | Some _ =>
      addConsoleMessage "Looking for a bed to sleep in..." info ;;
      emit (FindBlock 10) ;;
      match findBlock w with
      | None => addConsoleMessage "No bed found nearby" warning
      | Some bed =>
          addConsoleMessage
            ("Found a bed at " +++ showXYZ (Schema.x bed) (Schema.y bed) (Schema.z bed))
            info ;;
          try_catch
            (emit (SetGoal None) ;;
             emit (SetGoal (Some (Mf.GoalNear (Schema.x bed) (Schema.y bed)
                                              (Schema.z bed) 1))) ;;
             emit (OnceGoalReached bed))
            (fun e => addConsoleMessage ("Error trying to sleep: " +++ Js.toString e)
                                        error)
      end
  end.

(** The closure [attemptWakeUp] of [checkSleepConditions]. *)
Definition attemptWakeUp : Act unit :=
  c <- get ;;
  match bot c with
  | Some b =>
      if Mf.isSleeping b then
        addConsoleMessage "Attempting to wake up bot..." info ;;
        emit (Wake wakeAttempt)
      else ret tt
  | None => ret tt
  end.

Definition checkSleepConditions : Act unit :=
  c <- get ;;
  match bot c with
  | Some b =>
      if running c then
        let isInBed := Mf.isSleeping b in
        let playerNames := others b in
        let playersOnline := Nat.ltb 0 (List.length playerNames) in
        if isInBed && negb playersOnline then
          addConsoleMessage "WAKE UP TRIGGER: No players online while sleeping!"
                            warning ;;
          attemptWakeUp
        else if isInBed && negb (isNightTime b) then
          addConsoleMessage "Daytime detected - waking up from bed" info ;;
          emit (Wake wakeDaytime)
        else if negb isInBed && isNightTime b && playersOnline then
          findAndSleepInBed
        else ret tt
      else ret tt
  | None => ret tt
  end.

(** The closure [attemptWake] of [forceWakeUpNow]. *)
Definition attemptWake (retryCount : nat) : Act unit :=
  c <- get ;;
  match bot c with
  | Some b => if Mf.isSleeping b then emit (Wake (wakeEmergency retryCount)) else ret tt
  | None => ret tt
  end.

Definition forceWakeUpNow : Act unit :=
  c <- get ;;
  match bot c with
  | Some b =>
      if running c then
        if Mf.isSleeping b then
          let otherPlayers := others b in
          addConsoleMessage
            ("FORCE WAKE CHECK: Bot is sleeping. Players online: "
               +++ Js.ofNat (List.length otherPlayers)) warning ;;
          if Nat.eqb (List.length otherPlayers) 0 then
            addConsoleMessage "EMERGENCY WAKE UP NOW - No players online!" warning ;;
            attemptWake 0
          else ret tt
        else ret tt
      else ret tt
  | None => ret tt
  end.

(** The closures of [startWandering]. *)
Definition enforceAreaBoundaries : Act unit :=
  c <- get ;;
  match bot c, homePosition c, running c with
  | Some b, Some home, true =>
      match Mf.entity b with
      | None => throw (cannotRead "undefined" "position")
      | Some e =>
          let currentPos := Mf.position e in
          let distanceFromHome :=
            Z.max (Z.abs (Js.minus (Js.floor (Mf.x currentPos)) (Schema.x home)))
                  (Z.abs (Js.minus (Js.floor (Mf.z currentPos)) (Schema.z home))) in
          if (1 <? distanceFromHome)%Z then
            addConsoleMessage "Bot escaped 3x3 area! Returning to home position"
                              warning ;;
            emit (SetGoal None) ;;
            emit (SetGoal (Some (Mf.GoalBlock (Schema.x home) (Schema.y home)
                                              (Schema.z home))))
          else ret tt
      end
  | _, _, _ => ret tt
  end.

Definition moveDirectly (x y z : Z) : Act unit :=
  c <- get ;;
  match bot c with
  | Some b =>
      if running c then
        try_catch
          (emit (SetGoal None) ;;
           match Mf.entity b with
           | None => throw (cannotRead "undefined" "position")
           | Some e =>
               let currentPos := Mf.position e in
               let dx := Js.minus x (Js.floor (Mf.x currentPos)) in
               let dz := Js.minus z (Js.floor (Mf.z currentPos)) in
               let look (p : Mf.Vec3) :=
                 emit (SetControlState "forward" true) ;; emit (LookAt p) in
               (if (0 <? dx)%Z then
                  look (Mf.vec3 (Js.add (Mf.x currentPos) 1) (Mf.y currentPos)
                                (Mf.z currentPos))
                else if (dx <? 0)%Z then
                  look (Mf.vec3 (Js.sub (Mf.x currentPos) 1) (Mf.y currentPos)
                                (Mf.z currentPos))
                else if (0 <? dz)%Z then
                  look (Mf.vec3 (Mf.x currentPos) (Mf.y currentPos)
                                (Js.add (Mf.z currentPos) 1))
                else if (dz <? 0)%Z then
                  look (Mf.vec3 (Mf.x currentPos) (Mf.y currentPos)
                                (Js.sub (Mf.z currentPos) 1))
                else ret tt) ;;
               _ <- setTimeout releaseForward 1000 ;;
               addConsoleMessage ("Moving directly to " +++ showXYZ x y z) info
           end)
          (fun e =>
             addConsoleMessage ("Error during direct movement: " +++ Js.toString e)
                               error ;;
             c' <- get ;;
             when (isSome (bot c')) (emit ClearControlStates))
      else ret tt
  | None => ret tt
  end.

(** [Math.floor(Math.random() * 3) - 1] *)
Definition randomOffset (r : Q) : Z := Js.minus (Js.floor (Js.mul r 3)) 1.

(** [5000 + Math.random() * 3000] *)
Definition randomWait (r : Q) : Q := Js.add 5000 (Js.mul r 3000).

Definition rearm (boundary : nat) (ms : Q) : Act unit :=
  c <- get ;;
  match timeoutId c with Some h => clearTimeout h | None => ret tt end ;;
  h <- setTimeout (wanderStepLater boundary) ms ;;
  modify (with_timeoutId (Some h)).

Definition wanderStep (boundary : nat) : Act unit :=
  c <- get ;;
  match bot c, homePosition c, running c with
  | Some _, Some home, true =>
      sleepy <- shouldSleep ;;
      if sleepy then findAndSleepInBed
      else
        let offsetX := randomOffset (random1 w) in
        let offsetZ := randomOffset (random2 w) in
        let targetX := Js.plus (Schema.x home) offsetX in
        let targetY := Schema.y home in
        let targetZ := Js.plus (Schema.z home) offsetZ in
        try_catch
          (addConsoleMessage
             ("Wandering to position " +++ showXYZ targetX targetY targetZ) info ;;
           moveDirectly targetX targetY targetZ ;;
           let waitTime := randomWait (random3 w) in
           rearm boundary waitTime)
          (fun e =>
             addConsoleMessage ("Error during wandering: " +++ Js.toString e) error ;;
             rearm boundary 3000)
  | _, _, _ => clearInterval boundary
  end.

Definition startWandering : Act unit :=
  c <- get ;;
  match bot c, homePosition c, running c with
  | Some _, Some _, true =>
      addConsoleMessage "Starting wandering behavior in 3x3 area" info ;;
      emit SetMovements ;;
      boundary <- setInterval boundaryCheckInterval 1000 ;;
      wanderStep boundary ;;
      _ <- setInterval (wanderWatchdog boundary) 10000 ;;
      ret tt
  | _, _, _ => ret tt
  end.

(** *** Public methods *)

(** [mineflayer.createBot(...)]: the session object, or an exception. *)
Definition newBot (host user : string) : Act Mf.Bot := fun c =>
  mkRun (match createBot w with inl e => Thrown e | inr b => Done b end) c
        [CreateBot host user 25565].

(** [bot.quit()]; the effect records the [running] flag that anything
    observing the controller during the close would read. *)
Definition botQuit : Act unit := fun c =>
  mkRun (match quit w with Some e => Thrown e | None => Done tt end) c
        [Quit (running c)].

(** Registration of the listeners [onSpawn] ... [onMove] below; the
    listeners themselves are the session events of [Event]. *)
Definition setupEventHandlers : Act unit :=
  c <- get ;;
  match bot c with
  | None => ret tt
  | Some _ => ret tt
  end.

(** [storage.getBotSettings()] resolves at once, so the body of [start]
    runs without another callback in between. *)
Definition start : Act unit :=
  c <- get ;;
  if running c then addConsoleMessage "Bot is already running" warning
  else
    let current := Storage.getBotSettings (storage c) in
    modify (with_settings (Some current)) ;;
    if String.eqb (serverAddress current) ""
       || String.eqb (serverAddress current) "mc.example.com" then
      addConsoleMessage
        "ERROR: Invalid server address. Please update settings with a real Minecraft server address."
        error ;;
      addConsoleMessage
        "The current address 'mc.example.com' is just a placeholder and doesn't exist."
        error ;;
      broadcastStatus
    else
      modify (with_running true) ;;
      broadcastStatus ;;
      try_catch
        (addConsoleMessage ("Starting bot with username " +++ botUsername current)
                           info ;;
         addConsoleMessage ("Connecting to server " +++ serverAddress current +++ "...")
                           info ;;
         _ <- setTimeout connectionTimeout 10000 ;;
         b <- newBot (serverAddress current) (botUsername current) ;;
         modify (with_bot (Some b)) ;;
         emit LoadPlugin ;;
         setupEventHandlers ;;
         _ <- setInterval wakeupInterval 2000 ;;
         ret tt)
        (fun e =>
           addConsoleMessage ("CRITICAL ERROR STARTING BOT: " +++ Js.toString e) error ;;
           modify (with_running false) ;;
           broadcastStatus).

Definition stop : Act unit :=
  try_catch
    (c <- get ;;
     if negb (running c) then addConsoleMessage "Bot is already stopped" info
     else
       match timeoutId c with
       | Some h => clearTimeout h ;; modify (with_timeoutId None)
       | None => ret tt
       end ;;
       addConsoleMessage "Stopping bot and disconnecting from server..." info ;;
       modify (with_running false) ;;
       c1 <- get ;;
       when (isSome (bot c1))
            (try_catch botQuit
               (fun e => addConsoleMessage
                           ("Error during bot.quit(): " +++ Js.toString e) error)) ;;
       modify (with_bot None) ;;
       modify (with_homePosition None) ;;
       broadcastStatus ;;
       addConsoleMessage "Bot stopped successfully" info)
    (fun e =>
       addConsoleMessage ("Error during bot stop: " +++ Js.toString e) error ;;
       modify (with_running false) ;;
       modify (with_bot None) ;;
       broadcastStatus).

Definition updateSettings (new : BotSettings) : Act unit :=
  modify (with_settings (Some new)) ;;
  modify (fun c => with_storage (Storage.updateBotSettings new (storage c)) c) ;;
  addConsoleMessage "Bot settings updated" info ;;
  c <- get ;;
  if running c && isSome (homePosition c) then
    modify (with_homePosition (Some (mkCoord (posX new) (posY new) (posZ new)))) ;;
    addConsoleMessage
      ("Home position updated to " +++ showXYZ (posX new) (posY new) (posZ new)) info
  else ret tt.

Definition clearConsole : Act unit :=
  modify (fun c => with_storage (Storage.clearConsoleMessages (storage c)) c) ;;
  emit SendConsoleClear ;;
  addConsoleMessage "Console cleared" info.

Definition addClient : Act unit := broadcastStatus.

(** [initialize()], run by the constructor. *)
Definition initialize : Act unit :=
  modify (fun c => with_settings (Some (Storage.getBotSettings (storage c))) c) ;;
  addConsoleMessage "Bot controller initialized" info.

(** *** Session listeners *)

Definition disconnected : Act unit :=
  modify (with_running false) ;;
  modify (with_bot None) ;;
  broadcastStatus.

(** The listener of [setupEventHandlers], then the one [start] adds. *)
Definition onSpawn (connectionTimer : nat) : Act unit :=
  addConsoleMessage "Bot has spawned in the world" info ;;
  c <- get ;;
  match settings c with
  | None => throw (cannotRead "null" "posX")
  | Some st =>
      modify (with_homePosition (Some (mkCoord (posX st) (posY st) (posZ st)))) ;;
      addConsoleMessage
        ("Setting home position to " +++ showXYZ (posX st) (posY st) (posZ st)) info ;;
      broadcastStatus ;;
      checkSleepConditions ;;
      startWandering ;;
      _ <- setTimeout spawnRecheck 5000 ;;
      clearTimeout connectionTimer
  end.

Definition onKicked (reason : string) : Act unit :=
  addConsoleMessage ("Bot was kicked: " +++ reason) error ;;
  disconnected.

(** The listener [start] adds, then the one of [setupEventHandlers]. *)
Definition onError (connectionTimer : nat) (err : Js.Error) : Act unit :=
  clearTimeout connectionTimer ;;
  addConsoleMessage ("CONNECTION ERROR: " +++ Js.message err) error ;;
  c <- get ;;
  (if Js.includes "ENOTFOUND" (Js.message err) then
     addConsoleMessage
       ("Server '"
          +++ match settings c with Some st => serverAddress st | None => "undefined" end
          +++ "' does not exist or cannot be reached.") error ;;
     addConsoleMessage "Please update settings with a valid Minecraft server address."
                       error
   else if Js.includes "ETIMEDOUT" (Js.message err) then
     addConsoleMessage "Connection timed out. Server may be offline or unreachable."
                       error
   else ret tt) ;;
  disconnected ;;
  addConsoleMessage ("Bot error: " +++ Js.message err) error.

Definition onPlayerJoined (player : string) : Act unit :=
  addConsoleMessage ("Player " +++ player +++ " joined the game") info ;;
  broadcastStatus ;;
  checkSleepConditions.

Definition onPlayerLeft (player : string) : Act unit :=
  addConsoleMessage ("Player " +++ player +++ " left the game") info ;;
  broadcastStatus ;;
  c <- get ;;
  match bot c with
  | Some b =>
      let otherPlayers := others b in
      (if Nat.eqb (List.length otherPlayers) 0 then
         addConsoleMessage
           "CRITICAL EVENT: Last player left the game - checking sleep status"
           warning ;;
         forceWakeUpNow ;;
         _ <- setTimeout forceWakeLater 500 ;;
         _ <- setTimeout forceWakeLater 1500 ;;
         _ <- setTimeout forceWakeLater 3000 ;;
         ret tt
       else ret tt) ;;
      checkSleepConditions
  | None => ret tt
  end.

Definition onTime : Act unit := broadcastStatus ;; checkSleepConditions.

Definition onMove : Act unit := broadcastStatus.

Definition onGoalReached (bed : Coordinate) : Act unit :=
  addConsoleMessage "Reached the bed, attempting to sleep" info ;;
  c <- get ;;
  when (isSome (bot c)) (emit (Sleep bed)).

(** The handlers of [bot.sleep(bed).then(..).catch(..)]: the [catch]
    handler also receives what the [then] handler raises. *)
Definition onSleepRejected (err : Js.Error) : Act unit :=
  addConsoleMessage ("Failed to sleep in bed: " +++ Js.message err) error.

Definition onSleepResolved : Act unit :=
  try_catch
    (addConsoleMessage "Bot is now sleeping in bed" info ;; broadcastStatus)
    onSleepRejected.

(** The [catch] handlers of the three [bot.wake()] calls. *)
Definition onWakeRejected (call : WakeCall) (err : Js.Error) : Act unit :=
  match call with
  | wakeAttempt =>
      addConsoleMessage ("Error during wake attempt: " +++ Js.message err) error ;;
      _ <- setTimeout attemptWakeUpLater 1000 ;;
      ret tt
  | wakeDaytime =>
      addConsoleMessage ("Error waking up: " +++ Js.message err) error
  | wakeEmergency retryCount =>
      addConsoleMessage
        ("Failed to wake bot (attempt " +++ Js.ofNat (retryCount + 1) +++ "): "
           +++ Js.message err) error ;;
      if Nat.ltb retryCount 5 then
        let delay := (500 + Z.of_nat retryCount * 300)%Z in
        addConsoleMessage ("Retrying wake in " +++ Js.ofZ delay +++ "ms...") warning ;;
        _ <- setTimeout (attemptWakeLater (retryCount + 1)) (inject_Z delay) ;;
        ret tt
      else ret tt
  end.

(** Only the emergency wake has a [then] handler; what it raises goes to
    the [catch] handler chained behind it. *)
Definition onWakeResolved (call : WakeCall) : Act unit :=
  match call with
  | wakeEmergency _ =>
      try_catch
        (addConsoleMessage "Successfully woke up bot from emergency wake" info ;;
         broadcastStatus)
        (onWakeRejected call)
  | _ => ret tt
  end.

(** *** Timer callbacks; [self] is the handle of the firing timer. *)

Definition runCallback (self : nat) (cb : Callback) : Act unit :=
  match cb with
  | connectionTimeout =>
      c <- get ;;
      let spawned :=
        match bot c with Some b => isSome (Mf.entity b) | None => false end in
      if running c && negb spawned then
        addConsoleMessage
          ("CONNECTION FAILED: Could not connect to "
             +++ match settings c with
                 | Some st => if String.eqb (serverAddress st) "" then "unknown server"
                              else serverAddress st
                 | None => "unknown server"
                 end) error ;;
        addConsoleMessage
          "Please check the server address and make sure the Minecraft server is online."
          error ;;
        disconnected
      else ret tt
  | wakeupInterval =>
      c <- get ;;
      if negb (running c) then clearInterval self
      else
        match bot c with
        | Some b =>
            when (Mf.isSleeping b) forceWakeUpNow ;;
            checkSleepConditions
        | None => ret tt
        end
  | spawnRecheck =>
      c <- get ;;
      when (isSome (bot c) && running c) checkSleepConditions
  | forceWakeLater => forceWakeUpNow
  | boundaryCheckInterval =>
      c <- get ;;
      if negb (running c) then clearInterval self else enforceAreaBoundaries
  | releaseForward =>
      c <- get ;;
      when (isSome (bot c)) (emit (SetControlState "forward" false))
  | wanderStepLater boundary => wanderStep boundary
  | wanderWatchdog boundary =>
      c <- get ;;
      match bot c with
      | Some b =>
          if running c && negb (Mf.isSleeping b) then
            sleepy <- shouldSleep ;;
            if negb sleepy then
              let timeSinceLastAction : Q :=
                if isSome (timeoutId c) then idleFor w else 10000%Q in
              if Qlt_le_dec 8000 timeSinceLastAction then
                addConsoleMessage
                  "No movement detected for a while, forcing new wander step" info ;;
                wanderStep boundary
              else ret tt
            else ret tt
          else ret tt
      | None => ret tt
      end
  | attemptWakeUpLater =>
      c <- get ;;
      match bot c with
      | Some b =>
          if Mf.isSleeping b then
            addConsoleMessage "Bot still sleeping, retrying wake up..." warning ;;
            attemptWakeUp
          else ret tt
      | None => ret tt
      end
  | attemptWakeLater retryCount => attemptWake retryCount
  end.

Definition fireTimer (h : nat) : Act unit :=
  c <- get ;;
  match find (fun t => Nat.eqb (handle t) h) (timers c) with
  | Some t =>
      when (negb (repeats t)) (modify (disarm h)) ;;
      runCallback h (callback t)
  | None => ret tt
  end.

End Callbacks.

(** *** The event loop *)

Inductive Event :=
| CallStart
| CallStop
| CallUpdateSettings (new : BotSettings)
| CallClearConsole
| CallAddClient
| Spawn (connectionTimer : nat)
| Kicked (reason : string)
| Error (connectionTimer : nat) (err : Js.Error)
| PlayerJoined (player : string)
| PlayerLeft (player : string)
| TimeUpdate
| Move
| GoalReached (bed : Coordinate)
| SleepResolved
| SleepRejected (err : Js.Error)
| WakeResolved (call : WakeCall)
| WakeRejected (call : WakeCall) (err : Js.Error)
| TimerFired (h : nat).

Definition dispatch (w : World) (ev : Event) : Act unit :=
  match ev with
  | CallStart => start w
  | CallStop => stop w
  | CallUpdateSettings new => updateSettings w new
  | CallClearConsole => clearConsole w
  | CallAddClient => addClient
  | Spawn t => onSpawn w t
  | Kicked reason => onKicked w reason
  | Error t err => onError w t err
  | PlayerJoined p => onPlayerJoined w p
  | PlayerLeft p => onPlayerLeft w p
  | TimeUpdate => onTime w
  | Move => onMove
  | GoalReached bed => onGoalReached w bed
  | SleepResolved => onSleepResolved w
  | SleepRejected err => onSleepRejected w err
  | WakeResolved call => onWakeResolved w call
  | WakeRejected call err => onWakeRejected w call err
  | TimerFired h => fireTimer w h
  end.

(** The controller after its constructor and [initialize()]. *)
Definition fresh : Controller :=
  mkController None None false None None Storage.create [] 0.

Definition created (w : World) : Controller := final (initialize w fresh).

(** States the controller can be in between two callbacks.  Between
    callbacks the remote side may change the fields of the live session
    object ([reach_world]); session events and promise results may be
    delivered at any time, a timer only while it is armed. *)
Inductive reachable : Controller -> Prop :=
| reach_created w : reachable (created w)
| reach_event w ev c : reachable c -> reachable (final (dispatch w ev c))
| reach_world b b' c :
    reachable c -> bot c = Some b -> reachable (with_bot (Some b') c).

End MinecraftBot.

(** * Properties *)

Import MinecraftBot.
Local Open Scope act_scope.

(** ** Scenarios used as concrete inputs *)

Module Scenario.
Import Schema.

(** A session object as [createBot] hands it out: not logged in yet. *)
Definition joining : Mf.Bot := Mf.mkBot "Gadalar" None false None None.

Definition quiet : World :=
  mkWorld "12:00:00" (inr joining) None None (1 # 2) (9 # 10) (1 # 3) 0.

Definition realServer : BotSettings :=
  mkSettings "play.example.org" "Gadalar" 0 64 0.

(** The operator saves a real address and starts the agent. *)
Definition configured : Controller :=
  final (dispatch quiet (CallUpdateSettings realServer) (created quiet)).

Definition connecting : Controller := final (dispatch quiet CallStart configured).

(** The agent enters the world a hundred blocks away from its home. *)
Definition farAway : Mf.Bot :=
  Mf.mkBot "Gadalar" (Some (Mf.mkEntity (Mf.vec3 (201 # 2) 70 (-7 # 2)))) false
           (Some (Mf.mkTime 1000)) (Some ["Gadalar"; "alice"]).

Definition spawnedFar : Controller :=
  final (dispatch quiet (Spawn 0) (with_bot (Some farAway) connecting)).

(** The agent is asleep next to home at the given tick, with the given company. *)
Definition asleep (others : list string) (tick : Z) : Mf.Bot :=
  Mf.mkBot "Gadalar" (Some (Mf.mkEntity (Mf.vec3 (1 # 2) 64 (3 # 2)))) true
           (Some (Mf.mkTime tick)) (Some ("Gadalar" :: others)).

Definition resting (others : list string) (tick : Z) : Controller :=
  with_bot (Some (asleep others tick)) spawnedFar.

Lemma connecting_reachable : reachable connecting.
Proof. repeat apply reach_event. apply reach_created. Qed.

Lemma spawnedFar_reachable : reachable spawnedFar.
Proof.
  apply reach_event.
  apply (reach_world joining); [exact connecting_reachable | reflexivity].
Qed.

Lemma resting_reachable others tick : reachable (resting others tick).
Proof.
  apply (reach_world farAway); [exact spawnedFar_reachable | reflexivity].
Qed.

End Scenario.

(** ** The bounded console log (storage.ts) *)

Module LogRing.
Import Schema.

Inductive LogOp :=
| Append (m : ConsoleMessage)
| Clear.

Definition apply (st : Storage.MemStorage) (op : LogOp) : Storage.MemStorage :=
  match op with
  | Append m => Storage.addConsoleMessage m st
  | Clear => Storage.clearConsoleMessages st
  end.

(** The store after a sequence of log operations on a new store. *)
Definition replay (ops : list LogOp) : Storage.MemStorage :=
  fold_left apply ops Storage.create.

Lemma add_shape (m : ConsoleMessage) (st : Storage.MemStorage) :
  (List.length (Storage.consoleMessages st) <= 100)%nat ->
  Storage.consoleMessages (Storage.addConsoleMessage m st) =
    (if Nat.eqb (List.length (Storage.consoleMessages st)) 100
     then List.tl (Storage.consoleMessages st) ++ [m]
     else Storage.consoleMessages st ++ [m]).
Proof.
  intros Hlen. unfold Storage.addConsoleMessage. cbn [Storage.consoleMessages].
  rewrite length_app. cbn [List.length].
  destruct (Nat.eqb_spec (List.length (Storage.consoleMessages st)) 100) as [E | N].
  - rewrite E. cbn [Nat.add Nat.ltb Nat.leb].
    replace (Nat.ltb 100 (100 + 1)) with true by reflexivity.
    destruct (Storage.consoleMessages st); [discriminate E | reflexivity].
  - destruct (Nat.ltb_spec 100 (List.length (Storage.consoleMessages st) + 1));
      [lia | reflexivity].
Qed.

Lemma add_bounded (m : ConsoleMessage) (st : Storage.MemStorage) :
  (List.length (Storage.consoleMessages st) <= 100)%nat ->
  (List.length (Storage.consoleMessages (Storage.addConsoleMessage m st)) <= 100)%nat.
Proof.
  intros Hlen. rewrite add_shape by exact Hlen.
  destruct (Nat.eqb_spec (List.length (Storage.consoleMessages st)) 100) as [E | N];
    rewrite length_app; cbn [List.length].
  - destruct (Storage.consoleMessages st); cbn [List.tl List.length] in *; lia.
  - lia.
Qed.

Lemma apply_bounded (op : LogOp) (st : Storage.MemStorage) :
  (List.length (Storage.consoleMessages st) <= 100)%nat ->
  (List.length (Storage.consoleMessages (apply st op)) <= 100)%nat.
Proof.
  destruct op; cbn [apply].
  - apply add_bounded.
  - intros _. cbn. lia.
Qed.

Lemma replay_bounded (ops : list LogOp) :
  (List.length (Storage.consoleMessages (replay ops)) <= 100)%nat.
Proof.
  unfold replay.
  assert (H : (List.length (Storage.consoleMessages Storage.create) <= 100)%nat)
    by (cbn; lia).
  revert H. generalize Storage.create.
  induction ops as [| op ops IH]; intros st H; cbn [fold_left].
  - exact H.
  - apply IH. apply apply_bounded. exact H.
Qed.

(** A hundred and one appends: entry 0 is gone, entries 1..100 remain. *)
Example ring_after_101 :
  let entries := map (fun i => mkMessage "12:00:00" (Js.ofNat i) info) (seq 0 101) in
  map message (Storage.consoleMessages (replay (map Append entries))) =
    map Js.ofNat (seq 1 100).
Proof. vm_compute. reflexivity. Qed.

(** C5. After any sequence of appends and clears the log holds at most 100
    entries; one more append yields the old entries followed by the new
    one, minus the oldest entry exactly when 100 were held, and the bound
    holds again. *)
Theorem console_log_ring (ops : list LogOp) (m : ConsoleMessage) :
  let log := Storage.consoleMessages (replay ops) in
  let log' := Storage.consoleMessages (Storage.addConsoleMessage m (replay ops)) in
  (List.length log <= 100)%nat /\
  log' = (if Nat.eqb (List.length log) 100 then List.tl log ++ [m] else log ++ [m]) /\
  (List.length log' <= 100)%nat.
Proof.
  cbv zeta. pose proof (replay_bounded ops) as H.
  split; [exact H | split].
  - apply add_shape. exact H.
  - apply add_bounded. exact H.
Qed.

End LogRing.
(** ** Numbers: rounding to the nearest double *)

Module Number.
Import Js.
Local Open Scope Q_scope.

Lemma pow2_pos (k : Z) : 0 < pow2 k.
Proof. apply Qpower_0_lt. reflexivity. Qed.

Lemma pow2_plus (a b : Z) : pow2 (a + b) == pow2 a * pow2 b.
Proof. apply Qpower_plus. discriminate. Qed.

Lemma pow2_le (a b : Z) : (a <= b)%Z -> pow2 a <= pow2 b.
Proof. intro H. apply Qpower_le_compat_l; [exact H | discriminate]. Qed.

Lemma pow2_lt (a b : Z) : (a < b)%Z -> pow2 a < pow2 b.
Proof. intro H. apply Qpower_lt_compat_l; [exact H | reflexivity]. Qed.

Lemma pow2_lt_inv (a b : Z) : pow2 a < pow2 b -> (a < b)%Z.
Proof. intro H. apply (Qpower_lt_compat_l_inv 2); [exact H | reflexivity]. Qed.

Lemma pow2_Z (k : Z) : (0 <= k)%Z -> pow2 k == inject_Z (2 ^ k).
Proof. intro H. unfold pow2. rewrite Zpower_Qpower by exact H. reflexivity. Qed.

Lemma div_pow2 (q : Q) (k : Z) : q / pow2 k == q * pow2 (- k).
Proof. unfold pow2, Qdiv. rewrite Qpower_opp. reflexivity. Qed.

Lemma pow2_cancel (k : Z) : pow2 (- k) * pow2 k == 1.
Proof. rewrite <- pow2_plus. replace (- k + k)%Z with 0%Z by lia. reflexivity. Qed.

(** *** The nearest integer *)

Lemma compare_cases (a b : Q) :
  ((a ?= b) = Lt /\ a < b) \/ ((a ?= b) = Eq /\ a == b) \/ ((a ?= b) = Gt /\ b < a).
Proof.
  destruct (a ?= b) eqn:E.
  - right. left. split; [reflexivity | apply Qeq_alt; exact E].
  - left. split; [reflexivity | apply Qlt_alt; exact E].
  - right. right. split; [reflexivity | apply Qgt_alt; exact E].
Qed.

Lemma nearestEven_cases (q : Q) :
  (nearestEven q = Qfloor q /\ q - inject_Z (Qfloor q) <= 1 # 2) \/
  (nearestEven q = (Qfloor q + 1)%Z /\ 1 # 2 <= q - inject_Z (Qfloor q)).
Proof.
  unfold nearestEven.
  destruct (compare_cases (q - inject_Z (Qfloor q)) (1 # 2)) as [[-> E] | [[-> E] | [-> E]]].
  - left. split; [reflexivity | lra].
  - destruct (Z.even (Qfloor q)); [left | right]; split; try reflexivity; lra.
  - right. split; [reflexivity | lra].
Qed.

Lemma nearestEven_comp (x y : Q) : x == y -> nearestEven x = nearestEven y.
Proof.
  intro H. unfold nearestEven. rewrite (Qfloor_comp x y H).
  assert (E : x - inject_Z (Qfloor y) == y - inject_Z (Qfloor y)) by (rewrite H; reflexivity).
  rewrite (Qcompare_comp _ _ E (1 # 2) (1 # 2) (Qeq_refl _)). reflexivity.
Qed.

Lemma nearestEven_mono (x y : Q) : x <= y -> (nearestEven x <= nearestEven y)%Z.
Proof.
  intro H. pose proof (Qfloor_resp_le x y H) as Hf.
  destruct (Z.eq_dec (Qfloor x) (Qfloor y)) as [E | N].
  - unfold nearestEven. rewrite E.
    destruct (compare_cases (x - inject_Z (Qfloor y)) (1 # 2)) as [[-> Ex] | [[-> Ex] | [-> Ex]]],
             (compare_cases (y - inject_Z (Qfloor y)) (1 # 2)) as [[-> Ey] | [[-> Ey] | [-> Ey]]];
      try lia; try (exfalso; lra);
      destruct (Z.even (Qfloor y)); lia.
  - destruct (nearestEven_cases x) as [[-> _] | [-> _]],
             (nearestEven_cases y) as [[-> _] | [-> _]]; lia.
Qed.

Lemma nearestEven_Z (m : Z) : nearestEven (inject_Z m) = m.
Proof.
  unfold nearestEven. rewrite Qfloor_Z.
  assert (E : (inject_Z m - inject_Z m ?= 1 # 2) = Lt) by (apply (proj1 (Qlt_alt _ _)); lra).
  rewrite E. reflexivity.
Qed.

Lemma nearestEven_ge (m : Z) (q : Q) : inject_Z m <= q -> (m <= nearestEven q)%Z.
Proof. intro H. rewrite <- (nearestEven_Z m). apply nearestEven_mono. exact H. Qed.

Lemma nearestEven_le (m : Z) (q : Q) : q <= inject_Z m -> (nearestEven q <= m)%Z.
Proof. intro H. rewrite <- (nearestEven_Z m). apply nearestEven_mono. exact H. Qed.

(** *** The binade of a rational *)

Lemma ilog2_spec (q : Q) :
  ~ q == 0 -> pow2 (ilog2 q) <= Qabs q /\ Qabs q < pow2 (ilog2 q + 1).
Proof.
  intro Hq. destruct q as [n d]. unfold ilog2. cbn [Qnum Qden].
  assert (Hn : (0 < Z.abs n)%Z).
  { destruct (Z.eq_dec n 0) as [-> | N]; [exfalso; apply Hq; reflexivity | lia]. }
  set (a := Z.log2 (Z.abs n)). set (b := Z.log2 (Z.pos d)).
  destruct (Z.log2_spec (Z.abs n) Hn) as [Ha1 Ha2]. fold a in Ha1, Ha2.
  destruct (Z.log2_spec (Z.pos d) eq_refl) as [Hb1 Hb2]. fold b in Hb1, Hb2.
  assert (Ha0 : (0 <= a)%Z) by apply Z.log2_nonneg.
  assert (Hb0 : (0 <= b)%Z) by apply Z.log2_nonneg.
  rewrite Zle_Qle, <- pow2_Z in Ha1, Hb1 by lia.
  rewrite Zlt_Qlt, <- pow2_Z in Ha2, Hb2 by lia.
  replace (Z.succ a) with (a + 1)%Z in Ha2 by lia.
  replace (Z.succ b) with (b + 1)%Z in Hb2 by lia.
  assert (Habs : Qabs (n # d) == inject_Z (Z.abs n) / inject_Z (Z.pos d)).
  { unfold Qabs. apply Qmake_Qdiv. }
  assert (Hd : 0 < inject_Z (Z.pos d)) by reflexivity.
  assert (Hup : Qabs (n # d) < pow2 (a - b + 1)).
  { rewrite Habs. apply Qlt_shift_div_r; [exact Hd |].
    apply Qlt_le_trans with (pow2 (a + 1)); [exact Ha2 |].
    replace (a + 1)%Z with ((a - b + 1) + b)%Z by lia. rewrite pow2_plus.
    apply Qmult_le_l; [apply pow2_pos | exact Hb1]. }
  assert (Hlow : pow2 (a - b - 1) <= Qabs (n # d)).
  { rewrite Habs. apply Qle_shift_div_l; [exact Hd |].
    apply Qle_trans with (pow2 a); [| exact Ha1].
    replace a with ((a - b - 1) + (b + 1))%Z at 2 by lia. rewrite pow2_plus.
    apply Qmult_le_l; [apply pow2_pos | apply Qlt_le_weak; exact Hb2]. }
  destruct (Qle_bool (pow2 (a - b)) (Qabs (n # d))) eqn:E.
  - apply Qle_bool_iff in E. split; [exact E | exact Hup].
  - split; [exact Hlow |].
    replace (a - b - 1 + 1)%Z with (a - b)%Z by lia.
    apply Qnot_le_lt. intro H. apply Qle_bool_iff in H. congruence.
Qed.

Lemma ilog2_unique (q : Q) (e : Z) :
  pow2 e <= Qabs q -> Qabs q < pow2 (e + 1) -> ilog2 q = e.
Proof.
  intros Hlo Hhi.
  assert (Hq : ~ q == 0).
  { intro H. rewrite H in Hlo. pose proof (pow2_pos e). cbn in Hlo. lra. }
  destruct (ilog2_spec q Hq) as [Hlo' Hhi'].
  assert (H1 : (e < ilog2 q + 1)%Z) by (apply pow2_lt_inv; lra).
  assert (H2 : (ilog2 q < e + 1)%Z) by (apply pow2_lt_inv; lra).
  lia.
Qed.

Lemma ilog2_comp (x y : Q) : x == y -> ~ x == 0 -> ilog2 x = ilog2 y.
Proof.
  intros H Hx. destruct (ilog2_spec x Hx) as [Hlo Hhi].
  symmetry. apply ilog2_unique; rewrite <- H; assumption.
Qed.

Lemma ilog2_le (x y : Q) : 0 < x -> x <= y -> (ilog2 x <= ilog2 y)%Z.
Proof.
  intros Hx Hxy.
  assert (Hx0 : ~ x == 0) by lra. assert (Hy0 : ~ y == 0) by lra.
  destruct (ilog2_spec x Hx0) as [Hlo _]. destruct (ilog2_spec y Hy0) as [_ Hhi].
  rewrite Qabs_pos in Hlo, Hhi by lra.
  assert (H : (ilog2 x < ilog2 y + 1)%Z) by (apply pow2_lt_inv; lra).
  lia.
Qed.

Lemma ilog2_abs_le (x y : Q) :
  ~ x == 0 -> Qabs x <= Qabs y -> (ilog2 x <= ilog2 y)%Z.
Proof.
  intros Hx Hxy.
  assert (Hy : ~ y == 0).
  { intro H. rewrite H in Hxy. change (Qabs 0) with 0 in Hxy. apply Hx.
    destruct (Qlt_le_dec x 0) as [Hn | Hp].
    - rewrite Qabs_neg in Hxy by lra. lra.
    - rewrite Qabs_pos in Hxy by lra. lra. }
  destruct (ilog2_spec x Hx) as [Hlo _]. destruct (ilog2_spec y Hy) as [_ Hhi].
  assert (H : (ilog2 x < ilog2 y + 1)%Z) by (apply pow2_lt_inv; lra).
  lia.
Qed.

(** *** Rounding to a multiple of [2^k] *)

Lemma scaled_between (k lo hi : Z) (q : Q) :
  inject_Z lo * pow2 k <= q -> q <= inject_Z hi * pow2 k ->
  inject_Z lo * pow2 k <= inject_Z (nearestEven (q / pow2 k)) * pow2 k /\
  inject_Z (nearestEven (q / pow2 k)) * pow2 k <= inject_Z hi * pow2 k.
Proof.
  intros Hlo Hhi. pose proof (pow2_pos k) as Hk.
  assert (H1 : inject_Z lo <= q / pow2 k) by (apply Qle_shift_div_l; assumption).
  assert (H2 : q / pow2 k <= inject_Z hi) by (apply Qle_shift_div_r; assumption).
  apply nearestEven_ge in H1. apply nearestEven_le in H2.
  rewrite Zle_Qle in H1, H2.
  split; apply Qmult_le_compat_r; try assumption; lra.
Qed.

Lemma scaled_mono (k : Z) (x y : Q) :
  x <= y ->
  inject_Z (nearestEven (x / pow2 k)) * pow2 k <=
  inject_Z (nearestEven (y / pow2 k)) * pow2 k.
Proof.
  intro H. pose proof (pow2_pos k) as Hk.
  apply Qmult_le_compat_r; [| lra]. rewrite <- Zle_Qle. apply nearestEven_mono.
  unfold Qdiv. apply Qmult_le_compat_r; [exact H |].
  apply Qlt_le_weak. apply Qinv_lt_0_compat. exact Hk.
Qed.

Lemma pow2_split (e : Z) (n : Z) : pow2 e == pow2 n * pow2 (e - n).
Proof. rewrite <- pow2_plus. replace (n + (e - n))%Z with e by lia. reflexivity. Qed.

(** A positive real rounds into the closure of its binade. *)
Lemma nearest_pos (q : Q) :
  0 < q ->
  0 <= nearest q /\ nearest q <= pow2 (Z.max (ilog2 q) (-1022) + 1) /\
  ((-1022 <= ilog2 q)%Z -> pow2 (ilog2 q) <= nearest q).
Proof.
  intro Hq. assert (Hq0 : ~ q == 0) by lra.
  destruct (ilog2_spec q Hq0) as [Hlo Hhi]. rewrite Qabs_pos in Hlo, Hhi by lra.
  unfold nearest, exponent. set (e := Z.max (ilog2 q) (-1022)).
  assert (Hup : q <= inject_Z (2 ^ 53) * pow2 (e - 52)).
  { rewrite <- pow2_Z by lia. rewrite <- pow2_plus.
    apply Qle_trans with (pow2 (ilog2 q + 1)); [lra | apply pow2_le; lia]. }
  assert (H0 : inject_Z 0 * pow2 (e - 52) <= q) by (change (inject_Z 0) with 0; lra).
  destruct (scaled_between (e - 52) 0 (2 ^ 53) q H0 Hup) as [Ha Hb].
  split; [change (inject_Z 0) with 0 in Ha; lra |]. split.
  - rewrite <- pow2_Z, <- pow2_plus in Hb by lia.
    replace (53 + (e - 52))%Z with (e + 1)%Z in Hb by lia. exact Hb.
  - intro Hnormal. replace e with (ilog2 q) in * by lia.
    assert (Hdown : inject_Z (2 ^ 52) * pow2 (ilog2 q - 52) <= q).
    { rewrite <- pow2_Z by lia. rewrite <- pow2_plus.
      replace (52 + (ilog2 q - 52))%Z with (ilog2 q) by lia. exact Hlo. }
    destruct (scaled_between (ilog2 q - 52) (2 ^ 52) (2 ^ 53) q Hdown Hup) as [Hc _].
    rewrite <- pow2_Z, <- pow2_plus in Hc by lia.
    replace (52 + (ilog2 q - 52))%Z with (ilog2 q) in Hc by lia. exact Hc.
Qed.

Lemma nearest_neg (q : Q) :
  q < 0 ->
  nearest q <= 0 /\ - pow2 (Z.max (ilog2 q) (-1022) + 1) <= nearest q /\
  ((-1022 <= ilog2 q)%Z -> nearest q <= - pow2 (ilog2 q)).
Proof.
  intro Hq. assert (Hq0 : ~ q == 0) by lra.
  destruct (ilog2_spec q Hq0) as [Hlo Hhi]. rewrite Qabs_neg in Hlo, Hhi by lra.
  unfold nearest, exponent. set (e := Z.max (ilog2 q) (-1022)).
  assert (Hdown : inject_Z (- 2 ^ 53) * pow2 (e - 52) <= q).
  { rewrite inject_Z_opp. rewrite <- pow2_Z by lia.
    assert (E : - pow2 53 * pow2 (e - 52) == - pow2 (e + 1)).
    { replace (e + 1)%Z with (53 + (e - 52))%Z by lia. rewrite pow2_plus. ring. }
    rewrite E.
    assert (pow2 (ilog2 q + 1) <= pow2 (e + 1)) by (apply pow2_le; lia). lra. }
  assert (H0 : q <= inject_Z 0 * pow2 (e - 52)) by (change (inject_Z 0) with 0; lra).
  destruct (scaled_between (e - 52) (- 2 ^ 53) 0 q Hdown H0) as [Ha Hb].
  split; [change (inject_Z 0) with 0 in Hb; lra |]. split.
  - rewrite inject_Z_opp in Ha. rewrite <- pow2_Z in Ha by lia.
    assert (E : - pow2 53 * pow2 (e - 52) == - pow2 (e + 1)).
    { replace (e + 1)%Z with (53 + (e - 52))%Z by lia. rewrite pow2_plus. ring. }
    rewrite E in Ha. exact Ha.
  - intro Hnormal. replace e with (ilog2 q) in * by lia.
    assert (Hup : q <= inject_Z (- 2 ^ 52) * pow2 (ilog2 q - 52)).
    { rewrite inject_Z_opp. rewrite <- pow2_Z by lia.
      assert (E : - pow2 52 * pow2 (ilog2 q - 52) == - pow2 (ilog2 q)).
      { replace (ilog2 q) with (52 + (ilog2 q - 52))%Z at 2 by lia.
        rewrite pow2_plus. ring. }
      rewrite E. lra. }
    destruct (scaled_between (ilog2 q - 52) (- 2 ^ 53) (- 2 ^ 52) q Hdown Hup) as [_ Hc].
    rewrite inject_Z_opp in Hc. rewrite <- pow2_Z in Hc by lia.
    assert (E : - pow2 52 * pow2 (ilog2 q - 52) == - pow2 (ilog2 q)).
    { replace (ilog2 q) with (52 + (ilog2 q - 52))%Z at 2 by lia.
      rewrite pow2_plus. ring. }
    rewrite E in Hc. exact Hc.
Qed.

Lemma nearest_mono (x y : Q) :
  ~ x == 0 -> ~ y == 0 -> x <= y -> nearest x <= nearest y.
Proof.
  intros Hx Hy Hxy.
  destruct (Qlt_le_dec 0 x) as [Hpos | Hneg].
  - (* 0 < x <= y *)
    assert (Hy' : 0 < y) by lra.
    assert (He : (ilog2 x <= ilog2 y)%Z) by (apply ilog2_le; assumption).
    destruct (Z.eq_dec (exponent x) (exponent y)) as [E | N].
    + unfold nearest. rewrite E. apply scaled_mono. exact Hxy.
    + unfold exponent in N.
      destruct (nearest_pos x Hpos) as (_ & Hup & _).
      destruct (nearest_pos y Hy') as (_ & _ & Hdown).
      assert (Hn : (-1022 <= ilog2 y)%Z) by lia.
      specialize (Hdown Hn).
      assert (pow2 (Z.max (ilog2 x) (-1022) + 1) <= pow2 (ilog2 y)) by (apply pow2_le; lia).
      lra.
  - assert (Hx' : x < 0) by (destruct (Qeq_dec x 0); [contradiction | lra]).
    destruct (Qlt_le_dec y 0) as [Hyneg | Hypos].
    + (* x <= y < 0 *)
      assert (He : (ilog2 y <= ilog2 x)%Z).
      { apply ilog2_abs_le; [exact Hy |]. rewrite !Qabs_neg by lra. lra. }
      destruct (Z.eq_dec (exponent x) (exponent y)) as [E | N].
      * unfold nearest. rewrite E. apply scaled_mono. exact Hxy.
      * unfold exponent in N.
        destruct (nearest_neg x Hx') as (_ & _ & Hup).
        destruct (nearest_neg y Hyneg) as (_ & Hdown & _).
        assert (Hn : (-1022 <= ilog2 x)%Z) by lia.
        specialize (Hup Hn).
        assert (pow2 (Z.max (ilog2 y) (-1022) + 1) <= pow2 (ilog2 x)) by (apply pow2_le; lia).
        lra.
    + assert (Hy' : 0 < y) by (destruct (Qeq_dec y 0); [contradiction | lra]).
      destruct (nearest_neg x Hx') as (H1 & _). destruct (nearest_pos y Hy') as (H2 & _).
      lra.
Qed.

(** *** The Number nearest to a real *)

Definition clamp (v : Q) : Q :=
  if Qle_bool infinity v then infinity
  else if Qle_bool v (- infinity) then - infinity
  else v.

Lemma infinity_pos : 0 < infinity.
Proof. apply pow2_pos. Qed.

Lemma clamp_cases (v : Q) :
  (infinity <= v /\ clamp v = infinity) \/
  (v <= - infinity /\ clamp v = - infinity) \/
  (- infinity < v /\ v < infinity /\ clamp v = v).
Proof.
  unfold clamp. pose proof infinity_pos as Hi.
  destruct (Qle_bool infinity v) eqn:E1.
  - left. split; [apply Qle_bool_iff; exact E1 | reflexivity].
  - assert (H1 : v < infinity).
    { apply Qnot_le_lt. intro H. apply Qle_bool_iff in H. congruence. }
    destruct (Qle_bool v (- infinity)) eqn:E2.
    + right. left. split; [apply Qle_bool_iff; exact E2 | reflexivity].
    + right. right. split; [| split; [exact H1 | reflexivity]].
      apply Qnot_le_lt. intro H. apply Qle_bool_iff in H. congruence.
Qed.

Lemma clamp_mono (u v : Q) : u <= v -> clamp u <= clamp v.
Proof.
  intro H. pose proof infinity_pos as Hi.
  destruct (clamp_cases u) as [[H1 ->] | [[H1 ->] | (H1 & H1' & ->)]],
           (clamp_cases v) as [[H2 ->] | [[H2 ->] | (H2 & H2' & ->)]]; lra.
Qed.

Lemma fl_zero (q : Q) : q == 0 -> fl q = 0.
Proof. intro H. unfold fl. apply Qeq_bool_iff in H. rewrite H. reflexivity. Qed.

Lemma fl_nonzero (q : Q) : ~ q == 0 -> fl q = clamp (nearest q).
Proof.
  intro H. unfold fl, clamp.
  destruct (Qeq_bool q 0) eqn:E; [apply Qeq_bool_iff in E; contradiction | reflexivity].
Qed.

Lemma fl_nonneg (q : Q) : 0 <= q -> 0 <= fl q.
Proof.
  intro H. destruct (Qeq_dec q 0) as [E | N].
  - rewrite fl_zero by exact E. lra.
  - rewrite fl_nonzero by exact N.
    destruct (nearest_pos q) as (H1 & _); [lra |].
    pose proof infinity_pos.
    destruct (clamp_cases (nearest q)) as [[_ ->] | [[H2 ->] | (_ & _ & ->)]]; lra.
Qed.

Lemma fl_nonpos (q : Q) : q <= 0 -> fl q <= 0.
Proof.
  intro H. destruct (Qeq_dec q 0) as [E | N].
  - rewrite fl_zero by exact E. lra.
  - rewrite fl_nonzero by exact N.
    destruct (nearest_neg q) as (H1 & _); [lra |].
    pose proof infinity_pos.
    destruct (clamp_cases (nearest q)) as [[H2 ->] | [[_ ->] | (_ & _ & ->)]]; lra.
Qed.

(** Rounding is monotone. *)
Theorem fl_mono (x y : Q) : x <= y -> fl x <= fl y.
Proof.
  intro H.
  destruct (Qeq_dec x 0) as [Ex | Nx].
  - rewrite (fl_zero x Ex). apply fl_nonneg. lra.
  - destruct (Qeq_dec y 0) as [Ey | Ny].
    + rewrite (fl_zero y Ey). apply fl_nonpos. lra.
    + rewrite !fl_nonzero by assumption. apply clamp_mono.
      apply nearest_mono; assumption.
Qed.

Lemma fl_comp (x y : Q) : x == y -> fl x == fl y.
Proof. intro H. apply Qle_antisym; apply fl_mono; lra. Qed.

(** *** Integers *)

(** The integers from [-2^53] to [2^53] are Numbers. *)
Definition safe (n : Z) : Prop := (Z.abs n <= 2 ^ 53)%Z.

Lemma ilog2_Z (n : Z) : n <> 0%Z -> ilog2 (inject_Z n) = Z.log2 (Z.abs n).
Proof.
  intro Hn. assert (H : (0 < Z.abs n)%Z) by lia.
  destruct (Z.log2_spec (Z.abs n) H) as [Hlo Hhi].
  pose proof (Z.log2_nonneg (Z.abs n)) as H0.
  assert (E : Qabs (inject_Z n) == inject_Z (Z.abs n)) by reflexivity.
  apply ilog2_unique; rewrite E, pow2_Z by lia.
  - rewrite <- Zle_Qle. exact Hlo.
  - rewrite <- Zlt_Qlt. replace (Z.log2 (Z.abs n) + 1)%Z with (Z.succ (Z.log2 (Z.abs n))) by lia.
    exact Hhi.
Qed.

Lemma nearest_Z (n : Z) :
  n <> 0%Z -> (Z.abs n < 2 ^ 53)%Z -> nearest (inject_Z n) == inject_Z n.
Proof.
  intros Hn Hsafe. unfold nearest, exponent. rewrite (ilog2_Z n Hn).
  set (e := Z.log2 (Z.abs n)).
  assert (He0 : (0 <= e)%Z) by apply Z.log2_nonneg.
  assert (He : (e < 53)%Z) by (apply Z.log2_lt_pow2; lia).
  replace (Z.max e (-1022)) with e by lia.
  assert (E : inject_Z n / pow2 (e - 52) == inject_Z (n * 2 ^ (52 - e))).
  { rewrite div_pow2. replace (- (e - 52))%Z with (52 - e)%Z by lia.
    rewrite pow2_Z by lia. rewrite inject_Z_mult. reflexivity. }
  rewrite (nearestEven_comp _ _ E), nearestEven_Z.
  rewrite inject_Z_mult, <- pow2_Z by lia.
  rewrite <- Qmult_assoc. replace (52 - e)%Z with (- (e - 52))%Z by lia.
  rewrite pow2_cancel. ring.
Qed.

Lemma below_infinity (n : Z) : safe n -> - infinity < inject_Z n /\ inject_Z n < infinity.
Proof.
  unfold safe. intro H.
  assert (H1 : pow2 53 < infinity) by (apply pow2_lt; lia).
  rewrite pow2_Z in H1 by lia.
  assert (H2 : - inject_Z (2 ^ 53) <= inject_Z n /\ inject_Z n <= inject_Z (2 ^ 53)).
  { rewrite <- inject_Z_opp, <- !Zle_Qle. lia. }
  lra.
Qed.

(** Rounding leaves a safe integer as it is. *)
Theorem fl_safe (n : Z) : safe n -> fl (inject_Z n) == inject_Z n.
Proof.
  intro Hsafe. destruct (Z.eq_dec n 0) as [-> | Hn]; [reflexivity |].
  destruct (Z.eq_dec (Z.abs n) (2 ^ 53)) as [Hmax | Hlt].
  - assert (E : n = (2 ^ 53)%Z \/ n = (- 2 ^ 53)%Z) by lia.
    destruct E as [-> | ->]; apply Qeq_bool_eq; vm_compute; reflexivity.
  - rewrite fl_nonzero.
    2:{ intro H. apply Hn. apply inject_Z_injective. exact H. }
    assert (En : nearest (inject_Z n) == inject_Z n) by (apply nearest_Z; unfold safe in Hsafe; lia).
    destruct (below_infinity n Hsafe) as [H1 H2].
    destruct (clamp_cases (nearest (inject_Z n))) as [[H ->] | [[H ->] | (_ & _ & ->)]];
      [lra | lra | exact En].
Qed.

Lemma floor_le (q : Q) (m : Z) : q <= inject_Z m -> (floor q <= m)%Z.
Proof.
  intro H. unfold floor. rewrite <- (Qfloor_Z m). apply Qfloor_resp_le. exact H.
Qed.

Lemma floor_ge (q : Q) (m : Z) : inject_Z m <= q -> (m <= floor q)%Z.
Proof.
  intro H. unfold floor. rewrite <- (Qfloor_Z m). apply Qfloor_resp_le. exact H.
Qed.

(** A rounded value stays on its side of every safe integer. *)
Lemma fl_le_safe (q : Q) (m : Z) : safe m -> q <= inject_Z m -> fl q <= inject_Z m.
Proof. intros Hm H. rewrite <- (fl_safe m Hm). apply fl_mono. exact H. Qed.

Lemma fl_ge_safe (q : Q) (m : Z) : safe m -> inject_Z m <= q -> inject_Z m <= fl q.
Proof. intros Hm H. rewrite <- (fl_safe m Hm). apply fl_mono. exact H. Qed.

Lemma plus_exact (a b : Z) : safe (a + b) -> plus a b = (a + b)%Z.
Proof.
  intro H. unfold plus, add, floor. rewrite <- inject_Z_plus.
  rewrite (Qfloor_comp _ _ (fl_safe _ H)). apply Qfloor_Z.
Qed.

Lemma minus_exact (a b : Z) : safe (a - b) -> minus a b = (a - b)%Z.
Proof.
  intro H. unfold minus, sub, floor.
  assert (E : inject_Z a - inject_Z b == inject_Z (a - b)).
  { unfold Z.sub. rewrite inject_Z_plus, inject_Z_opp. reflexivity. }
  rewrite (Qfloor_comp _ _ (fl_comp _ _ E)).
  rewrite (Qfloor_comp _ _ (fl_safe _ H)). apply Qfloor_Z.
Qed.

Lemma minus_le (a b m : Z) : safe m -> (a - b <= m)%Z -> (minus a b <= m)%Z.
Proof.
  intros Hm H. unfold minus, sub. apply floor_le. apply fl_le_safe; [exact Hm |].
  rewrite Zle_Qle in H. unfold Z.sub in H. rewrite inject_Z_plus, inject_Z_opp in H. lra.
Qed.

Lemma minus_ge (a b m : Z) : safe m -> (m <= a - b)%Z -> (m <= minus a b)%Z.
Proof.
  intros Hm H. unfold minus, sub. apply floor_ge. apply fl_ge_safe; [exact Hm |].
  rewrite Zle_Qle in H. unfold Z.sub in H. rewrite inject_Z_plus, inject_Z_opp in H. lra.
Qed.

Lemma plus_le (a b m : Z) : safe m -> (a + b <= m)%Z -> (plus a b <= m)%Z.
Proof.
  intros Hm H. unfold plus, add. apply floor_le. apply fl_le_safe; [exact Hm |].
  rewrite Zle_Qle, inject_Z_plus in H. exact H.
Qed.

Lemma plus_ge (a b m : Z) : safe m -> (m <= a + b)%Z -> (m <= plus a b)%Z.
Proof.
  intros Hm H. unfold plus, add. apply floor_ge. apply fl_ge_safe; [exact Hm |].
  rewrite Zle_Qle, inject_Z_plus in H. exact H.
Qed.

Lemma safe_small (n : Z) : (-2 <= n <= 2)%Z -> safe n.
Proof. unfold safe. intro H. change (2 ^ 53)%Z with 9007199254740992%Z. lia. Qed.

(** Comparing a difference of integers with 0 or 1 is exact, whatever
    their size. *)
Lemma minus_pos (a b : Z) : (0 < minus a b)%Z <-> (b < a)%Z.
Proof.
  split; intro H.
  - destruct (Z_lt_le_dec b a) as [Hlt | Hge]; [exact Hlt |].
    assert (minus a b <= 0)%Z by (apply minus_le; [apply safe_small |]; lia). lia.
  - assert (1 <= minus a b)%Z by (apply minus_ge; [apply safe_small |]; lia). lia.
Qed.

Lemma minus_neg (a b : Z) : (minus a b < 0)%Z <-> (a < b)%Z.
Proof.
  split; intro H.
  - destruct (Z_lt_le_dec a b) as [Hlt | Hge]; [exact Hlt |].
    assert (0 <= minus a b)%Z by (apply minus_ge; [apply safe_small |]; lia). lia.
  - assert (minus a b <= -1)%Z by (apply minus_le; [apply safe_small |]; lia). lia.
Qed.

Lemma minus_far (a b : Z) : (1 < Z.abs (minus a b))%Z <-> (1 < Z.abs (a - b))%Z.
Proof.
  split; intro H.
  - destruct (Z_lt_le_dec 1 (Z.abs (a - b))) as [Hlt | Hge]; [exact Hlt |].
    assert (minus a b = a - b)%Z by (apply minus_exact; apply safe_small; lia). lia.
  - destruct (Z_lt_le_dec 1 (a - b)) as [Hp | Hn].
    + assert (2 <= minus a b)%Z by (apply minus_ge; [apply safe_small |]; lia). lia.
    + assert (minus a b <= -2)%Z by (apply minus_le; [apply safe_small |]; lia). lia.
Qed.

End Number.

(** ** The status snapshot (getBotStatus) *)

Module StatusFacts.
Import Schema.

Definition idleSnapshot : BotStatus :=
  mkStatus false "Idle" (mkCoord 0 0 0) "day" [] (repeat false 9).

(** The only state in which [getBotStatus] raises. *)
Lemma getBotStatus_thrown (c : Controller) (e : Js.Error) :
  getBotStatus c = Thrown e ->
  running c = true /\ homePosition c <> None /\
  exists b, bot c = Some b /\ Mf.entity b = None.
Proof.
  unfold getBotStatus.
  destruct (bot c) as [b |]; [| discriminate].
  destruct (running c); [| discriminate].
  destruct (homePosition c) as [home |]; [| discriminate].
  destruct (Mf.entity b) eqn:E; [discriminate |].
  intros _. repeat split; [discriminate |]. exists b. split; [reflexivity | exact E].
Qed.

Lemma getBotStatus_idle (c : Controller) :
  running c = false \/ bot c = None -> getBotStatus c = Done idleSnapshot.
Proof.
  unfold getBotStatus, defaultStatus, idleSnapshot.
  intros [H | H]; rewrite H.
  - destruct (bot c); reflexivity.
  - rewrite andb_false_r. reflexivity.
Qed.

(** C9. While the controller is not running, or holds no session, the
    snapshot is the fixed default one: not connected, "Idle", position
    (0,0,0), "day", no participants, nine false cells; nothing of the
    session object or of the home position shows in it. *)
Theorem status_default_when_disconnected (c : Controller) :
  running c = false \/ bot c = None ->
  getBotStatus c =
    Done (mkStatus false "Idle" (mkCoord 0 0 0) "day" []
                   [false; false; false; false; false; false; false; false; false]).
Proof.
  intro Hoff. unfold getBotStatus, defaultStatus.
  destruct Hoff as [Hrun | Hbot].
  - rewrite Hrun. cbn [andb repeat].
    destruct (bot c) as [b |]; reflexivity.
  - rewrite Hbot. cbn [isSome repeat].
    rewrite andb_false_r. reflexivity.
Qed.

Lemma status_default_when_disconnected_witness :
  getBotStatus Scenario.configured =
    Done (mkStatus false "Idle" (mkCoord 0 0 0) "day" []
                   [false; false; false; false; false; false; false; false; false]).
Proof.
  apply (status_default_when_disconnected Scenario.configured).
  left. reflexivity.
Defined.

(** C8 as stated fails: a connected, awake agent reports the activity
    "Wandering in 3x3 area", which is none of the three short names. *)
Lemma activity_not_short_enum :
  reachable Scenario.connecting /\
  exists st, getBotStatus Scenario.connecting = Done st /\
             activity st <> "Idle" /\ activity st <> "Wandering" /\
             activity st <> "Sleeping".
Proof.
  split; [exact Scenario.connecting_reachable |].
  eexists. split; [reflexivity |]. cbn. repeat split; discriminate.
Qed.

(** C8, amended. Every snapshot that [getBotStatus] returns carries one of
    the three strings "Idle", "Wandering in 3x3 area", "Sleeping". *)
Theorem activity_three_values (c : Controller) (st : BotStatus) :
  getBotStatus c = Done st ->
  activity st = "Idle" \/ activity st = "Wandering in 3x3 area" \/
  activity st = "Sleeping".
Proof.
  unfold getBotStatus, defaultStatus.
  destruct (bot c) as [b |]; [| intros [= <-]; left; reflexivity].
  destruct (running c); [| intros [= <-]; left; reflexivity].
  destruct (homePosition c) as [home |].
  - destruct (Mf.entity b); [| discriminate].
    intros [= <-]. cbn [activity]. destruct (Mf.isSleeping b); auto.
  - intros [= <-]. cbn [activity]. destruct (Mf.isSleeping b); auto.
Qed.

Lemma activity_three_values_witness :
  activity idleSnapshot = "Idle" \/
  activity idleSnapshot = "Wandering in 3x3 area" \/
  activity idleSnapshot = "Sleeping".
Proof.
  apply (activity_three_values Scenario.configured idleSnapshot).
  reflexivity.
Defined.

(** The nine cells in closed form. *)
Lemma markArea_cells (botX botZ : Z) (home : Coordinate) :
  let cell dz dx :=
    (botX =? Js.plus (x home) dx)%Z && (botZ =? Js.plus (z home) dz)%Z in
  markArea botX botZ home (repeat false 9) =
    [cell (-1) (-1); cell (-1) 0; cell (-1) 1;
     cell 0 (-1);    cell 0 0;    cell 0 1;
     cell 1 (-1);    cell 1 0;    cell 1 1].
Proof. reflexivity. Qed.

(** Next to a home below [2^53] in size the sums [home + x] are exact. *)
Lemma plus_offset (h d : Z) :
  (Z.abs h < 2 ^ 53)%Z -> (-1 <= d <= 1)%Z -> Js.plus h d = (h + d)%Z.
Proof.
  intros Hh Hd. apply Number.plus_exact. unfold Number.safe.
  change (2 ^ 53)%Z with 9007199254740992%Z in *. lia.
Qed.

Lemma markArea_offset (botX botZ : Z) (home : Coordinate) :
  (Z.abs (x home) < 2 ^ 53)%Z -> (Z.abs (z home) < 2 ^ 53)%Z ->
  let dx := botX - x home in
  let dz := botZ - z home in
  markArea botX botZ home (repeat false 9) =
    (if (Z.abs dx <=? 1)%Z && (Z.abs dz <=? 1)%Z
     then Js.assign (Z.to_nat ((dz + 1) * 3 + (dx + 1))) true (repeat false 9)
     else repeat false 9).
Proof.
  intros Hsx Hsz. cbv zeta. rewrite markArea_cells. cbv zeta.
  rewrite !(plus_offset (x home)), !(plus_offset (z home)) by (assumption || lia).
  assert (Hx : botX - x home = -1 \/ botX - x home = 0 \/ botX - x home = 1 \/
               1 < Z.abs (botX - x home)) by lia.
  assert (Hz : botZ - z home = -1 \/ botZ - z home = 0 \/ botZ - z home = 1 \/
               1 < Z.abs (botZ - z home)) by lia.
  destruct Hx as [Hx | [Hx | [Hx | Hx]]], Hz as [Hz | [Hz | [Hz | Hz]]];
    try rewrite Hx; try rewrite Hz;
    repeat match goal with
           | |- context [Z.eqb ?a ?b] => destruct (Z.eqb_spec a b); try lia
           | |- context [Z.leb ?a ?b] => destruct (Z.leb_spec a b); try lia
           end;
    reflexivity.
Qed.

(** C2 as stated fails: after spawning far from home the agent is
    connected with a home set, yet no cell of the mask is true. *)
Lemma area_mask_empty_when_outside :
  reachable Scenario.spawnedFar /\
  running Scenario.spawnedFar = true /\
  isSome (bot Scenario.spawnedFar) = true /\
  isSome (homePosition Scenario.spawnedFar) = true /\
  exists st, getBotStatus Scenario.spawnedFar = Done st /\
             connected st = true /\
             count_occ bool_dec (area st) true = 0%nat.
Proof.
  split; [exact Scenario.spawnedFar_reachable |].
  repeat split. eexists. split; [vm_compute; reflexivity |]. split; reflexivity.
Qed.

(** Beyond the safe integers the mask can even show two cells: with the
    home at [2^53], which the settings schema accepts, [home.x + 1] is
    [2^53] again, so an agent standing on the home block marks the home
    cell and the cell east of it. *)
Example area_mask_two_cells :
  markArea (2 ^ 53) 0 (mkCoord (2 ^ 53) 64 0) (repeat false 9) =
    [false; false; false; false; true; true; false; false; false].
Proof. vm_compute. reflexivity. Qed.

(** C2, amended. With a spawned session and a home whose x and z are
    below [2^53] in size, the snapshot is connected and its mask has
    nine cells; when the floored position is within one block of home
    on both axes exactly the cell of that offset (row [dz + 1], column
    [dx + 1]) is true, otherwise no cell is: the offset is not
    clamped. *)
Theorem area_mask_marks_exact_offset
    (c : Controller) (b : Mf.Bot) (e : Mf.Entity) (home : Coordinate) :
  running c = true -> bot c = Some b -> Mf.entity b = Some e ->
  homePosition c = Some home ->
  (Z.abs (x home) < 2 ^ 53)%Z -> (Z.abs (z home) < 2 ^ 53)%Z ->
  let dx := Js.floor (Mf.x (Mf.position e)) - x home in
  let dz := Js.floor (Mf.z (Mf.position e)) - z home in
  let inside := (Z.abs dx <=? 1)%Z && (Z.abs dz <=? 1)%Z in
  exists st,
    getBotStatus c = Done st /\ connected st = true /\
    area st = (if inside
               then Js.assign (Z.to_nat ((dz + 1) * 3 + (dx + 1))) true (repeat false 9)
               else repeat false 9) /\
    List.length (area st) = 9%nat /\
    count_occ bool_dec (area st) true = (if inside then 1 else 0)%nat.
Proof.
  intros Hrun Hbot Hent Hhome Hsx Hsz. cbv zeta.
  unfold getBotStatus, defaultStatus. rewrite Hbot, Hrun, Hhome, Hent.
  eexists. split; [reflexivity |]. cbn [connected area isSome andb].
  split; [reflexivity |].
  rewrite markArea_offset by assumption. cbv zeta.
  set (dx := Js.floor (Mf.x (Mf.position e)) - x home).
  set (dz := Js.floor (Mf.z (Mf.position e)) - z home).
  split; [reflexivity |].
  destruct ((Z.abs dx <=? 1)%Z && (Z.abs dz <=? 1)%Z) eqn:Hin; [| split; reflexivity].
  apply andb_prop in Hin. destruct Hin as [Hx Hz].
  apply Z.leb_le in Hx, Hz.
  assert (Ex : dx = -1 \/ dx = 0 \/ dx = 1) by lia.
  assert (Ez : dz = -1 \/ dz = 0 \/ dz = 1) by lia.
  destruct Ex as [-> | [-> | ->]], Ez as [-> | [-> | ->]]; split; reflexivity.
Qed.

Lemma area_mask_marks_exact_offset_witness :
  exists st,
    getBotStatus (Scenario.resting ["alice"] 14000) = Done st /\
    connected st = true /\
    area st = [false; false; false; false; false; false; false; true; false] /\
    List.length (area st) = 9%nat /\
    count_occ bool_dec (area st) true = 1%nat.
Proof.
  exact (area_mask_marks_exact_offset
           (Scenario.resting ["alice"] 14000)
           (Scenario.asleep ["alice"] 14000)
           (Mf.mkEntity (Mf.vec3 (1 # 2) 64 (3 # 2)))
           (mkCoord 0 64 0)
           eq_refl eq_refl eq_refl eq_refl eq_refl eq_refl).
Defined.

End StatusFacts.

(** ** Which callbacks touch the session and the running flag *)

Module Frame.
Import Schema.

(** [m] leaves [this.bot] and [this.running] as they were, whether it
    returns or raises. *)
Definition keeps_session {A} (m : Act A) : Prop :=
  forall c, bot (final (m c)) = bot c /\ running (final (m c)) = running c.

Lemma keeps_ret {A} (a : A) : keeps_session (ret a).
Proof. intro c. split; reflexivity. Qed.

Lemma keeps_throw {A} (e : Js.Error) : keeps_session (@throw A e).
Proof. intro c. split; reflexivity. Qed.

Lemma keeps_get : keeps_session get.
Proof. intro c. split; reflexivity. Qed.

Lemma keeps_emit (e : Effect) : keeps_session (emit e).
Proof. intro c. split; reflexivity. Qed.

Lemma keeps_bind {A B} (m : Act A) (k : A -> Act B) :
  keeps_session m -> (forall a, keeps_session (k a)) -> keeps_session (bind m k).
Proof.
  intros Hm Hk c. unfold bind. destruct (Hm c) as [Hb Hr].
  destruct (m c) as [[a | e] c1 s1 q1]; cbn [final] in *.
  - destruct (Hk a c1) as [Hb' Hr'].
    destruct (k a c1) as [o c2 s2 q2]; cbn [final] in *. split; congruence.
  - split; assumption.
Qed.

Lemma keeps_try_catch {A} (m : Act A) (h : Js.Error -> Act A) :
  keeps_session m -> (forall e, keeps_session (h e)) -> keeps_session (try_catch m h).
Proof.
  intros Hm Hh c. unfold try_catch. destruct (Hm c) as [Hb Hr].
  destruct (m c) as [[a | e] c1 s1 q1]; cbn [final] in *.
  - split; assumption.
  - destruct (Hh e c1) as [Hb' Hr'].
    destruct (h e c1) as [o c2 s2 q2]; cbn [final] in *. split; congruence.
Qed.

Lemma keeps_modify (f : Controller -> Controller) :
  (forall c, bot (f c) = bot c /\ running (f c) = running c) ->
  keeps_session (modify f).
Proof. intros H c. exact (H c). Qed.

Lemma keeps_arm (cb : Callback) (ms : Q) (rep : bool) : keeps_session (arm cb ms rep).
Proof. intro c. split; reflexivity. Qed.

Lemma keeps_broadcastStatus : keeps_session broadcastStatus.
Proof. intro c. unfold broadcastStatus. destruct (getBotStatus c); split; reflexivity. Qed.

Lemma keeps_addConsoleMessage w message type :
  keeps_session (addConsoleMessage w message type).
Proof. intro c. split; reflexivity. Qed.

Lemma keeps_newBot w host user : keeps_session (newBot w host user).
Proof. intro c. split; reflexivity. Qed.

Lemma keeps_botQuit w : keeps_session (botQuit w).
Proof. intro c. split; reflexivity. Qed.

Create HintDb frame.
#[export] Hint Resolve keeps_ret keeps_throw keeps_get keeps_emit keeps_arm
  keeps_broadcastStatus keeps_addConsoleMessage keeps_newBot keeps_botQuit : frame.

(** Walks through a callback body: sequencing, handlers and branches. *)
Ltac frame :=
  repeat first
    [ progress intros
    | progress cbv zeta
    | solve [auto with frame]
    | apply keeps_bind
    | apply keeps_try_catch
    | apply keeps_modify; intro; split; reflexivity
    | progress unfold when, setTimeout, setInterval, clearTimeout, clearInterval
    | match goal with
      | |- keeps_session (match ?x with _ => _ end) => destruct x
      end ].

Lemma keeps_shouldSleep w : keeps_session (shouldSleep w).
Proof. unfold shouldSleep. frame. Qed.
#[export] Hint Resolve keeps_shouldSleep : frame.

Lemma keeps_findAndSleepInBed w : keeps_session (findAndSleepInBed w).
Proof. unfold findAndSleepInBed. frame. Qed.
#[export] Hint Resolve keeps_findAndSleepInBed : frame.

Lemma keeps_attemptWakeUp w : keeps_session (attemptWakeUp w).
Proof. unfold attemptWakeUp. frame. Qed.
#[export] Hint Resolve keeps_attemptWakeUp : frame.

Lemma keeps_checkSleepConditions w : keeps_session (checkSleepConditions w).
Proof. unfold checkSleepConditions. frame. Qed.
#[export] Hint Resolve keeps_checkSleepConditions : frame.

Lemma keeps_attemptWake retryCount : keeps_session (attemptWake retryCount).
Proof. unfold attemptWake. frame. Qed.
#[export] Hint Resolve keeps_attemptWake : frame.

Lemma keeps_forceWakeUpNow w : keeps_session (forceWakeUpNow w).
Proof. unfold forceWakeUpNow. frame. Qed.
#[export] Hint Resolve keeps_forceWakeUpNow : frame.

Lemma keeps_enforceAreaBoundaries w : keeps_session (enforceAreaBoundaries w).
Proof. unfold enforceAreaBoundaries. frame. Qed.
#[export] Hint Resolve keeps_enforceAreaBoundaries : frame.

Lemma keeps_moveDirectly w x y z : keeps_session (moveDirectly w x y z).
Proof. unfold moveDirectly. frame. Qed.
#[export] Hint Resolve keeps_moveDirectly : frame.

Lemma keeps_rearm boundary ms : keeps_session (rearm boundary ms).
Proof. unfold rearm. frame. Qed.
#[export] Hint Resolve keeps_rearm : frame.

Lemma keeps_wanderStep w boundary : keeps_session (wanderStep w boundary).
Proof. unfold wanderStep. frame. Qed.
#[export] Hint Resolve keeps_wanderStep : frame.

Lemma keeps_startWandering w : keeps_session (startWandering w).
Proof. unfold startWandering. frame. Qed.
#[export] Hint Resolve keeps_startWandering : frame.

Lemma keeps_updateSettings w new : keeps_session (updateSettings w new).
Proof. unfold updateSettings. frame. Qed.

Lemma keeps_clearConsole w : keeps_session (clearConsole w).
Proof. unfold clearConsole. frame. Qed.

Lemma keeps_onSpawn w t : keeps_session (onSpawn w t).
Proof. unfold onSpawn. frame. Qed.

Lemma keeps_onPlayerJoined w p : keeps_session (onPlayerJoined w p).
Proof. unfold onPlayerJoined. frame. Qed.

Lemma keeps_onPlayerLeft w p : keeps_session (onPlayerLeft w p).
Proof. unfold onPlayerLeft. frame. Qed.

Lemma keeps_onTime w : keeps_session (onTime w).
Proof. unfold onTime. frame. Qed.

Lemma keeps_onGoalReached w bed : keeps_session (onGoalReached w bed).
Proof. unfold onGoalReached. frame. Qed.

Lemma keeps_onSleepRejected w err : keeps_session (onSleepRejected w err).
Proof. unfold onSleepRejected. frame. Qed.
#[export] Hint Resolve keeps_onSleepRejected : frame.

Lemma keeps_onSleepResolved w : keeps_session (onSleepResolved w).
Proof. unfold onSleepResolved. frame. Qed.

Lemma keeps_onWakeRejected w call err : keeps_session (onWakeRejected w call err).
Proof. unfold onWakeRejected. frame. Qed.
#[export] Hint Resolve keeps_onWakeRejected : frame.

Lemma keeps_onWakeResolved w call : keeps_session (onWakeResolved w call).
Proof. unfold onWakeResolved. frame. Qed.

(** Every timer callback but the connection timeout. *)
Lemma keeps_runCallback w self cb :
  cb <> connectionTimeout -> keeps_session (runCallback w self cb).
Proof.
  intro Hcb. destruct cb; try congruence; cbn [runCallback]; frame.
Qed.

End Frame.

(** ** Running a callback step by step *)

Module Exec.
Import Schema.

(** The run [r] with the actions [es] performed before it. *)
Definition after (es : list Effect) {A} (r : Run A) : Run A :=
  ran (outcome r) (final r) (es ++ sent r) (queued r).

(** The run [r] with the frames [qs] queued before its own. *)
Definition later (qs : list Effect) {A} (r : Run A) : Run A :=
  ran (outcome r) (final r) (sent r) (qs ++ queued r).

Lemma after_nil {A} (r : Run A) : after [] r = r.
Proof. destruct r. reflexivity. Qed.

Lemma later_nil {A} (r : Run A) : later [] r = r.
Proof. destruct r. reflexivity. Qed.

Lemma after_after {A} (es es' : list Effect) (r : Run A) :
  after es (after es' r) = after (es ++ es') r.
Proof. unfold after. cbn [outcome final sent queued]. rewrite app_assoc. reflexivity. Qed.

Lemma later_later {A} (qs qs' : list Effect) (r : Run A) :
  later qs (later qs' r) = later (qs ++ qs') r.
Proof. unfold later. cbn [outcome final sent queued]. rewrite app_assoc. reflexivity. Qed.

Lemma bind_ran {A B} (m : Act A) (k : A -> Act B) (c c1 : Controller) a s1 q1 :
  m c = ran (Done a) c1 s1 q1 -> bind m k c = after s1 (later q1 (k a c1)).
Proof. intro H. unfold bind. rewrite H. destruct (k a c1). reflexivity. Qed.

Lemma bind_run {A B} (m : Act A) (k : A -> Act B) (c c1 : Controller) a e1 :
  m c = mkRun (Done a) c1 e1 -> bind m k c = after e1 (k a c1).
Proof. intro H. rewrite (bind_ran m k c c1 a e1 [] H), later_nil. reflexivity. Qed.

Lemma bind_raise {A B} (m : Act A) (k : A -> Act B) (c c1 : Controller) e s1 q1 :
  m c = ran (Thrown e) c1 s1 q1 -> bind m k c = ran (Thrown e) c1 s1 q1.
Proof. intro H. unfold bind. rewrite H. reflexivity. Qed.

Lemma bind_bind {A B C} (m : Act A) (k1 : A -> Act B) (k2 : B -> Act C) c :
  bind (bind m k1) k2 c = bind m (fun a => bind (k1 a) k2) c.
Proof.
  unfold bind. destruct (m c) as [[a | e] c1 s1 q1]; [| reflexivity].
  destruct (k1 a c1) as [[b | e] c2 s2 q2]; [| reflexivity].
  destruct (k2 b c2) as [o c3 s3 q3]. rewrite !app_assoc. reflexivity.
Qed.

Lemma bind_get {B} (k : Controller -> Act B) c : bind get k c = k c c.
Proof. rewrite (bind_run get k c c c []) by reflexivity. apply after_nil. Qed.

Lemma bind_ret {A B} (a : A) (k : A -> Act B) c : bind (ret a) k c = k a c.
Proof. rewrite (bind_run (ret a) k c c a []) by reflexivity. apply after_nil. Qed.

Lemma bind_modify {B} (f : Controller -> Controller) (k : unit -> Act B) c :
  bind (modify f) k c = k tt (f c).
Proof. rewrite (bind_run (modify f) k c (f c) tt []) by reflexivity. apply after_nil. Qed.

Lemma bind_emit {B} (e : Effect) (k : unit -> Act B) c :
  bind (emit e) k c = after [e] (k tt c).
Proof. apply bind_run. reflexivity. Qed.

Lemma bind_throw {A B} (e : Js.Error) (k : A -> Act B) c :
  bind (throw e) k c = mkRun (Thrown e) c [].
Proof. apply bind_raise. reflexivity. Qed.

Lemma bind_arm {B} cb ms rep (k : nat -> Act B) c :
  bind (arm cb ms rep) k c =
    k (nextHandle c)
      (with_timers (timers c ++ [mkTimer (nextHandle c) ms rep cb]) (S (nextHandle c)) c).
Proof.
  rewrite (bind_run (arm cb ms rep) k c _ _ []) by reflexivity. apply after_nil.
Qed.

(** A log entry goes into the store at once; its frame waits. *)
Lemma bind_log {B} w message type (k : unit -> Act B) c :
  bind (addConsoleMessage w message type) k c =
    later [SendConsole (mkMessage (clock w) message type)]
          (k tt (with_storage
                   (Storage.addConsoleMessage (mkMessage (clock w) message type) (storage c))
                   c)).
Proof.
  rewrite (bind_ran (addConsoleMessage w message type) k c _ tt [] _ eq_refl).
  apply after_nil.
Qed.

Lemma broadcast_done (c : Controller) st :
  getBotStatus c = Done st -> broadcastStatus c = mkRun (Done tt) c [SendStatus st].
Proof. intro H. unfold broadcastStatus. rewrite H. reflexivity. Qed.

Lemma bind_broadcast {B} (k : unit -> Act B) c st :
  getBotStatus c = Done st -> bind broadcastStatus k c = after [SendStatus st] (k tt c).
Proof. intro H. apply bind_run. apply broadcast_done. exact H. Qed.

Lemma try_done {A} (m : Act A) h c c1 a s1 q1 :
  m c = ran (Done a) c1 s1 q1 -> try_catch m h c = ran (Done a) c1 s1 q1.
Proof. intro H. unfold try_catch. rewrite H. reflexivity. Qed.

Lemma try_raise {A} (m : Act A) h c c1 e s1 q1 :
  m c = ran (Thrown e) c1 s1 q1 -> try_catch m h c = after s1 (later q1 (h e c1)).
Proof. intro H. unfold try_catch. rewrite H. destruct (h e c1). reflexivity. Qed.

(** The snapshot does not depend on the log or on the timers. *)
Lemma status_with_storage s c : getBotStatus (with_storage s c) = getBotStatus c.
Proof. reflexivity. Qed.

Lemma status_with_timers t n c : getBotStatus (with_timers t n c) = getBotStatus c.
Proof. reflexivity. Qed.

Lemma status_with_settings s c : getBotStatus (with_settings s c) = getBotStatus c.
Proof. reflexivity. Qed.

Lemma status_with_timeoutId t c : getBotStatus (with_timeoutId t c) = getBotStatus c.
Proof. reflexivity. Qed.

(** Reading a field through the setters. *)
Ltac fields :=
  cbv beta; unfold effects;
  cbn [outcome final sent queued mkRun after later app
       bot settings running homePosition timeoutId storage timers nextHandle
       with_bot with_settings with_running with_homePosition with_timeoutId
       with_storage with_timers disarm isSome negb andb orb when].

(** One primitive step of the callback at the head of the goal. *)
Ltac step :=
  first [ rewrite bind_bind
        | rewrite bind_get
        | rewrite bind_ret
        | rewrite bind_modify
        | rewrite bind_emit
        | rewrite bind_arm
        | rewrite bind_log
        | rewrite bind_throw ];
  fields.

Lemma controller_ext (c1 c2 : Controller) :
  bot c1 = bot c2 -> settings c1 = settings c2 -> running c1 = running c2 ->
  homePosition c1 = homePosition c2 -> timeoutId c1 = timeoutId c2 ->
  storage c1 = storage c2 -> timers c1 = timers c2 -> nextHandle c1 = nextHandle c2 ->
  c1 = c2.
Proof. destruct c1, c2. cbn. intros. subst. reflexivity. Qed.

Lemma run_ext {A} (r1 r2 : Run A) :
  outcome r1 = outcome r2 -> final r1 = final r2 ->
  sent r1 = sent r2 -> queued r1 = queued r2 -> r1 = r2.
Proof. destruct r1, r2. cbn. intros. subst. reflexivity. Qed.

(** Compares two runs field by field. *)
Ltac same_run :=
  apply run_ext; [ fields | apply controller_ext; fields | fields | fields ].

End Exec.

(** ** The connection lifecycle (start, stop, disconnects) *)

Module Lifecycle.
Import Schema Frame Exec.

Definition invalidAddress (clock : string) : ConsoleMessage :=
  mkMessage clock
    "ERROR: Invalid server address. Please update settings with a real Minecraft server address."
    error.

Definition placeholderNote (clock : string) : ConsoleMessage :=
  mkMessage clock
    "The current address 'mc.example.com' is just a placeholder and doesn't exist."
    error.

Definition stoppedNote (clock : string) : ConsoleMessage :=
  mkMessage clock "Bot stopped successfully" info.

Definition alreadyStopped (clock : string) : ConsoleMessage :=
  mkMessage clock "Bot is already stopped" info.

Lemma last_added (m d : ConsoleMessage) (st : Storage.MemStorage) :
  last (Storage.consoleMessages (Storage.addConsoleMessage m st)) d = m.
Proof.
  unfold Storage.addConsoleMessage. cbn [Storage.consoleMessages].
  destruct (Storage.consoleMessages st) as [| a l].
  - reflexivity.
  - destruct (Nat.ltb 100 (List.length ((a :: l) ++ [m]))).
    + cbn [app List.tl]. apply last_last.
    + apply last_last.
Qed.

(** The snapshot published while [running] is false or no session is held. *)
Lemma broadcast_idle (c : Controller) :
  running c = false \/ bot c = None ->
  broadcastStatus c = mkRun (Done tt) c [SendStatus StatusFacts.idleSnapshot].
Proof. intro H. apply broadcast_done. apply StatusFacts.getBotStatus_idle. exact H. Qed.

Lemma start_refused (w : World) (c : Controller) :
  running c = false ->
  serverAddress (Storage.getBotSettings (storage c)) = "" \/
  serverAddress (Storage.getBotSettings (storage c)) = "mc.example.com" ->
  start w c =
    ran (Done tt)
      (with_storage
         (Storage.addConsoleMessage (placeholderNote (clock w))
            (Storage.addConsoleMessage (invalidAddress (clock w)) (storage c)))
         (with_settings (Some (Storage.getBotSettings (storage c))) c))
      [SendStatus StatusFacts.idleSnapshot]
      [SendConsole (invalidAddress (clock w));
       SendConsole (placeholderNote (clock w))].
Proof.
  intros Hrun Haddr.
  assert (Hcheck : String.eqb (serverAddress (Storage.getBotSettings (storage c))) ""
                   || String.eqb (serverAddress (Storage.getBotSettings (storage c)))
                                 "mc.example.com" = true)
    by (destruct Haddr as [-> | ->]; reflexivity).
  unfold start. step. rewrite Hrun. step. rewrite Hcheck. step. step.
  rewrite broadcast_idle by (left; exact Hrun). reflexivity.
Qed.

Lemma stop_when_stopped (w : World) (c : Controller) :
  running c = false ->
  stop w c =
    ran (Done tt)
        (with_storage (Storage.addConsoleMessage (alreadyStopped (clock w)) (storage c)) c)
        []
        [SendConsole (alreadyStopped (clock w))].
Proof.
  intro Hrun. unfold stop. apply try_done. step. rewrite Hrun. reflexivity.
Qed.

(** The log and the effects of [stop()] on a running controller; [b] is
    the session held, if any, and [quit w] tells whether its close raises. *)
Definition stopLog (w : World) (c : Controller) : Storage.MemStorage :=
  let s1 := Storage.addConsoleMessage
              (mkMessage (clock w) "Stopping bot and disconnecting from server..." info)
              (storage c) in
  let s2 := match bot c, quit w with
            | Some _, Some e =>
                Storage.addConsoleMessage
                  (mkMessage (clock w) ("Error during bot.quit(): " +++ Js.toString e) error)
                  s1
            | _, _ => s1
            end in
  Storage.addConsoleMessage (stoppedNote (clock w)) s2.

(** What [stop()] does itself: the close, then the snapshot. *)
Definition stopSent (c : Controller) : list Effect :=
  match bot c with Some _ => [Quit false] | None => [] end
  ++ [SendStatus StatusFacts.idleSnapshot].

(** The console frames it leaves behind. *)
Definition stopQueued (w : World) (c : Controller) : list Effect :=
  [SendConsole (mkMessage (clock w) "Stopping bot and disconnecting from server..." info)]
  ++ match bot c, quit w with
     | Some _, Some e =>
         [SendConsole (mkMessage (clock w)
                                 ("Error during bot.quit(): " +++ Js.toString e) error)]
     | _, _ => []
     end
  ++ [SendConsole (stoppedNote (clock w))].

Definition stopEffects (w : World) (c : Controller) : list Effect :=
  stopSent c ++ stopQueued w c.

Lemma quit_ok (w : World) h (c : Controller) :
  quit w = None -> try_catch (botQuit w) h c = mkRun (Done tt) c [Quit (running c)].
Proof. intro H. apply try_done. unfold botQuit. rewrite H. reflexivity. Qed.

Lemma quit_raises (w : World) (e : Js.Error) message (c : Controller) :
  quit w = Some e ->
  try_catch (botQuit w) (fun e => addConsoleMessage w (message e) error) c =
    ran (Done tt)
      (with_storage
         (Storage.addConsoleMessage (mkMessage (clock w) (message e) error) (storage c)) c)
      [Quit (running c)]
      [SendConsole (mkMessage (clock w) (message e) error)].
Proof.
  intro H. erewrite try_raise by (unfold botQuit; rewrite H; reflexivity).
  reflexivity.
Qed.

Lemma stop_when_running (w : World) (c : Controller) :
  running c = true ->
  stop w c =
    ran (Done tt)
      (mkController None (settings c) false None None (stopLog w c)
         (match timeoutId c with
          | Some h => filter (fun t => negb (Nat.eqb (handle t) h)) (timers c)
          | None => timers c
          end)
         (nextHandle c))
      (stopSent c) (stopQueued w c).
Proof.
  intro Hrun. unfold stop, stopLog, stopSent, stopQueued. apply try_done.
  step. rewrite Hrun. fields.
  destruct (timeoutId c) as [h |] eqn:Ht, (bot c) as [b |] eqn:Hbot,
           (quit w) as [e |] eqn:Hq;
    unfold clearTimeout; repeat (first [step | rewrite Hbot; fields]);
    try (erewrite bind_ran by (apply quit_raises; exact Hq); fields; repeat step);
    try (erewrite bind_run by (apply quit_ok; exact Hq); fields; repeat step);
    (erewrite bind_run by (apply broadcast_idle; left; reflexivity));
    unfold addConsoleMessage; same_run; rewrite ?Ht; reflexivity.
Qed.

(** C1 as stated fails: on the placeholder address of a new store
    [start()] appends two log entries, not one; their frames follow the
    snapshot. *)
Lemma start_placeholder_logs_twice :
  let c := created Scenario.quiet in
  let r := start Scenario.quiet c in
  running c = false /\
  serverAddress (Storage.getBotSettings (storage c)) = "mc.example.com" /\
  List.length (Storage.consoleMessages (storage (final r))) =
    (List.length (Storage.consoleMessages (storage c)) + 2)%nat /\
  effects r = [SendStatus StatusFacts.idleSnapshot;
               SendConsole (invalidAddress "12:00:00");
               SendConsole (placeholderNote "12:00:00")].
Proof. cbv zeta. vm_compute. repeat split. Qed.

(** C1, amended. Called while not running, with an empty or placeholder
    address in the store, [start()] returns normally, appends exactly two
    error entries (the refusal and the placeholder note), reads the
    settings, and does nothing else: no session is created, the session
    field and the timers are untouched, [running] and [connected] stay
    false.  What goes out is the disconnected snapshot, then the frames
    of the two entries. *)
Theorem start_refuses_placeholder (w : World) (c : Controller) :
  running c = false ->
  serverAddress (Storage.getBotSettings (storage c)) = "" \/
  serverAddress (Storage.getBotSettings (storage c)) = "mc.example.com" ->
  let r := start w c in
  outcome r = Done tt /\
  final r =
    with_storage
      (Storage.addConsoleMessage (placeholderNote (clock w))
         (Storage.addConsoleMessage (invalidAddress (clock w)) (storage c)))
      (with_settings (Some (Storage.getBotSettings (storage c))) c) /\
  effects r = [SendStatus StatusFacts.idleSnapshot;
               SendConsole (invalidAddress (clock w));
               SendConsole (placeholderNote (clock w))] /\
  running (final r) = false /\ bot (final r) = bot c /\
  timers (final r) = timers c /\
  getBotStatus (final r) = Done StatusFacts.idleSnapshot.
Proof.
  intros Hrun Haddr. cbv zeta. rewrite (start_refused w c Hrun Haddr). fields.
  repeat split; try assumption.
  apply StatusFacts.getBotStatus_idle. left. exact Hrun.
Qed.

Lemma start_refuses_placeholder_witness :
  let r := start Scenario.quiet (created Scenario.quiet) in
  outcome r = Done tt /\
  final r =
    with_storage
      (Storage.addConsoleMessage (placeholderNote "12:00:00")
         (Storage.addConsoleMessage (invalidAddress "12:00:00")
            (storage (created Scenario.quiet))))
      (with_settings (Some (Storage.getBotSettings (storage (created Scenario.quiet))))
                     (created Scenario.quiet)) /\
  effects r = [SendStatus StatusFacts.idleSnapshot;
               SendConsole (invalidAddress "12:00:00");
               SendConsole (placeholderNote "12:00:00")] /\
  running (final r) = false /\ bot (final r) = bot (created Scenario.quiet) /\
  timers (final r) = timers (created Scenario.quiet) /\
  getBotStatus (final r) = Done StatusFacts.idleSnapshot.
Proof.
  apply (start_refuses_placeholder Scenario.quiet (created Scenario.quiet)).
  - reflexivity.
  - right. reflexivity.
Defined.

(** A close that raises is logged and the stop still completes. *)
Example stop_with_failing_quit :
  let w := mkWorld "12:00:05" (inr Scenario.joining)
                   (Some (Js.mkError "Error" "socket closed")) None 0 0 0 0 in
  map (fun m => (message m, type m))
      (skipn 9 (Storage.consoleMessages (storage (final (stop w Scenario.spawnedFar))))) =
    [("Stopping bot and disconnecting from server...", info);
     ("Error during bot.quit(): Error: socket closed", error);
     ("Bot stopped successfully", info)] /\
  outcome (stop w Scenario.spawnedFar) = Done tt.
Proof. vm_compute. split; reflexivity. Qed.

Lemma stopEffects_quit (w : World) (c : Controller) (seen : bool) :
  In (Quit seen) (stopEffects w c) -> seen = false.
Proof.
  unfold stopEffects, stopSent, stopQueued. intro Hin.
  destruct (bot c), (quit w); cbn in Hin;
    repeat (destruct Hin as [Hin | Hin]; try discriminate Hin);
    try contradiction; injection Hin as <-; reflexivity.
Qed.

Lemma stopEffects_closes (w : World) (c : Controller) :
  bot c <> None -> In (Quit false) (stopEffects w c).
Proof.
  unfold stopEffects, stopSent. intro Hne.
  destruct (bot c); [| contradiction]. left. reflexivity.
Qed.

Lemma stopEffects_last (w : World) (c : Controller) (d : Effect) :
  last (stopEffects w c) d = SendConsole (stoppedNote (clock w)).
Proof.
  unfold stopEffects, stopSent, stopQueued. destruct (bot c), (quit w); reflexivity.
Qed.

(** C3. [stop()] on a running controller returns normally whatever
    [bot.quit()] does: any close is attempted with [running] already
    false, and is attempted whenever a session exists; afterwards
    [running] is false, session and home are cleared, and the entry
    "Bot stopped successfully" is the last one logged and sent.  A
    second [stop()] right after it returns normally too and only
    appends and sends the informational entry "Bot is already stopped":
    no close, no snapshot, no second success entry. *)
Theorem stop_idempotent (w1 w2 : World) (c : Controller) :
  running c = true ->
  let r1 := stop w1 c in
  let r2 := stop w2 (final r1) in
  outcome r1 = Done tt /\ outcome r2 = Done tt /\
  running (final r1) = false /\ bot (final r1) = None /\
  homePosition (final r1) = None /\
  (forall seen, In (Quit seen) (effects r1) -> seen = false) /\
  (bot c <> None -> In (Quit false) (effects r1)) /\
  last (effects r1) SendConsoleClear = SendConsole (stoppedNote (clock w1)) /\
  last (Storage.consoleMessages (storage (final r1))) (alreadyStopped (clock w2)) =
    stoppedNote (clock w1) /\
  final r2 =
    with_storage
      (Storage.addConsoleMessage (alreadyStopped (clock w2)) (storage (final r1)))
      (final r1) /\
  effects r2 = [SendConsole (alreadyStopped (clock w2))].
Proof.
  intro Hrun. cbv zeta.
  rewrite (stop_when_running w1 c Hrun). fields.
  rewrite stop_when_stopped by reflexivity. fields.
  repeat split.
  - apply stopEffects_quit.
  - apply stopEffects_closes.
  - apply stopEffects_last.
  - apply last_added.
Qed.

Lemma stop_idempotent_witness :
  let r1 := stop Scenario.quiet Scenario.spawnedFar in
  let r2 := stop Scenario.quiet (final r1) in
  outcome r1 = Done tt /\ outcome r2 = Done tt /\
  running (final r1) = false /\ bot (final r1) = None /\
  homePosition (final r1) = None /\
  (forall seen, In (Quit seen) (effects r1) -> seen = false) /\
  (bot Scenario.spawnedFar <> None -> In (Quit false) (effects r1)) /\
  last (effects r1) SendConsoleClear = SendConsole (stoppedNote "12:00:00") /\
  last (Storage.consoleMessages (storage (final r1))) (alreadyStopped "12:00:00") =
    stoppedNote "12:00:00" /\
  final r2 =
    with_storage
      (Storage.addConsoleMessage (alreadyStopped "12:00:00") (storage (final r1)))
      (final r1) /\
  effects r2 = [SendConsole (alreadyStopped "12:00:00")].
Proof.
  apply (stop_idempotent Scenario.quiet Scenario.quiet Scenario.spawnedFar).
  reflexivity.
Defined.

(** *** The session is held only while running *)

Definition session_implies_running (c : Controller) : Prop :=
  bot c <> None -> running c = true.

Lemma kept_invariant {A} (m : Act A) (c : Controller) :
  Frame.keeps_session m -> session_implies_running c ->
  session_implies_running (final (m c)).
Proof.
  intros Hk Hc. destruct (Hk c) as [Hb Hr].
  unfold session_implies_running. rewrite Hb, Hr. exact Hc.
Qed.

Lemma cleared_invariant (c : Controller) :
  bot c = None -> session_implies_running c.
Proof. intros H Hne. contradiction. Qed.

Lemma disconnected_run (c : Controller) :
  disconnected c =
    mkRun (Done tt) (with_bot None (with_running false c))
          [SendStatus StatusFacts.idleSnapshot].
Proof.
  unfold disconnected. step. step.
  apply broadcast_idle. right. reflexivity.
Qed.

(** A callback that goes on with log entries only after [disconnected]. *)
Lemma cleared_then_kept {A} (k : unit -> Act A) (c : Controller) :
  (forall u, Frame.keeps_session (k u)) ->
  running (final (bind disconnected k c)) = false /\
  bot (final (bind disconnected k c)) = None.
Proof.
  intro Hk. rewrite (bind_run _ _ _ _ _ _ (disconnected_run c)). fields.
  destruct (Hk tt (with_bot None (with_running false c))) as [Hb Hr].
  rewrite Hb, Hr. split; reflexivity.
Qed.

Lemma onKicked_clears (w : World) (reason : string) (c : Controller) :
  running (final (onKicked w reason c)) = false /\
  bot (final (onKicked w reason c)) = None.
Proof.
  unfold onKicked. step. rewrite disconnected_run. split; reflexivity.
Qed.

Lemma onError_clears (w : World) (t : nat) (err : Js.Error) (c : Controller) :
  running (final (onError w t err c)) = false /\
  bot (final (onError w t err c)) = None.
Proof.
  unfold onError, clearTimeout. step. step. step.
  destruct (Js.includes "ENOTFOUND" (Js.message err));
    [| destruct (Js.includes "ETIMEDOUT" (Js.message err))];
    repeat step; apply cleared_then_kept; intro; cbv beta; auto with frame.
Qed.

(** The connection timeout: a rollback when no spawned session is held
    while running, nothing at all otherwise. *)
Lemma connectionTimeout_clears (w : World) (self : nat) (c : Controller) :
  let c' := final (runCallback w self connectionTimeout c) in
  if running c && negb (match bot c with
                        | Some b => isSome (Mf.entity b)
                        | None => false
                        end)
  then running c' = false /\ bot c' = None
  else c' = c.
Proof.
  cbv zeta. cbn [runCallback]. step.
  destruct (running c && negb _); [| reflexivity].
  step. step. rewrite disconnected_run. split; reflexivity.
Qed.

Lemma newBot_ok (w : World) host user (b : Mf.Bot) (c : Controller) :
  createBot w = inr b ->
  newBot w host user c = mkRun (Done b) c [CreateBot host user 25565].
Proof. intro H. unfold newBot. rewrite H. reflexivity. Qed.

Lemma newBot_raises (w : World) host user (e : Js.Error) (c : Controller) :
  createBot w = inl e ->
  newBot w host user c = mkRun (Thrown e) c [CreateBot host user 25565].
Proof. intro H. unfold newBot. rewrite H. reflexivity. Qed.

Lemma start_invariant (w : World) (c : Controller) :
  session_implies_running c -> session_implies_running (final (start w c)).
Proof.
  intro Hc. unfold start. step.
  destruct (running c) eqn:Hrun.
  - apply kept_invariant; [auto with frame | exact Hc].
  - assert (Hbot : bot c = None).
    { destruct (bot c) eqn:E; [| reflexivity].
      assert (Hon : running c = true) by (apply Hc; rewrite E; discriminate).
      congruence. }
    step. destruct (_ || _).
    + apply kept_invariant; [Frame.frame |].
      apply cleared_invariant. exact Hbot.
    + step.
      erewrite bind_run by (apply broadcast_idle; right; exact Hbot). fields.
      unfold setTimeout, setInterval, setupEventHandlers.
      destruct (createBot w) as [e | b] eqn:Hcreate.
      * erewrite try_raise.
        2:{ repeat step.
            erewrite bind_raise by (apply newBot_raises; exact Hcreate).
            reflexivity. }
        fields. repeat step.
        erewrite broadcast_idle by (left; reflexivity). fields.
        apply cleared_invariant. exact Hbot.
      * erewrite try_done.
        2:{ repeat step.
            erewrite bind_run by (apply newBot_ok; exact Hcreate). fields.
            repeat step. reflexivity. }
        fields. intros _. reflexivity.
Qed.

Lemma stop_invariant (w : World) (c : Controller) :
  session_implies_running c -> session_implies_running (final (stop w c)).
Proof.
  intro Hc. destruct (running c) eqn:Hrun.
  - rewrite (stop_when_running w c Hrun). apply cleared_invariant. reflexivity.
  - rewrite (stop_when_stopped w c Hrun).
    unfold session_implies_running. fields. exact Hc.
Qed.

Lemma runCallback_invariant (w : World) (h : nat) (cb : Callback) (c : Controller) :
  session_implies_running c ->
  session_implies_running (final (runCallback w h cb c)).
Proof.
  intro Hc.
  destruct cb;
    try (apply kept_invariant; [apply keeps_runCallback; discriminate | exact Hc]).
  pose proof (connectionTimeout_clears w h c) as Ht. cbv zeta in Ht.
  destruct (running c && negb _).
  - apply cleared_invariant. apply Ht.
  - rewrite Ht. exact Hc.
Qed.

Lemma fireTimer_invariant (w : World) (h : nat) (c : Controller) :
  session_implies_running c -> session_implies_running (final (fireTimer w h c)).
Proof.
  intro Hc. unfold fireTimer. step.
  destruct (find _ (timers c)) as [t |]; [| exact Hc].
  destruct (repeats t); fields; step; apply runCallback_invariant.
  - exact Hc.
  - unfold session_implies_running. fields. exact Hc.
Qed.

Lemma dispatch_invariant (w : World) (ev : Event) (c : Controller) :
  session_implies_running c -> session_implies_running (final (dispatch w ev c)).
Proof.
  intro Hc. destruct ev; cbn [dispatch].
  - apply start_invariant. exact Hc.
  - apply stop_invariant. exact Hc.
  - apply kept_invariant; [apply keeps_updateSettings | exact Hc].
  - apply kept_invariant; [apply keeps_clearConsole | exact Hc].
  - apply kept_invariant; [apply keeps_broadcastStatus | exact Hc].
  - apply kept_invariant; [apply keeps_onSpawn | exact Hc].
  - apply cleared_invariant. apply onKicked_clears.
  - apply cleared_invariant. apply onError_clears.
  - apply kept_invariant; [apply keeps_onPlayerJoined | exact Hc].
  - apply kept_invariant; [apply keeps_onPlayerLeft | exact Hc].
  - apply kept_invariant; [apply keeps_onTime | exact Hc].
  - apply kept_invariant; [apply keeps_broadcastStatus | exact Hc].
  - apply kept_invariant; [apply keeps_onGoalReached | exact Hc].
  - apply kept_invariant; [apply keeps_onSleepResolved | exact Hc].
  - apply kept_invariant; [unfold onSleepRejected; Frame.frame | exact Hc].
  - apply kept_invariant; [apply keeps_onWakeResolved | exact Hc].
  - apply kept_invariant; [apply keeps_onWakeRejected | exact Hc].
  - apply fireTimer_invariant. exact Hc.
Qed.

Lemma reachable_invariant (c : Controller) :
  reachable c -> session_implies_running c.
Proof.
  induction 1 as [w | w ev c Hreach IH | b b' c Hreach IH Hbot].
  - apply cleared_invariant. reflexivity.
  - apply dispatch_invariant. exact IH.
  - intros _. cbn [with_bot running]. apply IH. rewrite Hbot. discriminate.
Qed.

(** C6. In every state the controller can be in between two callbacks a
    session is held only while [running] is true, so whatever callback
    runs next, if it leaves [running] false it leaves no session.  In
    particular [stop()] on a running controller, a kick, a connection
    error and an expiring connection timeout each end with [running]
    false and the session cleared. *)
Theorem session_only_while_running (c : Controller) :
  reachable c ->
  (bot c <> None -> running c = true) /\
  (forall w ev, running (final (dispatch w ev c)) = false ->
                bot (final (dispatch w ev c)) = None) /\
  (forall w, running c = true ->
             running (final (stop w c)) = false /\ bot (final (stop w c)) = None) /\
  (forall w reason,
      running (final (onKicked w reason c)) = false /\
      bot (final (onKicked w reason c)) = None) /\
  (forall w t err,
      running (final (onError w t err c)) = false /\
      bot (final (onError w t err c)) = None) /\
  (forall w self,
      running c = true ->
      match bot c with Some b => Mf.entity b = None | None => True end ->
      running (final (runCallback w self connectionTimeout c)) = false /\
      bot (final (runCallback w self connectionTimeout c)) = None).
Proof.
  intro Hreach. pose proof (reachable_invariant c Hreach) as Hc.
  split; [exact Hc |]. split; [| split; [| split; [| split]]].
  - intros w ev Hoff.
    pose proof (dispatch_invariant w ev c Hc) as H'.
    destruct (bot (final (dispatch w ev c))) eqn:E; [| reflexivity].
    assert (Hon : running (final (dispatch w ev c)) = true)
      by (apply H'; rewrite E; discriminate).
    congruence.
  - intros w Hrun. rewrite (stop_when_running w c Hrun). split; reflexivity.
  - intros w reason. apply onKicked_clears.
  - intros w t err. apply onError_clears.
  - intros w self Hrun Hent.
    pose proof (connectionTimeout_clears w self c) as Ht. cbv zeta in Ht.
    rewrite Hrun in Ht.
    destruct (bot c) as [b |]; [rewrite Hent in Ht |]; exact Ht.
Qed.

Lemma session_only_while_running_witness :
  (bot Scenario.spawnedFar <> None -> running Scenario.spawnedFar = true) /\
  (forall w ev, running (final (dispatch w ev Scenario.spawnedFar)) = false ->
                bot (final (dispatch w ev Scenario.spawnedFar)) = None).
Proof.
  assert (Hreach : reachable Scenario.spawnedFar).
  { apply reach_event. apply (reach_world Scenario.joining); [| reflexivity].
    repeat apply reach_event. apply reach_created. }
  pose proof (session_only_while_running Scenario.spawnedFar Hreach) as H.
  split; [exact (proj1 H) | exact (proj1 (proj2 H))].
Defined.

End Lifecycle.

(** ** Rest and wake (checkSleepConditions, forceWakeUpNow, playerLeft) *)

Module Rest.
Import Schema Frame Exec.

Definition note (w : World) (message : string) (type : Severity) : ConsoleMessage :=
  mkMessage (clock w) message type.

Definition logged (ms : list ConsoleMessage) (c : Controller) : Controller :=
  with_storage (fold_left (fun st m => Storage.addConsoleMessage m st) ms (storage c)) c.

(** [forceWakeUpNow] does nothing unless a sleeping session is held. *)
Lemma forceWakeUpNow_awake (w : World) (c : Controller) :
  match bot c with Some b => Mf.isSleeping b = false | None => True end ->
  forceWakeUpNow w c = mkRun (Done tt) c [].
Proof.
  intro H. unfold forceWakeUpNow. step.
  destruct (bot c) as [b |]; [| reflexivity].
  rewrite H. destruct (running c); reflexivity.
Qed.

Lemma forceWakeUpNow_alone (w : World) (c : Controller) (b : Mf.Bot) :
  running c = true -> bot c = Some b -> Mf.isSleeping b = true -> others b = [] ->
  forceWakeUpNow w c =
    ran (Done tt)
      (logged [note w "FORCE WAKE CHECK: Bot is sleeping. Players online: 0" warning;
               note w "EMERGENCY WAKE UP NOW - No players online!" warning] c)
      [Wake (wakeEmergency 0)]
      [SendConsole (note w "FORCE WAKE CHECK: Bot is sleeping. Players online: 0" warning);
       SendConsole (note w "EMERGENCY WAKE UP NOW - No players online!" warning)].
Proof.
  intros Hrun Hbot Hsleep Hnone. unfold forceWakeUpNow. step.
  rewrite Hbot, Hrun, Hsleep, Hnone. cbn [List.length Nat.eqb].
  step. step. unfold attemptWake. step. rewrite Hbot, Hsleep.
  reflexivity.
Qed.

Lemma checkSleepConditions_alone (w : World) (c : Controller) (b : Mf.Bot) :
  running c = true -> bot c = Some b -> Mf.isSleeping b = true -> others b = [] ->
  checkSleepConditions w c =
    ran (Done tt)
      (logged [note w "WAKE UP TRIGGER: No players online while sleeping!" warning;
               note w "Attempting to wake up bot..." info] c)
      [Wake wakeAttempt]
      [SendConsole (note w "WAKE UP TRIGGER: No players online while sleeping!" warning);
       SendConsole (note w "Attempting to wake up bot..." info)].
Proof.
  intros Hrun Hbot Hsleep Hnone. unfold checkSleepConditions. step.
  rewrite Hbot, Hrun, Hsleep, Hnone. cbn [List.length Nat.ltb Nat.leb andb negb].
  step. unfold attemptWakeUp. step. rewrite Hbot, Hsleep. step.
  reflexivity.
Qed.

Lemma getBotStatus_spawned (c : Controller) (b : Mf.Bot) (e : Mf.Entity) :
  bot c = Some b -> Mf.entity b = Some e -> exists st, getBotStatus c = Done st.
Proof.
  intros Hb He. unfold getBotStatus. rewrite Hb, He.
  destruct (running c); [| eexists; reflexivity].
  destruct (homePosition c); eexists; reflexivity.
Qed.

(** C4. When a participant-leave event finds the agent asleep in a live,
    spawned session with no other participant left, the listener itself
    issues an emergency wake (and, through the standard check that
    follows, a second wake attempt), and arms three more runs of
    [forceWakeUpNow] at 500 ms, 1500 ms and 3000 ms.  The snapshot and
    the two wakes go out while the listener runs, the frames of its six
    log entries after it.  Each later run does nothing at all when the
    agent is no longer asleep or the session is gone. *)
Theorem last_player_left_wakes
    (w : World) (c : Controller) (b : Mf.Bot) (e : Mf.Entity) (player : string) :
  running c = true -> bot c = Some b -> Mf.entity b = Some e ->
  Mf.isSleeping b = true -> others b = [] ->
  let r := onPlayerLeft w player c in
  let n := nextHandle c in
  outcome r = Done tt /\
  (exists st,
      getBotStatus c = Done st /\
      effects r =
        [SendStatus st;
         Wake (wakeEmergency 0);
         Wake wakeAttempt;
         SendConsole (note w ("Player " +++ player +++ " left the game") info);
         SendConsole
           (note w "CRITICAL EVENT: Last player left the game - checking sleep status"
                 warning);
         SendConsole
           (note w "FORCE WAKE CHECK: Bot is sleeping. Players online: 0" warning);
         SendConsole (note w "EMERGENCY WAKE UP NOW - No players online!" warning);
         SendConsole (note w "WAKE UP TRIGGER: No players online while sleeping!" warning);
         SendConsole (note w "Attempting to wake up bot..." info)]) /\
  In (Wake (wakeEmergency 0)) (effects r) /\
  timers (final r) =
    timers c ++ [mkTimer n 500 false forceWakeLater;
                 mkTimer (S n) 1500 false forceWakeLater;
                 mkTimer (S (S n)) 3000 false forceWakeLater] /\
  (forall w' self, runCallback w' self forceWakeLater = forceWakeUpNow w') /\
  (forall w' c',
      match bot c' with Some b' => Mf.isSleeping b' = false | None => True end ->
      forceWakeUpNow w' c' = mkRun (Done tt) c' []).
Proof.
  intros Hrun Hbot Hent Hsleep Hnone. cbv zeta.
  destruct (getBotStatus_spawned c b e Hbot Hent) as [st Hst].
  assert (Hleft :
    onPlayerLeft w player c =
      ran (Done tt)
        (logged [note w "WAKE UP TRIGGER: No players online while sleeping!" warning;
                 note w "Attempting to wake up bot..." info]
           (with_timers
              (timers c ++ [mkTimer (nextHandle c) 500 false forceWakeLater;
                            mkTimer (S (nextHandle c)) 1500 false forceWakeLater;
                            mkTimer (S (S (nextHandle c))) 3000 false forceWakeLater])
              (S (S (S (nextHandle c))))
              (logged
                 [note w ("Player " +++ player +++ " left the game") info;
                  note w "CRITICAL EVENT: Last player left the game - checking sleep status"
                       warning;
                  note w "FORCE WAKE CHECK: Bot is sleeping. Players online: 0" warning;
                  note w "EMERGENCY WAKE UP NOW - No players online!" warning] c)))
        [SendStatus st; Wake (wakeEmergency 0); Wake wakeAttempt]
        [SendConsole (note w ("Player " +++ player +++ " left the game") info);
         SendConsole
           (note w "CRITICAL EVENT: Last player left the game - checking sleep status"
                 warning);
         SendConsole
           (note w "FORCE WAKE CHECK: Bot is sleeping. Players online: 0" warning);
         SendConsole (note w "EMERGENCY WAKE UP NOW - No players online!" warning);
         SendConsole (note w "WAKE UP TRIGGER: No players online while sleeping!" warning);
         SendConsole (note w "Attempting to wake up bot..." info)]).
  { unfold onPlayerLeft. step.
    erewrite bind_broadcast by (rewrite status_with_storage; exact Hst). fields.
    step. rewrite Hbot, Hnone. cbn [List.length Nat.eqb].
    repeat step.
    erewrite bind_ran by (apply (forceWakeUpNow_alone w _ b); assumption). fields.
    unfold setTimeout. repeat step.
    erewrite checkSleepConditions_alone by eassumption.
    same_run; try reflexivity.
    unfold logged. fields. repeat rewrite <- app_assoc. reflexivity. }
  rewrite Hleft. fields.
  split; [reflexivity |]. split; [exists st; split; [exact Hst | reflexivity] |].
  split; [cbn; tauto |]. split; [unfold logged; fields; reflexivity |].
  split; [reflexivity |]. intros w' c'. apply forceWakeUpNow_awake.
Qed.

Lemma last_player_left_wakes_witness :
  In (Wake (wakeEmergency 0))
     (effects (onPlayerLeft Scenario.quiet "alice" (Scenario.resting [] 14000))) /\
  timers (final (onPlayerLeft Scenario.quiet "alice" (Scenario.resting [] 14000))) =
    timers (Scenario.resting [] 14000)
    ++ [mkTimer 7 500 false forceWakeLater;
        mkTimer 8 1500 false forceWakeLater;
        mkTimer 9 3000 false forceWakeLater].
Proof.
  pose proof (last_player_left_wakes Scenario.quiet
                (Scenario.resting [] 14000) (Scenario.asleep [] 14000)
                (Mf.mkEntity (Mf.vec3 (1 # 2) 64 (3 # 2))) "alice"
                eq_refl eq_refl eq_refl eq_refl eq_refl) as (_ & _ & Hwake & Htimers & _).
  split; [exact Hwake | exact Htimers].
Defined.

(** The [time] field of a snapshot of a live session with a clock. *)
Lemma status_time (c : Controller) (b : Mf.Bot) (t : Z) (st : BotStatus) :
  running c = true -> bot c = Some b -> Mf.time b = Some (Mf.mkTime t) ->
  getBotStatus c = Done st ->
  time st = if (0 <=? t)%Z && (t <? 13000)%Z then "day" else "night".
Proof.
  intros Hrun Hbot Ht. unfold getBotStatus. rewrite Hbot, Hrun, Ht.
  cbn [Mf.timeOfDay].
  destruct (homePosition c); [destruct (Mf.entity b); [| discriminate] |];
    intros [= <-]; reflexivity.
Qed.

Lemma shouldSleep_day (w : World) (c : Controller) (b : Mf.Bot) :
  bot c = Some b -> isNightTime b = false ->
  shouldSleep w c = mkRun (Done false) c [].
Proof.
  intros Hbot Hday. unfold shouldSleep. step. rewrite Hbot, Hday. reflexivity.
Qed.

(** C10. The rest logic takes ticks 13000..23000 as night, the snapshot
    every tick from 13000 on (and any negative one).  So with a tick
    strictly between 23000 and 24000 a live, spawned session is reported
    as "night" while [shouldSleep] answers false; the condition check
    then seeks no bed when the agent is awake, and when it is asleep
    with another participant present it issues the daytime wake (the
    frame of its log entry follows the wake). *)
Theorem night_windows_differ
    (w : World) (c : Controller) (b : Mf.Bot) (e : Mf.Entity) (t : Z) :
  running c = true -> bot c = Some b -> Mf.entity b = Some e ->
  Mf.time b = Some (Mf.mkTime t) ->
  (isNightTime b = true <-> 13000 <= t <= 23000) /\
  (exists st, getBotStatus c = Done st /\
              (time st = "night" <-> t < 0 \/ 13000 <= t)) /\
  (23000 < t < 24000 ->
   (exists st, getBotStatus c = Done st /\ time st = "night") /\
   isNightTime b = false /\
   shouldSleep w c = mkRun (Done false) c [] /\
   (Mf.isSleeping b = false -> checkSleepConditions w c = mkRun (Done tt) c []) /\
   (Mf.isSleeping b = true -> others b <> [] ->
    checkSleepConditions w c =
      ran (Done tt)
          (logged [note w "Daytime detected - waking up from bed" info] c)
          [Wake wakeDaytime]
          [SendConsole (note w "Daytime detected - waking up from bed" info)])).
Proof.
  intros Hrun Hbot Hent Ht.
  assert (Hnight : isNightTime b = (13000 <=? t)%Z && (t <=? 23000)%Z)
    by (unfold isNightTime; rewrite Ht; reflexivity).
  destruct (getBotStatus_spawned c b e Hbot Hent) as [st Hst].
  pose proof (status_time c b t st Hrun Hbot Ht Hst) as Htime.
  split; [| split].
  - rewrite Hnight, andb_true_iff, Z.leb_le, Z.leb_le. tauto.
  - exists st. split; [exact Hst |]. rewrite Htime.
    destruct (Z.leb_spec 0 t), (Z.ltb_spec t 13000); cbn [andb];
      split; intro Hn; try discriminate Hn; try reflexivity; lia.
  - intros [Hlo Hhi].
    assert (Hday : isNightTime b = false).
    { rewrite Hnight. destruct (Z.leb_spec t 23000); [lia |].
      apply andb_false_r. }
    split; [| split; [exact Hday | split; [| split]]].
    + exists st. split; [exact Hst |]. rewrite Htime.
      destruct (Z.ltb_spec t 13000); [lia |]. rewrite andb_false_r. reflexivity.
    + apply (shouldSleep_day w c b Hbot Hday).
    + intro Hawake. unfold checkSleepConditions. step.
      rewrite Hbot, Hrun, Hawake, Hday. reflexivity.
    + intros Hasleep Hsome. unfold checkSleepConditions. step.
      rewrite Hbot, Hrun, Hasleep, Hday.
      destruct (others b) as [| p ps]; [contradiction |].
      cbn [List.length Nat.ltb Nat.leb andb negb]. step. reflexivity.
Qed.

Lemma night_windows_differ_witness :
  (exists st, getBotStatus (Scenario.resting ["alice"] 23500) = Done st /\
              time st = "night") /\
  shouldSleep Scenario.quiet (Scenario.resting ["alice"] 23500) =
    mkRun (Done false) (Scenario.resting ["alice"] 23500) [] /\
  In (Wake wakeDaytime)
     (effects (checkSleepConditions Scenario.quiet (Scenario.resting ["alice"] 23500))).
Proof.
  pose proof (night_windows_differ Scenario.quiet
                (Scenario.resting ["alice"] 23500)
                (Scenario.asleep ["alice"] 23500)
                (Mf.mkEntity (Mf.vec3 (1 # 2) 64 (3 # 2))) 23500
                eq_refl eq_refl eq_refl eq_refl) as (_ & _ & H).
  assert (Hin : 23000 < 23500 < 24000) by lia.
  destruct (H Hin) as (Hst & _ & Hrest & _ & Hwake).
  split; [exact Hst |]. split; [exact Hrest |].
  rewrite Hwake; [cbn; tauto | reflexivity | discriminate].
Defined.

End Rest.

(** ** The wander step (startWandering) *)

Module Wander.
Import Schema Frame Exec Rest.

(** *** Callbacks that cannot raise *)

Definition never_throws {A} (m : Act A) : Prop :=
  forall c e, outcome (m c) <> Thrown e.

Lemma nt_ret {A} (a : A) : never_throws (ret a).
Proof. intros c e. discriminate. Qed.

Lemma nt_get : never_throws get.
Proof. intros c e. discriminate. Qed.

Lemma nt_emit (ef : Effect) : never_throws (emit ef).
Proof. intros c e. discriminate. Qed.

Lemma nt_modify f : never_throws (modify f).
Proof. intros c e. discriminate. Qed.

Lemma nt_arm cb ms rep : never_throws (arm cb ms rep).
Proof. intros c e. discriminate. Qed.

Lemma nt_addConsoleMessage w message type :
  never_throws (addConsoleMessage w message type).
Proof. intros c e. discriminate. Qed.

Lemma nt_bind {A B} (m : Act A) (k : A -> Act B) :
  never_throws m -> (forall a, never_throws (k a)) -> never_throws (bind m k).
Proof.
  intros Hm Hk c e. unfold bind. specialize (Hm c).
  destruct (m c) as [[a | e'] c1 s1 q1]; cbn [outcome] in *.
  - specialize (Hk a c1 e). destruct (k a c1) as [o c2 s2 q2]. exact Hk.
  - exfalso. apply (Hm e'). reflexivity.
Qed.

Lemma nt_try_catch {A} (m : Act A) (h : Js.Error -> Act A) :
  (forall e, never_throws (h e)) -> never_throws (try_catch m h).
Proof.
  intros Hh c e. unfold try_catch.
  destruct (m c) as [[a | e'] c1 s1 q1]; cbn [outcome].
  - discriminate.
  - specialize (Hh e' c1 e). destruct (h e' c1) as [o c2 s2 q2]. exact Hh.
Qed.

Lemma nt_done (m : Act unit) (c : Controller) :
  never_throws m -> outcome (m c) = Done tt.
Proof.
  intro H. specialize (H c). destruct (outcome (m c)) as [[] | e]; [reflexivity |].
  exfalso. apply (H e). reflexivity.
Qed.

Create HintDb total.
#[export] Hint Resolve nt_ret nt_get nt_emit nt_modify nt_arm nt_addConsoleMessage : total.

Ltac total :=
  repeat first
    [ progress intros
    | progress cbv zeta
    | solve [auto with total]
    | apply nt_bind
    | apply nt_try_catch
    | progress unfold when, setTimeout, setInterval, clearTimeout, clearInterval
    | match goal with
      | |- never_throws (match ?x with _ => _ end) => destruct x
      end ].

Lemma nt_moveDirectly w x y z : never_throws (moveDirectly w x y z).
Proof. unfold moveDirectly. total. Qed.

Lemma nt_rearm boundary ms : never_throws (rearm boundary ms).
Proof. unfold rearm. total. Qed.

Lemma try_returns {A} (m : Act A) h c a :
  outcome (m c) = Done a -> try_catch m h c = m c.
Proof.
  intro H. unfold try_catch. destruct (m c) as [[a' | e] c1 s1 q1]; [reflexivity |].
  discriminate H.
Qed.

(** *** The random draws *)

Lemma floor_spec (q : Q) (n : Z) :
  Js.floor q = n <-> (inject_Z n <= q /\ q < inject_Z (n + 1))%Q.
Proof.
  unfold Js.floor. split.
  - intros <-. split; [apply Qfloor_le | apply Qlt_floor].
  - intros [Hlo Hhi].
    assert (H1 : n <= Qfloor q).
    { rewrite <- (Qfloor_Z n). apply Qfloor_resp_le. exact Hlo. }
    assert (H2 : Qfloor q < n + 1).
    { destruct (Z_lt_le_dec (Qfloor q) (n + 1)) as [Hlt | Hge]; [exact Hlt |].
      exfalso. rewrite Zle_Qle in Hge.
      pose proof (Qfloor_le q) as Hf. lra. }
    lia.
Qed.

Lemma floor_lt (q : Q) (m : Z) : (q < inject_Z m)%Q -> Js.floor q < m.
Proof.
  intro H. unfold Js.floor. pose proof (Qfloor_le q) as Hf.
  rewrite Zlt_Qlt. lra.
Qed.

(** The largest Number below 1, and the draws at which [r * 3] starts
    to round to 1 and to 2. *)
Definition belowOne : Q := 1 - Js.pow2 (-53).
Definition lowThird : Q := (1 # 3) - Js.pow2 (-54).
Definition midThird : Q := (2 # 3) - Js.pow2 (-53).

Lemma belowOne_value : (belowOne == 9007199254740991 # 9007199254740992)%Q.
Proof. vm_compute. reflexivity. Qed.

Lemma lowThird_value : (lowThird == 18014398509481981 # 54043195528445952)%Q.
Proof. vm_compute. reflexivity. Qed.

Lemma midThird_value : (midThird == 18014398509481981 # 27021597764222976)%Q.
Proof. vm_compute. reflexivity. Qed.

(** A Number below 1 is at most [belowOne]; so the bound [r <= belowOne]
    below is what [Math.random()] guarantees. *)
Lemma number_below_one (r : Q) :
  (Js.fl r == r)%Q -> (r < 1)%Q -> (r <= belowOne)%Q.
Proof.
  intros Hnum Hlt. rewrite belowOne_value.
  destruct (Qlt_le_dec (1 # 2) r) as [Hbig | Hsmall]; [| lra].
  assert (Hr0 : ~ (r == 0)%Q) by lra.
  assert (He : Js.ilog2 r = -1).
  { apply Number.ilog2_unique; rewrite Qabs_pos by lra.
    - change (Js.pow2 (-1)) with (1 # 2)%Q. lra.
    - change (Js.pow2 (-1 + 1)) with 1%Q. exact Hlt. }
  destruct (Number.nearest_pos r) as (H0 & H1 & _); [lra |].
  rewrite He in H1. change (Js.pow2 (Z.max (-1) (-1022) + 1)) with 1%Q in H1.
  rewrite Number.fl_nonzero in Hnum by exact Hr0.
  pose proof Number.infinity_pos as Hinf.
  assert (Hone : (1 < Js.infinity)%Q).
  { change 1%Q with (Js.pow2 0). apply Number.pow2_lt. lia. }
  destruct (Number.clamp_cases (Js.nearest r)) as [[H _] | [[H _] | (_ & _ & E)]];
    [lra | lra |].
  rewrite E in Hnum. unfold Js.nearest, Js.exponent in Hnum. rewrite He in Hnum.
  change (Z.max (-1) (-1022) - 52) with (-53) in Hnum.
  set (m := Js.nearestEven (r / Js.pow2 (-53))) in Hnum.
  assert (Hp : (Js.pow2 (-53) == 1 # 9007199254740992)%Q) by reflexivity.
  rewrite Hp in Hnum.
  assert (Hm : m < 2 ^ 53).
  { rewrite Zlt_Qlt. change (inject_Z (2 ^ 53)) with 9007199254740992%Q. lra. }
  assert (Hm' : (inject_Z m <= inject_Z (2 ^ 53 - 1))%Q) by (rewrite <- Zle_Qle; lia).
  change (inject_Z (2 ^ 53 - 1)) with 9007199254740991%Q in Hm'. lra.
Qed.

(** [r * 3] at those draws. *)
Lemma triple_belowOne :
  (Js.fl ((9007199254740991 # 9007199254740992) * 3) == 3 - (1 # 2251799813685248))%Q.
Proof. apply Qeq_bool_eq. vm_compute. reflexivity. Qed.

Lemma triple_lowThird :
  (Js.fl ((18014398509481981 # 54043195528445952) * 3) == 1 - (1 # 4503599627370496))%Q.
Proof. apply Qeq_bool_eq. vm_compute. reflexivity. Qed.

Lemma triple_midThird :
  (Js.fl ((18014398509481981 # 27021597764222976) * 3) == 2 - (1 # 2251799813685248))%Q.
Proof. apply Qeq_bool_eq. vm_compute. reflexivity. Qed.

Lemma triple_floor (r : Q) :
  (0 <= r)%Q -> (r <= belowOne)%Q ->
  0 <= Js.floor (Js.mul r 3) <= 2 /\
  ((r <= lowThird)%Q -> Js.floor (Js.mul r 3) = 0) /\
  ((1 # 3 <= r)%Q -> (r <= midThird)%Q -> Js.floor (Js.mul r 3) = 1) /\
  ((2 # 3 <= r)%Q -> Js.floor (Js.mul r 3) = 2).
Proof.
  intros Hlo Hhi. rewrite belowOne_value in Hhi. unfold Js.mul.
  assert (H0 : 0 <= Js.floor (Js.fl (r * 3))).
  { apply Number.floor_ge. change (inject_Z 0) with 0%Q. apply Number.fl_nonneg. lra. }
  assert (H2 : Js.floor (Js.fl (r * 3)) <= 2).
  { assert (Js.floor (Js.fl (r * 3)) < 3); [| lia].
    apply floor_lt. change (inject_Z 3) with 3%Q.
    apply Qle_lt_trans with (Js.fl ((9007199254740991 # 9007199254740992) * 3)).
    - apply Number.fl_mono. lra.
    - rewrite triple_belowOne. reflexivity. }
  split; [lia |]. split; [| split].
  - intro H. rewrite lowThird_value in H.
    assert (Js.floor (Js.fl (r * 3)) < 1); [| lia].
    apply floor_lt. change (inject_Z 1) with 1%Q.
    apply Qle_lt_trans with (Js.fl ((18014398509481981 # 54043195528445952) * 3)).
    + apply Number.fl_mono. lra.
    + rewrite triple_lowThird. reflexivity.
  - intros Ha Hb. rewrite midThird_value in Hb.
    assert (1 <= Js.floor (Js.fl (r * 3))).
    { apply Number.floor_ge. apply Number.fl_ge_safe; [apply Number.safe_small; lia |].
      change (inject_Z 1) with 1%Q. lra. }
    assert (Js.floor (Js.fl (r * 3)) < 2); [| lia].
    apply floor_lt. change (inject_Z 2) with 2%Q.
    apply Qle_lt_trans with (Js.fl ((18014398509481981 # 27021597764222976) * 3)).
    + apply Number.fl_mono. lra.
    + rewrite triple_midThird. reflexivity.
  - intro Ha.
    assert (2 <= Js.floor (Js.fl (r * 3))); [| lia].
    apply Number.floor_ge. apply Number.fl_ge_safe; [apply Number.safe_small; lia |].
    change (inject_Z 2) with 2%Q. lra.
Qed.

(** With a draw that is a Number in [0,1) the offset is -1, 0 or 1; each
    value is taken on a third of the unit interval, up to one unit in
    the last place at the two inner boundaries. *)
Lemma randomOffset_cases (r : Q) :
  (0 <= r)%Q -> (r <= belowOne)%Q ->
  (-1 <= randomOffset r <= 1) /\
  ((r <= lowThird)%Q -> randomOffset r = -1) /\
  ((1 # 3 <= r)%Q -> (r <= midThird)%Q -> randomOffset r = 0) /\
  ((2 # 3 <= r)%Q -> randomOffset r = 1).
Proof.
  intros Hlo Hhi. destruct (triple_floor r Hlo Hhi) as (Hrange & H0 & H1 & H2).
  assert (E : randomOffset r = Js.floor (Js.mul r 3) - 1).
  { unfold randomOffset. apply Number.minus_exact. apply Number.safe_small. lia. }
  rewrite E. split; [lia |]. split; [| split].
  - intro H. rewrite (H0 H). reflexivity.
  - intros Ha Hb. rewrite (H1 Ha Hb). reflexivity.
  - intro H. rewrite (H2 H). reflexivity.
Qed.

(** The inner boundaries are not exactly at the thirds: the Number just
    below 1/3 already gives the offset 0. *)
Example randomOffset_just_below_third :
  let r := (6004799503160661 # 18014398509481984)%Q in
  (Js.fl r == r)%Q /\ (r < 1 # 3)%Q /\ randomOffset r = 0.
Proof.
  cbv zeta. split; [apply Qeq_bool_eq; vm_compute; reflexivity |].
  split; [reflexivity | vm_compute; reflexivity].
Qed.

(** The wait lies between 5000 and 8000, both included, and grows with
    the draw. *)
Lemma randomWait_cases (r : Q) :
  (0 <= r)%Q -> (r < 1)%Q ->
  (5000 <= randomWait r)%Q /\ (randomWait r <= 8000)%Q /\
  (forall r', (r <= r')%Q -> (randomWait r <= randomWait r')%Q).
Proof.
  intros Hlo Hhi. unfold randomWait, Js.add, Js.mul.
  assert (H0 : (0 <= Js.fl (r * 3000))%Q) by (apply Number.fl_nonneg; lra).
  assert (H1 : (Js.fl (r * 3000) <= 3000)%Q).
  { change 3000%Q with (inject_Z 3000).
    apply Number.fl_le_safe; [unfold Number.safe; vm_compute; discriminate |].
    change (inject_Z 3000) with 3000%Q. lra. }
  split; [| split].
  - change 5000%Q with (inject_Z 5000) at 1.
    apply Number.fl_ge_safe; [unfold Number.safe; vm_compute; discriminate |].
    change (inject_Z 5000) with 5000%Q. lra.
  - change 8000%Q with (inject_Z 8000).
    apply Number.fl_le_safe; [unfold Number.safe; vm_compute; discriminate |].
    change (inject_Z 8000) with 8000%Q. lra.
  - intros r' Hle. apply Number.fl_mono.
    assert ((Js.fl (r * 3000) <= Js.fl (r' * 3000))%Q) by (apply Number.fl_mono; lra).
    lra.
Qed.

(** The upper end is reached: at the largest Number below 1 the wait is
    8000. *)
Example randomWait_at_belowOne :
  (randomWait (9007199254740991 # 9007199254740992) == 8000)%Q.
Proof. apply Qeq_bool_eq. vm_compute. reflexivity. Qed.

(** So it is one step earlier, at [1 - 2^-52], the largest draw of a
    generator that fills 52 bits. *)
Example randomWait_at_52_bits :
  (randomWait (4503599627370495 # 4503599627370496) == 8000)%Q.
Proof. apply Qeq_bool_eq. vm_compute. reflexivity. Qed.

(** Next to a home beyond the safe integers the target is not one of
    the nine cells: at [2^53 + 2] the offset 1 leads two blocks away. *)
Example target_beyond_safe_integers :
  Js.plus (2 ^ 53 + 2) 1 = 2 ^ 53 + 4.
Proof. vm_compute. reflexivity. Qed.

(** *** The wander step *)

Lemma shouldSleep_result (w : World) (c : Controller) :
  shouldSleep w c = mkRun (Done false) c [] \/
  shouldSleep w c =
    ran (Done true)
      (logged [note w "Night time detected with players online - should sleep" info] c)
      []
      [SendConsole (note w "Night time detected with players online - should sleep" info)].
Proof.
  unfold shouldSleep. step. destruct (bot c) as [b |]; [| left; reflexivity].
  destruct (isNightTime b && _); [right | left; reflexivity].
  step. reflexivity.
Qed.

Definition bedNotes (w : World) : list ConsoleMessage :=
  note w "Looking for a bed to sleep in..." info ::
  match findBlock w with
  | None => [note w "No bed found nearby" warning]
  | Some bed =>
      [note w ("Found a bed at " +++ showXYZ (x bed) (y bed) (z bed)) info]
  end.

(** The calls of [findAndSleepInBed] into the session, and the frames of
    its log entries. *)
Definition bedSent (w : World) : list Effect :=
  FindBlock 10 ::
  match findBlock w with
  | None => []
  | Some bed =>
      [SetGoal None;
       SetGoal (Some (Mf.GoalNear (x bed) (y bed) (z bed) 1));
       OnceGoalReached bed]
  end.

Definition bedQueued (w : World) : list Effect := map SendConsole (bedNotes w).

Definition bedEffects (w : World) : list Effect := bedSent w ++ bedQueued w.

Lemma findAndSleepInBed_run (w : World) (c : Controller) (b : Mf.Bot) :
  bot c = Some b ->
  findAndSleepInBed w c =
    ran (Done tt) (logged (bedNotes w) c) (bedSent w) (bedQueued w).
Proof.
  intro Hbot. unfold findAndSleepInBed, bedQueued, bedNotes, bedSent. step. rewrite Hbot.
  step. step. destruct (findBlock w) as [bed |].
  - step. erewrite try_done by (repeat step; reflexivity). same_run; reflexivity.
  - unfold addConsoleMessage. same_run; reflexivity.
Qed.

Lemma rearm_run (boundary : nat) (ms : Q) (c : Controller) :
  let c0 := match timeoutId c with Some h => disarm h c | None => c end in
  rearm boundary ms c =
    mkRun (Done tt)
      (with_timeoutId (Some (nextHandle c))
         (with_timers
            (timers c0 ++ [mkTimer (nextHandle c) ms false (wanderStepLater boundary)])
            (S (nextHandle c)) c0))
      [].
Proof.
  cbv zeta. unfold rearm, setTimeout, clearTimeout. step.
  destruct (timeoutId c); repeat step; reflexivity.
Qed.

(** C7 as stated fails: the draw can be [1 - 2^-52], and the wait
    [5000 + r * 3000] is then rounded to exactly 8000, outside the range
    [5000, 8000). *)
Lemma wander_wait_reaches_8000 :
  let w := mkWorld "12:00:00" (inr Scenario.joining) None None
                   (1 # 2) (1 # 2) (4503599627370495 # 4503599627370496) 0 in
  let r := wanderStep w 2 Scenario.spawnedFar in
  reachable Scenario.spawnedFar /\
  (0 <= random3 w)%Q /\ (random3 w < 1)%Q /\ (Js.fl (random3 w) == random3 w)%Q /\
  outcome (shouldSleep w Scenario.spawnedFar) = Done false /\
  exists h d,
    timeoutId (final r) = Some h /\
    In (mkTimer h d false (wanderStepLater 2)) (timers (final r)) /\
    (d == 8000)%Q.
Proof.
  cbv zeta. split; [exact Scenario.spawnedFar_reachable |].
  split; [discriminate |]. split; [reflexivity |].
  split; [apply Qeq_bool_eq; vm_compute; reflexivity |].
  split; [vm_compute; reflexivity |].
  exists 8%nat, (randomWait (4503599627370495 # 4503599627370496)).
  split; [vm_compute; reflexivity |]. split.
  - vm_compute. do 6 right. left. reflexivity.
  - exact randomWait_at_52_bits.
Qed.

(** C7, amended. A wander step that runs with session, home and
    [running] set, with draws that are Numbers in [0,1):
    - both offsets lie in {-1,0,1}, from two separate draws, each value
      on a third of the unit interval up to one unit in the last place;
      the wait [5000 + r * 3000] lies between 5000 and 8000, both
      included, and grows with its draw;
    - when [shouldSleep] answers false the step logs and issues the
      direct move to the rounded sums ([home.x + dx], [home.y],
      [home.z + dz]), which for a home below [2^53] in size is the cell
      at that offset; it returns (the library calls being taken to
      return) and leaves as [timeoutId] a newly armed one-shot timer that
      runs the wander step again after that wait;
    - when [shouldSleep] answers true the step only logs, looks for a bed
      and sets the goal toward it: no move, no timer. *)
Theorem wander_step_targets
    (w : World) (c : Controller) (b : Mf.Bot) (home : Coordinate) (boundary : nat) :
  running c = true -> bot c = Some b -> homePosition c = Some home ->
  (0 <= random1 w)%Q -> (random1 w <= belowOne)%Q ->
  (0 <= random2 w)%Q -> (random2 w <= belowOne)%Q ->
  (0 <= random3 w)%Q -> (random3 w <= belowOne)%Q ->
  let dx := randomOffset (random1 w) in
  let dz := randomOffset (random2 w) in
  let wait := randomWait (random3 w) in
  let targetX := Js.plus (x home) dx in
  let targetZ := Js.plus (z home) dz in
  let r := wanderStep w boundary c in
  ((-1 <= dx <= 1) /\
   ((random1 w <= lowThird)%Q -> dx = -1) /\
   ((1 # 3 <= random1 w)%Q -> (random1 w <= midThird)%Q -> dx = 0) /\
   ((2 # 3 <= random1 w)%Q -> dx = 1)) /\
  ((-1 <= dz <= 1) /\
   ((random2 w <= lowThird)%Q -> dz = -1) /\
   ((1 # 3 <= random2 w)%Q -> (random2 w <= midThird)%Q -> dz = 0) /\
   ((2 # 3 <= random2 w)%Q -> dz = 1)) /\
  ((5000 <= wait)%Q /\ (wait <= 8000)%Q /\
   (forall r', (random3 w <= r')%Q -> (wait <= randomWait r')%Q)) /\
  (Z.abs (x home) < 2 ^ 53 -> targetX = x home + dx) /\
  (Z.abs (z home) < 2 ^ 53 -> targetZ = z home + dz) /\
  (outcome (shouldSleep w c) = Done false ->
   r = (addConsoleMessage w
          ("Wandering to position " +++ showXYZ targetX (y home) targetZ) info ;;
        moveDirectly w targetX (y home) targetZ ;;
        rearm boundary wait) c /\
   outcome r = Done tt /\
   exists h, timeoutId (final r) = Some h /\
             In (mkTimer h wait false (wanderStepLater boundary)) (timers (final r))) /\
  (outcome (shouldSleep w c) = Done true ->
   r = ran (Done tt)
         (logged (note w "Night time detected with players online - should sleep" info
                    :: bedNotes w) c)
         (bedSent w)
         (SendConsole (note w "Night time detected with players online - should sleep" info)
            :: bedQueued w)).
Proof.
  intros Hrun Hbot Hhome H1lo H1hi H2lo H2hi H3lo H3hi. cbv zeta.
  pose proof (randomOffset_cases (random1 w) H1lo H1hi) as Hdx.
  pose proof (randomOffset_cases (random2 w) H2lo H2hi) as Hdz.
  split; [exact Hdx |]. split; [exact Hdz |].
  split.
  { apply randomWait_cases; [exact H3lo |].
    rewrite belowOne_value in H3hi. lra. }
  split; [intro Hs; apply StatusFacts.plus_offset; [exact Hs | apply Hdx] |].
  split; [intro Hs; apply StatusFacts.plus_offset; [exact Hs | apply Hdz] |].
  split.
  - intro Hno.
    destruct (shouldSleep_result w c) as [E | E]; [| rewrite E in Hno; discriminate Hno].
    set (body := (addConsoleMessage w _ info ;; moveDirectly w _ _ _ ;; rearm boundary _)).
    assert (Hbody : never_throws body) by
      (apply nt_bind; [apply nt_addConsoleMessage | intro];
       apply nt_bind; [apply nt_moveDirectly | intro; apply nt_rearm]).
    assert (Hr : wanderStep w boundary c = body c).
    { unfold wanderStep. step. rewrite Hbot, Hhome, Hrun.
      erewrite bind_run by exact E. fields. cbv zeta.
      rewrite after_nil. apply try_returns with (a := tt). apply nt_done. exact Hbody. }
    rewrite Hr. split; [reflexivity |]. split; [apply nt_done; exact Hbody |].
    unfold body. step.
    match goal with
    | |- context [bind (moveDirectly w ?tx ?ty ?tz) ?k ?c1] =>
        pose proof (nt_done (moveDirectly w tx ty tz) c1 (nt_moveDirectly w tx ty tz)) as Hm;
        destruct (moveDirectly w tx ty tz c1) as [o c2 es qs] eqn:Emove
    end.
    cbn [outcome] in Hm. subst o.
    erewrite bind_ran by exact Emove.
    rewrite (rearm_run boundary (randomWait (random3 w)) c2). fields.
    eexists. split; [reflexivity |]. apply in_or_app. right. left. reflexivity.
  - intro Hyes.
    destruct (shouldSleep_result w c) as [E | E]; [rewrite E in Hyes; discriminate Hyes |].
    unfold wanderStep. step. rewrite Hbot, Hhome, Hrun.
    erewrite bind_ran by exact E. fields.
    erewrite findAndSleepInBed_run by (unfold logged; fields; exact Hbot).
    same_run; reflexivity.
Qed.

Lemma wander_step_targets_witness :
  let r := wanderStep Scenario.quiet 2 Scenario.spawnedFar in
  outcome r = Done tt /\
  exists h, timeoutId (final r) = Some h /\
            In (mkTimer h (randomWait (1 # 3)) false (wanderStepLater 2))
               (timers (final r)).
Proof.
  destruct (wander_step_targets Scenario.quiet Scenario.spawnedFar Scenario.farAway
              (mkCoord 0 64 0) 2 eq_refl eq_refl eq_refl)
    as (_ & _ & _ & _ & _ & Hgo & _); try (vm_compute; discriminate).
  destruct (Hgo eq_refl) as (_ & Hout & Htimer).
  split; [exact Hout | exact Htimer].
Defined.

End Wander.

(** ** The content of the console log (storage.ts) *)

Module LogContent.
Import Schema LogRing.

(** The last [n] elements of a list. *)
Definition lastn {A} (n : nat) (l : list A) : list A := skipn (List.length l - n) l.

(** The messages appended since the last clear, oldest first. *)
Fixpoint sinceClear (ops : list LogOp) (acc : list ConsoleMessage) : list ConsoleMessage :=
  match ops with
  | [] => acc
  | Append m :: rest => sinceClear rest (acc ++ [m])
  | Clear :: rest => sinceClear rest []
  end.

Lemma tl_skipn {A} (k : nat) (l : list A) : List.tl (skipn k l) = skipn (S k) l.
Proof.
  revert l. induction k as [| k IH]; intros [| a l].
  - reflexivity.
  - destruct l; reflexivity.
  - reflexivity.
  - cbn [skipn]. rewrite IH. reflexivity.
Qed.

Lemma add_lastn (m : ConsoleMessage) (st : Storage.MemStorage) (acc : list ConsoleMessage) :
  Storage.consoleMessages st = lastn 100 acc ->
  Storage.consoleMessages (Storage.addConsoleMessage m st) = lastn 100 (acc ++ [m]).
Proof.
  intro H. unfold Storage.addConsoleMessage. cbn [Storage.consoleMessages].
  rewrite H. unfold lastn. rewrite length_app, length_app, length_skipn.
  cbn [List.length].
  destruct (Nat.le_gt_cases 100 (List.length acc)) as [Hbig | Hsmall].
  - replace (Nat.ltb 100 (List.length acc - (List.length acc - 100) + 1)) with true
      by (symmetry; apply Nat.ltb_lt; lia).
    replace (List.length acc + 1 - 100)%nat with (S (List.length acc - 100)) by lia.
    rewrite skipn_app.
    replace (S (List.length acc - 100) - List.length acc)%nat with 0%nat by lia.
    change (skipn 0 [m]) with [m].
    destruct (skipn (List.length acc - 100) acc) as [| a l] eqn:E.
    + exfalso. apply (f_equal (@List.length _)) in E.
      rewrite length_skipn in E. cbn in E. lia.
    + cbn [app List.tl]. f_equal.
      rewrite <- tl_skipn, E. reflexivity.
  - replace (Nat.ltb 100 (List.length acc - (List.length acc - 100) + 1)) with false
      by (symmetry; apply Nat.ltb_ge; lia).
    replace (List.length acc - 100)%nat with 0%nat by lia.
    replace (List.length acc + 1 - 100)%nat with 0%nat by lia.
    reflexivity.
Qed.

Lemma replay_from (ops : list LogOp) (st : Storage.MemStorage) (acc : list ConsoleMessage) :
  Storage.consoleMessages st = lastn 100 acc ->
  Storage.consoleMessages (fold_left apply ops st) = lastn 100 (sinceClear ops acc).
Proof.
  revert st acc. induction ops as [| [m |] ops IH]; intros st acc H; cbn [fold_left sinceClear].
  - exact H.
  - apply IH. cbn [apply]. apply add_lastn. exact H.
  - apply IH. reflexivity.
Qed.

(** X1. After any sequence of appends and clears on a new store, the log
    is exactly the last 100 (or all, if fewer) of the messages appended
    since the last clear, in the order they were appended. *)
Theorem log_is_last_100 (ops : list LogOp) :
  Storage.consoleMessages (replay ops) = lastn 100 (sinceClear ops []).
Proof. unfold replay. apply replay_from. reflexivity. Qed.

End LogContent.

(** ** More on the status snapshot (getBotStatus) *)

Module StatusMore.
Import Schema.

(** X2. [getBotStatus] raises exactly when the controller is running with
    a home set and holds a session that has no entity yet; what it raises
    is then the [TypeError] of reading [position] of [undefined].  In
    every other state it returns a snapshot. *)
Theorem status_raises_iff (c : Controller) :
  (getBotStatus c = Thrown (cannotRead "undefined" "position") <->
   running c = true /\ homePosition c <> None /\
   exists b, bot c = Some b /\ Mf.entity b = None) /\
  (forall e, getBotStatus c = Thrown e -> e = cannotRead "undefined" "position") /\
  ((exists st, getBotStatus c = Done st) \/
   getBotStatus c = Thrown (cannotRead "undefined" "position")).
Proof.
  unfold getBotStatus.
  destruct (bot c) as [b |] eqn:Hbot.
  2:{ split; [split; [discriminate | intros (_ & _ & b & Hb & _); discriminate Hb] |].
      split; [discriminate | left; eexists; reflexivity]. }
  destruct (running c) eqn:Hrun.
  2:{ split; [split; [discriminate | intros (Hr & _); discriminate Hr] |].
      split; [discriminate | left; eexists; reflexivity]. }
  destruct (homePosition c) as [home |] eqn:Hhome.
  2:{ split; [split; [discriminate | intros (_ & Hh & _); contradiction] |].
      split; [discriminate | left; eexists; reflexivity]. }
  destruct (Mf.entity b) as [e |] eqn:Hent.
  - split; [split; [discriminate |] |].
    + intros (_ & _ & b' & Hb' & He'). injection Hb' as <-. congruence.
    + split; [discriminate | left; eexists; reflexivity].
  - split; [split; [intros _ | reflexivity] |].
    + repeat split; [discriminate |]. exists b. split; [reflexivity | exact Hent].
    + split; [intros e [= <-]; reflexivity | right; reflexivity].
Qed.

Lemma status_raises_iff_witness :
  getBotStatus (with_bot (Some Scenario.joining) Scenario.spawnedFar) =
    Thrown (cannotRead "undefined" "position").
Proof.
  apply (proj2 (proj1 (status_raises_iff
                         (with_bot (Some Scenario.joining) Scenario.spawnedFar)))).
  split; [reflexivity |]. split; [intro H; vm_compute in H; discriminate H |].
  exists Scenario.joining. split; reflexivity.
Defined.

(** X3. For a running controller with a spawned session the snapshot is
    connected, reports the floored entity position, and lists the
    session's participants in their order without the agent's own name. *)
Theorem status_of_live_session (c : Controller) (b : Mf.Bot) (e : Mf.Entity)
    (names : list string) :
  running c = true -> bot c = Some b -> Mf.entity b = Some e ->
  Mf.players b = Some names ->
  exists st,
    getBotStatus c = Done st /\ connected st = true /\
    position st = mkCoord (Qfloor (Mf.x (Mf.position e)))
                          (Qfloor (Mf.y (Mf.position e)))
                          (Qfloor (Mf.z (Mf.position e))) /\
    players st = filter (fun name => negb (String.eqb name (Mf.username b))) names /\
    ~ In (Mf.username b) (players st) /\
    (forall name, In name (players st) <-> In name names /\ name <> Mf.username b).
Proof.
  intros Hrun Hbot Hent Hnames.
  assert (Hfilter : forall name,
             In name (filter (fun name => negb (String.eqb name (Mf.username b))) names) <->
             In name names /\ name <> Mf.username b).
  { intro name. rewrite filter_In, negb_true_iff, String.eqb_neq. tauto. }
  unfold getBotStatus, defaultStatus. rewrite Hbot, Hrun, Hent, Hnames.
  destruct (homePosition c) as [home |]; eexists; (split; [reflexivity |]);
    cbn [connected position players isSome andb]; unfold otherPlayers, Js.floor;
    (split; [reflexivity |]); (split; [reflexivity |]); (split; [reflexivity |]);
    (split; [| exact Hfilter]);
    intro Hin; apply Hfilter in Hin; destruct Hin as [_ Hne]; apply Hne; reflexivity.
Qed.

Lemma status_of_live_session_witness :
  exists st,
    getBotStatus Scenario.spawnedFar = Done st /\ connected st = true /\
    position st = mkCoord 100 70 (-4) /\
    players st = ["alice"].
Proof.
  destruct (status_of_live_session Scenario.spawnedFar Scenario.farAway
              (Mf.mkEntity (Mf.vec3 (201 # 2) 70 (-7 # 2))) ["Gadalar"; "alice"]
              eq_refl eq_refl eq_refl eq_refl)
    as (st & Hst & Hconn & Hpos & Hplayers & _).
  exists st. repeat split; assumption.
Defined.

End StatusMore.

(** ** More on start() *)

Module StartMore.
Import Schema Frame Exec Lifecycle Rest.

Definition validAddress (st : BotSettings) : Prop :=
  serverAddress st <> "" /\ serverAddress st <> "mc.example.com".

Lemma validAddress_check (st : BotSettings) :
  validAddress st ->
  String.eqb (serverAddress st) "" || String.eqb (serverAddress st) "mc.example.com" = false.
Proof.
  intros [H1 H2]. apply orb_false_intro; apply String.eqb_neq; assumption.
Qed.

Definition startingNotes (w : World) (st : BotSettings) : list ConsoleMessage :=
  [note w ("Starting bot with username " +++ botUsername st) info;
   note w ("Connecting to server " +++ serverAddress st +++ "...") info].

(** [start()] on a running controller only appends the warning "Bot is
    already running" and leaves its frame: no second session, no timer,
    no snapshot, and the running session is left alone. *)
Lemma start_when_running (w : World) (c : Controller) :
  running c = true ->
  start w c =
    ran (Done tt) (logged [note w "Bot is already running" warning] c)
        [] [SendConsole (note w "Bot is already running" warning)].
Proof. intro Hrun. unfold start. step. rewrite Hrun. reflexivity. Qed.

Lemma start_connects (w : World) (c : Controller) (b : Mf.Bot) :
  running c = false -> bot c = None ->
  String.eqb (serverAddress (Storage.getBotSettings (storage c))) ""
  || String.eqb (serverAddress (Storage.getBotSettings (storage c))) "mc.example.com"
     = false ->
  createBot w = inr b ->
  let st := Storage.getBotSettings (storage c) in
  let n := nextHandle c in
  start w c =
    ran (Done tt)
      (with_timers
         (timers c ++ [mkTimer n 10000 false connectionTimeout;
                       mkTimer (S n) 2000 true wakeupInterval])
         (S (S n))
         (with_bot (Some b)
            (logged (startingNotes w st)
               (with_running true (with_settings (Some st) c)))))
      [SendStatus StatusFacts.idleSnapshot;
       CreateBot (serverAddress st) (botUsername st) 25565;
       LoadPlugin]
      (map SendConsole (startingNotes w st)).
Proof.
  intros Hrun Hbot Hcheck Hcreate. cbv zeta.
  unfold start. step. rewrite Hrun. step. rewrite Hcheck. step.
  erewrite bind_run by (apply broadcast_idle; right; exact Hbot). fields.
  unfold setTimeout, setInterval, setupEventHandlers.
  erewrite try_done.
  2:{ repeat step.
      erewrite bind_run by (apply newBot_ok; exact Hcreate). fields.
      repeat step. reflexivity. }
  same_run; try reflexivity.
  unfold logged. fields. repeat rewrite <- app_assoc. reflexivity.
Qed.

Lemma start_create_fails (w : World) (c : Controller) (e : Js.Error) :
  running c = false -> bot c = None ->
  String.eqb (serverAddress (Storage.getBotSettings (storage c))) ""
  || String.eqb (serverAddress (Storage.getBotSettings (storage c))) "mc.example.com"
     = false ->
  createBot w = inl e ->
  let st := Storage.getBotSettings (storage c) in
  let failed := note w ("CRITICAL ERROR STARTING BOT: " +++ Js.toString e) error in
  start w c =
    ran (Done tt)
      (with_timers
         (timers c ++ [mkTimer (nextHandle c) 10000 false connectionTimeout])
         (S (nextHandle c))
         (logged (startingNotes w st ++ [failed]) (with_settings (Some st) c)))
      [SendStatus StatusFacts.idleSnapshot;
       CreateBot (serverAddress st) (botUsername st) 25565;
       SendStatus StatusFacts.idleSnapshot]
      (map SendConsole (startingNotes w st ++ [failed])).
Proof.
  intros Hrun Hbot Hcheck Hcreate. cbv zeta.
  unfold start. step. rewrite Hrun. step. rewrite Hcheck. step.
  erewrite bind_run by (apply broadcast_idle; right; exact Hbot). fields.
  unfold setTimeout, setInterval, setupEventHandlers.
  erewrite try_raise.
  2:{ repeat step.
      erewrite bind_raise by (apply newBot_raises; exact Hcreate).
      reflexivity. }
  fields. repeat step.
  erewrite broadcast_idle by (left; reflexivity).
  same_run; unfold logged; fields; try reflexivity; symmetry; assumption.
Qed.

(** X4. A [start()] that goes through (not running, no session held, an
    address that is neither empty nor the placeholder, [createBot]
    returning): [running] becomes true, the new session is stored, the
    10 s connection timeout and the repeating 2 s wake-up check are
    armed, and the session is created for the stored address and user
    name on port 25565.  The only snapshot it publishes is taken before
    the session exists and therefore still says not connected; it goes
    out first, the frames of the two log entries after the session has
    been created. *)
Theorem start_opens_session (w : World) (c : Controller) (b : Mf.Bot) :
  running c = false -> bot c = None ->
  validAddress (Storage.getBotSettings (storage c)) ->
  createBot w = inr b ->
  let st := Storage.getBotSettings (storage c) in
  let r := start w c in
  outcome r = Done tt /\
  running (final r) = true /\ bot (final r) = Some b /\
  settings (final r) = Some st /\ homePosition (final r) = homePosition c /\
  timers (final r) =
    timers c ++ [mkTimer (nextHandle c) 10000 false connectionTimeout;
                 mkTimer (S (nextHandle c)) 2000 true wakeupInterval] /\
  effects r =
    [SendStatus StatusFacts.idleSnapshot;
     CreateBot (serverAddress st) (botUsername st) 25565;
     LoadPlugin;
     SendConsole (note w ("Starting bot with username " +++ botUsername st) info);
     SendConsole (note w ("Connecting to server " +++ serverAddress st +++ "...") info)] /\
  connected StatusFacts.idleSnapshot = false.
Proof.
  intros Hrun Hbot Hvalid Hcreate. cbv zeta.
  rewrite (start_connects w c b Hrun Hbot (validAddress_check _ Hvalid) Hcreate).
  unfold logged. fields. repeat split.
Qed.

Lemma start_opens_session_witness :
  running Scenario.connecting = true /\
  bot Scenario.connecting = Some Scenario.joining /\
  timers Scenario.connecting =
    [mkTimer 0 10000 false connectionTimeout; mkTimer 1 2000 true wakeupInterval].
Proof.
  assert (Hvalid : validAddress (Storage.getBotSettings (storage Scenario.configured)))
    by (split; discriminate).
  destruct (start_opens_session Scenario.quiet Scenario.configured Scenario.joining
              eq_refl eq_refl Hvalid eq_refl)
    as (_ & Hrun & Hbot & _ & _ & Htimers & _).
  repeat split; assumption.
Defined.

(** X5. When [createBot] raises, [start()] still returns normally: the
    failure is logged as "CRITICAL ERROR STARTING BOT: " followed by the
    error as a template string prints it, [running] is false again and
    no session is held.  The connection timeout armed before the attempt
    is not disarmed; when it fires later it does nothing, because the
    controller is not running. *)
Theorem start_rolls_back_on_create_error (w : World) (c : Controller) (e : Js.Error) :
  running c = false -> bot c = None ->
  validAddress (Storage.getBotSettings (storage c)) ->
  createBot w = inl e ->
  let r := start w c in
  let failed := note w ("CRITICAL ERROR STARTING BOT: " +++ Js.toString e) error in
  outcome r = Done tt /\
  running (final r) = false /\ bot (final r) = None /\
  last (Storage.consoleMessages (storage (final r))) failed = failed /\
  In (SendConsole failed) (effects r) /\
  timers (final r) =
    timers c ++ [mkTimer (nextHandle c) 10000 false connectionTimeout] /\
  (forall w' self,
      runCallback w' self connectionTimeout (final r) = mkRun (Done tt) (final r) []).
Proof.
  intros Hrun Hbot Hvalid Hcreate. cbv zeta.
  rewrite (start_create_fails w c e Hrun Hbot (validAddress_check _ Hvalid) Hcreate).
  fields. split; [reflexivity |]. split; [exact Hrun |]. split; [exact Hbot |].
  split.
  { unfold logged, startingNotes. fields. cbn [fold_left app]. apply last_added. }
  split; [cbn; tauto |]. split; [reflexivity |].
  intros w' self. unfold logged. cbn [runCallback]. step. rewrite Hrun. reflexivity.
Qed.

Lemma start_rolls_back_on_create_error_witness :
  let w := mkWorld "12:00:01" (inl (Js.mkError "Error" "unsupported protocol version"))
                   None None 0 0 0 0 in
  outcome (start w Scenario.configured) = Done tt /\
  running (final (start w Scenario.configured)) = false /\
  bot (final (start w Scenario.configured)) = None.
Proof.
  assert (Hvalid : validAddress (Storage.getBotSettings (storage Scenario.configured)))
    by (split; discriminate).
  cbv zeta.
  destruct (start_rolls_back_on_create_error
              (mkWorld "12:00:01" (inl (Js.mkError "Error" "unsupported protocol version"))
                       None None 0 0 0 0)
              Scenario.configured (Js.mkError "Error" "unsupported protocol version")
              eq_refl eq_refl Hvalid eq_refl)
    as (Hout & Hrun & Hbot & _).
  repeat split; assumption.
Defined.

(** An error without a message is printed by its name alone. *)
Example critical_entry_without_message :
  let w := mkWorld "12:00:01" (inl (Js.mkError "Error" "")) None None 0 0 0 0 in
  map message (skipn 4 (Storage.consoleMessages (storage (final (start w Scenario.configured)))))
    = ["CRITICAL ERROR STARTING BOT: Error"].
Proof. vm_compute. reflexivity. Qed.

End StartMore.

(** ** server/routes.ts: the HTTP endpoints that call the controller *)

Module Routes.
Import Schema.

(** The JSON bodies the endpoints answer with. *)
Inductive Body :=
| Message (message : string)
| InvalidSettings
| Settings (s : BotSettings)
| Messages (l : list ConsoleMessage)
| Success.

Record Response := mkResponse { status : Z; body : Body }.

(** [res.json(b)] and [res.status(n).json(b)]. *)
Definition json (b : Body) : Response := mkResponse 200 b.
Definition failed (n : Z) (b : Body) : Response := mkResponse n b.

(** A request body for the settings endpoint whose fields carry the JSON
    types of the schema: two strings and three numbers. *)
Record RawSettings := mkRaw {
  rawAddress : string;
  rawUsername : string;
  rawX : Q;
  rawY : Q;
  rawZ : Q
}.

(** [z.number().int()] *)
Definition isInteger (q : Q) : bool := Qeq_bool q (inject_Z (Qfloor q)).

(** [botSettingsSchema.parse]: [None] stands for the raised [ZodError]. *)
Definition parse (raw : RawSettings) : option BotSettings :=
  if Nat.leb 1 (String.length (rawAddress raw))
     && Nat.leb 1 (String.length (rawUsername raw))
     && isInteger (rawX raw) && isInteger (rawY raw) && isInteger (rawZ raw)
  then Some (mkSettings (rawAddress raw) (rawUsername raw)
                        (Qfloor (rawX raw)) (Qfloor (rawY raw)) (Qfloor (rawZ raw)))
  else None.

Section Endpoints.
Variable w : World.

Definition getSettings : Act Response :=
  try_catch
    (c <- get ;;
     ret (json (Settings (Storage.getBotSettings (storage c)))))
    (fun e => ret (failed 500 (Message ("Error fetching bot settings: " +++ Js.toString e)))).

Definition postSettings (raw : RawSettings) : Act Response :=
  try_catch
    (match parse raw with
     | None => ret (failed 400 InvalidSettings)
     | Some s =>
         modify (fun c => with_storage (Storage.updateBotSettings s (storage c)) c) ;;
         c <- get ;;
         let updatedSettings := Storage.getBotSettings (storage c) in
         updateSettings w s ;;
         ret (json (Settings updatedSettings))
     end)
    (fun e => ret (failed 500 (Message ("Error updating bot settings: " +++ Js.toString e)))).

Definition postStart : Act Response :=
  try_catch
    (start w ;; ret (json (Message "Bot started successfully")))
    (fun e => ret (failed 500 (Message ("Error starting bot: " +++ Js.toString e)))).

Definition postStop : Act Response :=
  try_catch
    (try_catch (stop w) (fun err => ret tt) ;;
     ret (json (Message "Bot stopped successfully")))
    (fun e => ret (json (Message "Bot stop initiated"))).

Definition getConsole : Act Response :=
  try_catch
    (c <- get ;;
     ret (json (Messages (Storage.getConsoleMessages (storage c)))))
    (fun e => ret (failed 500 (Message ("Error fetching console messages: "
                                          +++ Js.toString e)))).

Definition postClear : Act Response :=
  try_catch
    (clearConsole w ;; ret (json (Message "Console cleared successfully")))
    (fun e => ret (failed 500 (Message ("Error clearing console: " +++ Js.toString e)))).

Definition postLogin (password : string) : Act Response :=
  try_catch
    (if String.eqb password "Ab1365098958" then ret (json Success)
     else ret (failed 401 (Message "Invalid password")))
    (fun e => ret (failed 500 (Message ("Error during login: " +++ Js.toString e)))).

End Endpoints.

End Routes.

(** ** The API boundary *)

Module Api.
Import Schema Frame Exec Lifecycle Rest Wander StartMore Routes.

Lemma nt_updateSettings w new : never_throws (updateSettings w new).
Proof. unfold updateSettings. total. Qed.

Lemma nt_clearConsole w : never_throws (clearConsole w).
Proof. unfold clearConsole. total. Qed.

Lemma stop_returns (w : World) (c : Controller) : outcome (stop w c) = Done tt.
Proof.
  destruct (running c) eqn:Hrun.
  - rewrite (stop_when_running w c Hrun). reflexivity.
  - rewrite (stop_when_stopped w c Hrun). reflexivity.
Qed.

Lemma start_returns (w : World) (c : Controller) :
  (running c = false -> bot c = None) -> outcome (start w c) = Done tt.
Proof.
  intro Hinv. destruct (running c) eqn:Hrun.
  - rewrite (start_when_running w c Hrun). reflexivity.
  - specialize (Hinv eq_refl).
    destruct (String.eqb (serverAddress (Storage.getBotSettings (storage c))) ""
              || String.eqb (serverAddress (Storage.getBotSettings (storage c)))
                            "mc.example.com") eqn:Hcheck.
    + rewrite start_refused; [reflexivity | exact Hrun |].
      apply orb_prop in Hcheck. destruct Hcheck as [H | H];
        apply String.eqb_eq in H; [left | right]; exact H.
    + destruct (createBot w) as [e | b] eqn:Hcreate.
      * rewrite (start_create_fails w c e Hrun Hinv Hcheck Hcreate). reflexivity.
      * rewrite (start_connects w c b Hrun Hinv Hcheck Hcreate). reflexivity.
Qed.

Lemma bind_returns {A B} (m : Act A) (k : A -> Act B) c a b :
  outcome (m c) = Done a -> (forall c', outcome (k a c') = Done b) ->
  outcome (bind m k c) = Done b.
Proof.
  intros Hm Hk. unfold bind. destruct (m c) as [[a' | e] c1 s1 q1]; cbn [outcome] in *.
  - injection Hm as ->. specialize (Hk c1). destruct (k a c1). exact Hk.
  - discriminate Hm.
Qed.

(** X6. From any state the controller can be in, none of the commands
    [start()], [stop()], [updateSettings] and [clearConsole] raises, so
    no endpoint in front of them answers 500.  The start endpoint
    answers 200 "Bot started successfully" also when the start was
    refused or the session could not be created, the stop endpoint
    answers 200 "Bot stopped successfully" even when nothing was
    running, and the clear endpoint answers 200.  The settings endpoint
    answers 400 exactly when the body fails the schema, otherwise 200
    with the settings it stored. *)
Theorem api_never_raises (w : World) (c : Controller) :
  reachable c ->
  outcome (start w c) = Done tt /\
  outcome (stop w c) = Done tt /\
  (forall new, outcome (updateSettings w new c) = Done tt) /\
  outcome (clearConsole w c) = Done tt /\
  outcome (postStart w c) = Done (json (Message "Bot started successfully")) /\
  outcome (postStop w c) = Done (json (Message "Bot stopped successfully")) /\
  outcome (postClear w c) = Done (json (Message "Console cleared successfully")) /\
  (forall raw,
      outcome (postSettings w raw c) =
        Done (match parse raw with
              | Some s => json (Settings s)
              | None => failed 400 InvalidSettings
              end)) /\
  (forall raw resp,
      outcome (postSettings w raw c) = Done resp ->
      (status resp = 400 <-> parse raw = None) /\
      (status resp = 200 <-> parse raw <> None)).
Proof.
  intro Hreach.
  assert (Hstart : outcome (start w c) = Done tt).
  { apply start_returns. intro Hoff.
    pose proof (reachable_invariant c Hreach) as Hinv.
    destruct (bot c) eqn:E; [| reflexivity].
    assert (Hon : running c = true) by (apply Hinv; rewrite E; discriminate).
    congruence. }
  split; [exact Hstart |]. split; [apply stop_returns |].
  split; [intro new; apply nt_done; apply nt_updateSettings |].
  split; [apply nt_done; apply nt_clearConsole |].
  assert (Hsettings : forall raw,
      outcome (postSettings w raw c) =
        Done (match parse raw with
              | Some s => json (Settings s)
              | None => failed 400 InvalidSettings
              end)).
  { intro raw. unfold postSettings. destruct (parse raw) as [s |]; [| reflexivity].
    assert (Hbody : forall c',
      outcome ((modify (fun c0 => with_storage (Storage.updateBotSettings s (storage c0)) c0) ;;
                c0 <- get ;;
                updateSettings w s ;;
                ret (json (Settings (Storage.getBotSettings (storage c0))))) c') =
        Done (json (Settings s))).
    { intro c'. step. step.
      apply (bind_returns _ _ _ tt); [apply nt_done; apply nt_updateSettings | reflexivity]. }
    erewrite try_returns; [apply Hbody | apply Hbody]. }
  split; [| split; [| split; [| split]]].
  - unfold postStart.
    erewrite try_returns; [apply (bind_returns _ _ _ tt); [exact Hstart | reflexivity] |].
    apply (bind_returns _ _ _ tt); [exact Hstart | reflexivity].
  - unfold postStop.
    assert (Hinner : outcome (try_catch (stop w) (fun _ => ret tt) c) = Done tt).
    { erewrite try_returns by apply stop_returns. apply stop_returns. }
    erewrite try_returns; [apply (bind_returns _ _ _ tt); [exact Hinner | reflexivity] |].
    apply (bind_returns _ _ _ tt); [exact Hinner | reflexivity].
  - unfold postClear.
    assert (Hclear : outcome (clearConsole w c) = Done tt)
      by (apply nt_done; apply nt_clearConsole).
    erewrite try_returns; [apply (bind_returns _ _ _ tt); [exact Hclear | reflexivity] |].
    apply (bind_returns _ _ _ tt); [exact Hclear | reflexivity].
  - exact Hsettings.
  - intros raw resp Hresp. rewrite Hsettings in Hresp. injection Hresp as <-.
    destruct (parse raw) as [s |]; cbn [status json failed];
      split; split; intro H; try reflexivity; try discriminate; try congruence.
Qed.

Lemma api_never_raises_witness :
  outcome (postStart Scenario.quiet (created Scenario.quiet)) =
    Done (json (Message "Bot started successfully")) /\
  running (final (postStart Scenario.quiet (created Scenario.quiet))) = false /\
  outcome (postSettings Scenario.quiet (mkRaw "" "Gadalar" 0 64 0) (created Scenario.quiet)) =
    Done (failed 400 InvalidSettings).
Proof.
  split; [| split; [vm_compute; reflexivity |]].
  - apply (api_never_raises Scenario.quiet (created Scenario.quiet)).
    apply reach_created.
  - apply (api_never_raises Scenario.quiet (created Scenario.quiet)).
    apply reach_created.
Defined.

End Api.

(** ** updateSettings, clearConsole and the settings endpoint *)

Module SettingsMore.
Import Schema Frame Exec Lifecycle Rest Routes.

Definition saved (new : BotSettings) (c : Controller) : Controller :=
  with_storage (Storage.updateBotSettings new (storage c)) (with_settings (Some new) c).

Definition homeNote (w : World) (new : BotSettings) : ConsoleMessage :=
  note w ("Home position updated to " +++ showXYZ (posX new) (posY new) (posZ new)) info.

Lemma updateSettings_live (w : World) (new : BotSettings) (c : Controller) (home : Coordinate) :
  running c = true -> homePosition c = Some home ->
  updateSettings w new c =
    ran (Done tt)
      (logged [homeNote w new]
         (with_homePosition (Some (mkCoord (posX new) (posY new) (posZ new)))
            (logged [note w "Bot settings updated" info] (saved new c))))
      []
      [SendConsole (note w "Bot settings updated" info); SendConsole (homeNote w new)].
Proof.
  intros Hrun Hhome. unfold updateSettings, saved. repeat step.
  rewrite Hrun, Hhome. fields. step. reflexivity.
Qed.

Lemma updateSettings_idle (w : World) (new : BotSettings) (c : Controller) :
  running c = false \/ homePosition c = None ->
  updateSettings w new c =
    ran (Done tt) (logged [note w "Bot settings updated" info] (saved new c))
        [] [SendConsole (note w "Bot settings updated" info)].
Proof.
  intro Hidle. unfold updateSettings, saved. repeat step.
  destruct Hidle as [H | H]; rewrite H; [| rewrite andb_false_r]; reflexivity.
Qed.

Lemma updateSettings_run (w : World) (new : BotSettings) (c : Controller) :
  exists c' qs,
    updateSettings w new c = ran (Done tt) c' [] qs /\
    Storage.getBotSettings (storage c') = new.
Proof.
  destruct (running c) eqn:Hrun.
  - destruct (homePosition c) as [home |] eqn:Hhome.
    + eexists. eexists. split; [apply (updateSettings_live w new c home Hrun Hhome) |].
      reflexivity.
    + eexists. eexists. split; [apply updateSettings_idle; right; exact Hhome |].
      reflexivity.
  - eexists. eexists. split; [apply updateSettings_idle; left; exact Hrun |].
    reflexivity.
Qed.

(** X7. [updateSettings] always stores the new settings (in the store and
    in the controller).  While the controller is running with a home set
    it also moves the home to the new coordinates at once, so the next
    snapshot of a spawned session marks the cell of the agent's offset
    from the new home (for a new home below [2^53] in size, where the
    sums [home + x] are exact); otherwise it leaves the home field as it
    is. *)
Theorem updateSettings_moves_live_home (w : World) (new : BotSettings) (c : Controller) :
  let r := updateSettings w new c in
  let newHome := mkCoord (posX new) (posY new) (posZ new) in
  outcome r = Done tt /\
  Storage.getBotSettings (storage (final r)) = new /\
  settings (final r) = Some new /\
  running (final r) = running c /\ bot (final r) = bot c /\
  (running c = true -> homePosition c <> None ->
   homePosition (final r) = Some newHome /\
   forall b e, bot c = Some b -> Mf.entity b = Some e ->
     (Z.abs (posX new) < 2 ^ 53)%Z -> (Z.abs (posZ new) < 2 ^ 53)%Z ->
     let dx := Js.floor (Mf.x (Mf.position e)) - posX new in
     let dz := Js.floor (Mf.z (Mf.position e)) - posZ new in
     exists st,
       getBotStatus (final r) = Done st /\
       area st = (if (Z.abs dx <=? 1)%Z && (Z.abs dz <=? 1)%Z
                  then Js.assign (Z.to_nat ((dz + 1) * 3 + (dx + 1))) true (repeat false 9)
                  else repeat false 9)) /\
  (running c = false \/ homePosition c = None ->
   homePosition (final r) = homePosition c).
Proof.
  cbv zeta.
  assert (Hcase : (running c = true /\ exists home, homePosition c = Some home) \/
                  (running c = false \/ homePosition c = None)).
  { destruct (running c); [| right; left; reflexivity].
    destruct (homePosition c) as [home |]; [left | right; right; reflexivity].
    split; [reflexivity | exists home; reflexivity]. }
  destruct Hcase as [[Hrun [home Hhome]] | Hidle].
  - rewrite (updateSettings_live w new c home Hrun Hhome). unfold logged, saved. fields.
    do 5 (split; [reflexivity |]). split.
    + intros _ _. split; [reflexivity |].
      intros b e Hbot Hent Hsx Hsz. unfold getBotStatus, defaultStatus. fields.
      rewrite Hbot, Hrun, Hent. fields.
      eexists. split; [reflexivity |]. cbn [area].
      apply (StatusFacts.markArea_offset _ _ (mkCoord (posX new) (posY new) (posZ new)));
        assumption.
    + intros [Hoff | Hno]; congruence.
  - rewrite (updateSettings_idle w new c Hidle). unfold logged, saved. fields.
    do 5 (split; [reflexivity |]). split.
    + intros Hrun Hsome. destruct Hidle; congruence.
    + intros _. reflexivity.
Qed.

Lemma updateSettings_moves_live_home_witness :
  homePosition
    (final (updateSettings Scenario.quiet
              (mkSettings "play.example.org" "Gadalar" 100 70 (-4)) Scenario.spawnedFar)) =
    Some (mkCoord 100 70 (-4)).
Proof.
  destruct (updateSettings_moves_live_home Scenario.quiet
              (mkSettings "play.example.org" "Gadalar" 100 70 (-4)) Scenario.spawnedFar)
    as (_ & _ & _ & _ & _ & Hlive & _).
  apply Hlive; [reflexivity | intro H; vm_compute in H; discriminate H].
Defined.

(** The home follows the settings while live, here from (0,64,0) to
    (100,70,-4), the block the agent stands on. *)
Example updateSettings_recenters :
  let new := mkSettings "play.example.org" "Gadalar" 100 70 (-4) in
  let c := final (updateSettings Scenario.quiet new Scenario.spawnedFar) in
  homePosition c = Some (mkCoord 100 70 (-4)) /\
  exists st, getBotStatus c = Done st /\
             area st = [false; false; false; false; true; false; false; false; false].
Proof. cbv zeta. vm_compute. split; [reflexivity |]. eexists. split; reflexivity. Qed.

(** [clearConsole] leaves exactly one entry in the log, the
    informational "Console cleared", tells the clients to clear before
    the frame of that entry goes out, and changes nothing else. *)
Lemma clearConsole_leaves_one_entry (w : World) (c : Controller) :
  clearConsole w c =
    ran (Done tt)
      (with_storage
         (Storage.mkStorage (Storage.botSettings (storage c))
                            [note w "Console cleared" info]) c)
      [SendConsoleClear] [SendConsole (note w "Console cleared" info)].
Proof. unfold clearConsole. repeat step. reflexivity. Qed.

(** *** The settings endpoint *)

Lemma isInteger_iff (q : Q) : isInteger q = true <-> exists n : Z, (q == inject_Z n)%Q.
Proof.
  unfold isInteger. rewrite Qeq_bool_iff. split.
  - intro H. exists (Qfloor q). exact H.
  - intros [n Hn]. rewrite Hn at 1. rewrite Hn, Qfloor_Z. reflexivity.
Qed.

Lemma nonempty_length (s : string) : Nat.leb 1 (String.length s) = true <-> s <> "".
Proof.
  destruct s; cbn; split; intro H; try reflexivity; try discriminate; congruence.
Qed.

(** X8. The settings endpoint stores a body only if it passes the
    schema: with an empty address or user name, or a coordinate that is
    not an integer, it answers 400 and neither the store nor the
    controller changes.  An accepted body is stored with a non-empty
    address and user name (the placeholder address is accepted), is
    answered back with status 200, and is what the settings endpoint
    returns afterwards. *)
Theorem settings_endpoint_validates (w : World) (raw : RawSettings) (c : Controller) :
  (parse raw = None <->
   rawAddress raw = "" \/ rawUsername raw = "" \/
   ~ (exists n : Z, (rawX raw == inject_Z n)%Q) \/
   ~ (exists n : Z, (rawY raw == inject_Z n)%Q) \/
   ~ (exists n : Z, (rawZ raw == inject_Z n)%Q)) /\
  (parse raw = None ->
   postSettings w raw c = mkRun (Done (failed 400 InvalidSettings)) c []) /\
  (forall s, parse raw = Some s ->
     serverAddress s = rawAddress raw /\ serverAddress s <> "" /\ botUsername s <> "" /\
     outcome (postSettings w raw c) = Done (json (Settings s)) /\
     Storage.getBotSettings (storage (final (postSettings w raw c))) = s /\
     outcome (getSettings (final (postSettings w raw c))) = Done (json (Settings s))) /\
  parse (mkRaw "mc.example.com" "MinecraftBot" 0 64 0) =
    Some (mkSettings "mc.example.com" "MinecraftBot" 0 64 0).
Proof.
  split; [| split; [| split; [| reflexivity]]].
  - unfold parse.
    destruct (Nat.leb 1 (String.length (rawAddress raw))) eqn:Ha;
    destruct (Nat.leb 1 (String.length (rawUsername raw))) eqn:Hu;
    destruct (isInteger (rawX raw)) eqn:Hx;
    destruct (isInteger (rawY raw)) eqn:Hy;
    destruct (isInteger (rawZ raw)) eqn:Hz; cbn [andb];
      try apply nonempty_length in Ha; try apply nonempty_length in Hu;
      try apply isInteger_iff in Hx; try apply isInteger_iff in Hy;
      try apply isInteger_iff in Hz;
      (split; [intro H; try discriminate H | intro H]).
    all: try (exfalso; tauto).
    all: try reflexivity.
    all: match goal with
         | Hf : Nat.leb 1 (String.length (rawAddress ?r)) = false |- _ =>
             left; destruct (rawAddress r); [reflexivity | discriminate Hf]
         | Hf : Nat.leb 1 (String.length (rawUsername ?r)) = false |- _ =>
             right; left; destruct (rawUsername r); [reflexivity | discriminate Hf]
         | Hf : isInteger (rawX _) = false |- _ =>
             right; right; left; intro Hn; apply isInteger_iff in Hn; congruence
         | Hf : isInteger (rawY _) = false |- _ =>
             right; right; right; left; intro Hn; apply isInteger_iff in Hn; congruence
         | Hf : isInteger (rawZ _) = false |- _ =>
             right; right; right; right; intro Hn; apply isInteger_iff in Hn; congruence
         end.
  - intro Hnone. unfold postSettings. rewrite Hnone. reflexivity.
  - intros s Hs.
    assert (Hshape : serverAddress s = rawAddress raw /\ serverAddress s <> "" /\
                     botUsername s <> "").
    { unfold parse in Hs.
      destruct (Nat.leb 1 (String.length (rawAddress raw))) eqn:Ha; [| discriminate Hs].
      destruct (Nat.leb 1 (String.length (rawUsername raw))) eqn:Hu; [| discriminate Hs].
      cbn [andb] in Hs.
      destruct (isInteger (rawX raw) && isInteger (rawY raw) && isInteger (rawZ raw));
        [| discriminate Hs].
      injection Hs as <-. cbn [serverAddress botUsername].
      apply nonempty_length in Ha, Hu. repeat split; assumption. }
    destruct Hshape as (Haddr & Hne & Hue).
    split; [exact Haddr |]. split; [exact Hne |]. split; [exact Hue |].
    destruct (updateSettings_run w s
                (with_storage (Storage.updateBotSettings s (storage c)) c))
      as (c2 & qs2 & Eu & Hst).
    assert (Hpost : postSettings w raw c = ran (Done (json (Settings s))) c2 [] qs2).
    { unfold postSettings. rewrite Hs. apply try_done. step. step.
      erewrite bind_ran by exact Eu. unfold ret, after, later, mkRun.
      cbn [outcome final sent queued app]. rewrite app_nil_r. reflexivity. }
    rewrite Hpost. fields. split; [reflexivity |]. split; [exact Hst |].
    unfold getSettings. erewrite try_done by (step; reflexivity). fields.
    rewrite Hst. reflexivity.
Qed.

Lemma settings_endpoint_validates_witness :
  postSettings Scenario.quiet (mkRaw "" "Gadalar" 0 64 0) Scenario.configured =
    mkRun (Done (failed 400 InvalidSettings)) Scenario.configured [].
Proof.
  apply (settings_endpoint_validates Scenario.quiet (mkRaw "" "Gadalar" 0 64 0)
           Scenario.configured).
  reflexivity.
Defined.

End SettingsMore.

(** ** What a disconnect leaves behind *)

Module Leftovers.
Import Schema Frame Exec Lifecycle Rest StartMore.

Lemma onKicked_run (w : World) (reason : string) (c : Controller) :
  onKicked w reason c =
    ran (Done tt)
      (with_bot None
         (with_running false (logged [note w ("Bot was kicked: " +++ reason) error] c)))
      [SendStatus StatusFacts.idleSnapshot]
      [SendConsole (note w ("Bot was kicked: " +++ reason) error)].
Proof. unfold onKicked. step. rewrite disconnected_run. reflexivity. Qed.

Lemma broadcast_raises (c : Controller) (e : Js.Error) :
  getBotStatus c = Thrown e -> broadcastStatus c = mkRun (Thrown e) c [].
Proof. intro H. unfold broadcastStatus. rewrite H. reflexivity. Qed.

(** X9. A kick clears the session but, unlike [stop()], not the home.
    After a kick in a state with a home set, a [start()] that goes
    through leads to a running controller whose new session has no
    entity yet while the old home is still set: until that session
    spawns, [getBotStatus] raises, and so does every listener that
    publishes the status (participant joined, time, move) and a new
    client joining.  After [stop()] instead, the same [start()] leads to
    a state whose snapshot is returned. *)
Theorem kick_keeps_home (w1 w2 w3 : World) (c : Controller) (home : Coordinate)
    (b : Mf.Bot) (reason player : string) :
  homePosition c = Some home ->
  validAddress (Storage.getBotSettings (storage c)) ->
  createBot w2 = inr b -> Mf.entity b = None ->
  let kicked := final (onKicked w1 reason c) in
  let again := final (start w2 kicked) in
  let raised := Thrown (cannotRead "undefined" "position") in
  homePosition kicked = Some home /\
  running again = true /\ bot again = Some b /\ homePosition again = Some home /\
  getBotStatus again = Thrown (cannotRead "undefined" "position") /\
  outcome (onPlayerJoined w3 player again) = raised /\
  outcome (onTime w3 again) = raised /\
  outcome (onMove again) = raised /\
  outcome (addClient again) = raised /\
  (running c = true ->
   exists st, getBotStatus (final (start w2 (final (stop w1 c)))) = Done st).
Proof.
  intros Hhome Hvalid Hcreate Hent. cbv zeta.
  rewrite onKicked_run. fields.
  set (c1 := with_bot None
               (with_running false (logged [note w1 ("Bot was kicked: " +++ reason) error] c))).
  assert (Hstart := start_connects w2 c1 b eq_refl eq_refl
                      (validAddress_check _ Hvalid) Hcreate).
  cbv zeta in Hstart. rewrite Hstart. fields.
  set (c2 := with_timers _ _ _).
  assert (Hraise : getBotStatus c2 = Thrown (cannotRead "undefined" "position")).
  { unfold getBotStatus, c2, c1, logged. fields. rewrite Hhome, Hent. reflexivity. }
  split; [unfold logged; fields; exact Hhome |].
  split; [reflexivity |]. split; [reflexivity |].
  split; [unfold c2, c1, logged; fields; exact Hhome |].
  split; [exact Hraise |].
  split.
  { unfold onPlayerJoined. step.
    erewrite bind_raise by (apply broadcast_raises; rewrite status_with_storage;
                            exact Hraise).
    reflexivity. }
  split.
  { unfold onTime.
    erewrite bind_raise by (apply broadcast_raises; exact Hraise). reflexivity. }
  split; [unfold onMove; rewrite (broadcast_raises _ _ Hraise); reflexivity |].
  split; [unfold addClient; rewrite (broadcast_raises _ _ Hraise); reflexivity |].
  intro Hrun. rewrite (stop_when_running w1 c Hrun). fields.
  set (s1 := mkController None (settings c) false None None (stopLog w1 c) _ _).
  assert (Hvalid' : validAddress (Storage.getBotSettings (storage s1))).
  { unfold s1, stopLog. fields. destruct (bot c), (quit w1); exact Hvalid. }
  assert (Hstart' := start_connects w2 s1 b eq_refl eq_refl
                       (validAddress_check _ Hvalid') Hcreate).
  cbv zeta in Hstart'. rewrite Hstart'. fields.
  unfold getBotStatus, defaultStatus, logged, s1. fields. rewrite Hent.
  eexists. reflexivity.
Qed.

Lemma kick_keeps_home_witness :
  let kicked := final (onKicked Scenario.quiet "Flying is not enabled" Scenario.spawnedFar) in
  let again := final (start Scenario.quiet kicked) in
  getBotStatus again = Thrown (cannotRead "undefined" "position") /\
  outcome (onPlayerJoined Scenario.quiet "alice" again) =
    Thrown (cannotRead "undefined" "position").
Proof.
  assert (Hvalid : validAddress (Storage.getBotSettings (storage Scenario.spawnedFar)))
    by (split; intro H; vm_compute in H; discriminate H).
  destruct (kick_keeps_home Scenario.quiet Scenario.quiet Scenario.quiet
              Scenario.spawnedFar (mkCoord 0 64 0) Scenario.joining
              "Flying is not enabled" "alice" eq_refl Hvalid eq_refl eq_refl)
    as (_ & _ & _ & _ & Hst & Hjoin & _).
  split; [exact Hst | exact Hjoin].
Defined.

Lemma find_filter_other (h h' : nat) (l : list Timer) :
  h' <> h ->
  find (fun t => Nat.eqb (handle t) h)
       (filter (fun t => negb (Nat.eqb (handle t) h')) l) =
  find (fun t => Nat.eqb (handle t) h) l.
Proof.
  intro Hne. induction l as [| t l IH]; [reflexivity |]. cbn [filter find].
  destruct (Nat.eqb_spec (handle t) h') as [E' | N']; cbn [negb].
  - destruct (Nat.eqb_spec (handle t) h) as [E | N]; [congruence | exact IH].
  - cbn [find]. destruct (Nat.eqb (handle t) h); [reflexivity | exact IH].
Qed.

Lemma find_app_found {A} (p : A -> bool) (l l' : list A) (a : A) :
  find p l = Some a -> find p (l ++ l') = Some a.
Proof.
  induction l as [| x l IH]; cbn [find app]; [discriminate |].
  destruct (p x); [intro H; exact H | exact IH].
Qed.

(** X10. [stop()] disarms the pending wander timer only: a connection
    timeout armed by an earlier [start()] stays armed.  If the
    controller is started again and that old timeout fires before the
    new session has an entity, the new attempt is declared failed:
    "CONNECTION FAILED" is logged for the current address, [running]
    becomes false and the new session is dropped. *)
Theorem stale_connection_timeout (w1 w2 w3 : World) (c : Controller) (h : nat) (d : Q)
    (b : Mf.Bot) :
  running c = true ->
  find (fun t => Nat.eqb (handle t) h) (timers c) = Some (mkTimer h d false connectionTimeout) ->
  timeoutId c <> Some h ->
  validAddress (Storage.getBotSettings (storage c)) ->
  createBot w2 = inr b -> Mf.entity b = None ->
  let stopped := final (stop w1 c) in
  let again := final (start w2 stopped) in
  let r := fireTimer w3 h again in
  find (fun t => Nat.eqb (handle t) h) (timers stopped) =
    Some (mkTimer h d false connectionTimeout) /\
  running again = true /\ bot again = Some b /\
  outcome r = Done tt /\ running (final r) = false /\ bot (final r) = None /\
  In (SendConsole
        (note w3 ("CONNECTION FAILED: Could not connect to "
                    +++ serverAddress (Storage.getBotSettings (storage c))) error))
     (effects r).
Proof.
  intros Hrun Hfind Hother Hvalid Hcreate Hent. cbv zeta.
  rewrite (stop_when_running w1 c Hrun). fields.
  set (s1 := mkController None (settings c) false None None (stopLog w1 c) _ _).
  assert (Hset : Storage.getBotSettings (storage s1) = Storage.getBotSettings (storage c)).
  { unfold s1, stopLog. fields. destruct (bot c), (quit w1); reflexivity. }
  assert (Hfind1 : find (fun t => Nat.eqb (handle t) h) (timers s1) =
                   Some (mkTimer h d false connectionTimeout)).
  { unfold s1. fields. destruct (timeoutId c) as [h' |]; [| exact Hfind].
    rewrite find_filter_other; [exact Hfind | congruence]. }
  assert (Hvalid1 : validAddress (Storage.getBotSettings (storage s1)))
    by (rewrite Hset; exact Hvalid).
  assert (Hstart := start_connects w2 s1 b eq_refl eq_refl
                      (validAddress_check _ Hvalid1) Hcreate).
  cbv zeta in Hstart. rewrite Hstart. fields.
  split; [exact Hfind1 |]. split; [reflexivity |]. split; [reflexivity |].
  unfold fireTimer. step. unfold logged. fields.
  rewrite (find_app_found _ _ _ _ Hfind1). fields.
  cbn [repeats callback negb when]. step. cbn [runCallback]. step. rewrite Hent. fields.
  rewrite Hset. destruct Hvalid as [Hne _].
  apply String.eqb_neq in Hne. rewrite Hne.
  step. step. rewrite disconnected_run. fields.
  repeat split. right. left. reflexivity.
Qed.

(** Start, stop and start again within ten seconds: the first timeout
    (handle 0) ends the second attempt. *)
Lemma stale_connection_timeout_witness :
  let stopped := final (stop Scenario.quiet Scenario.connecting) in
  let again := final (start Scenario.quiet stopped) in
  running again = true /\
  running (final (fireTimer Scenario.quiet 0 again)) = false /\
  bot (final (fireTimer Scenario.quiet 0 again)) = None.
Proof.
  assert (Hvalid : validAddress (Storage.getBotSettings (storage Scenario.connecting)))
    by (split; intro H; vm_compute in H; discriminate H).
  assert (Hother : timeoutId Scenario.connecting <> Some 0%nat) by (intro H; vm_compute in H; discriminate H).
  destruct (stale_connection_timeout Scenario.quiet Scenario.quiet Scenario.quiet
              Scenario.connecting 0 10000 Scenario.joining
              eq_refl eq_refl Hother Hvalid eq_refl eq_refl)
    as (_ & Hrun & _ & _ & Hoff & Hbot & _).
  repeat split; assumption.
Defined.

End Leftovers.

(** ** Keeping to the 3x3 area (enforceAreaBoundaries, moveDirectly) *)

Module AreaMore.
Import Schema Frame Exec Lifecycle Rest Wander.

Definition escaped (w : World) : ConsoleMessage :=
  note w "Bot escaped 3x3 area! Returning to home position" warning.

Lemma count_marked (i : nat) :
  (i < 9)%nat -> count_occ bool_dec (Js.assign i true (repeat false 9)) true = 1%nat.
Proof.
  intro Hi. do 9 (destruct i as [| i]; [reflexivity |]). lia.
Qed.

(** The check compares rounded differences with 1; for integers that is
    the comparison of the exact distance, whatever their size. *)
Lemma far_from_home (bx bz hx hz : Z) :
  (1 <? Z.max (Z.abs (Js.minus bx hx)) (Z.abs (Js.minus bz hz)))%Z =
  (1 <? Z.max (Z.abs (bx - hx)) (Z.abs (bz - hz)))%Z.
Proof.
  pose proof (Number.minus_far bx hx) as Hx. pose proof (Number.minus_far bz hz) as Hz.
  destruct (Z.ltb_spec 1 (Z.max (Z.abs (Js.minus bx hx)) (Z.abs (Js.minus bz hz))));
    destruct (Z.ltb_spec 1 (Z.max (Z.abs (bx - hx)) (Z.abs (bz - hz))));
    try reflexivity; exfalso; lia.
Qed.

(** X11. The boundary check of a running, spawned session with a home
    acts exactly when the agent's floored position is more than one
    block from home on the x or z axis: it then logs the escape, drops
    the current goal and sets the goal block at home (the frame of the
    log entry follows the two calls); otherwise it does nothing at all.
    For a home below [2^53] in size it acts exactly when the status
    snapshot shows no cell of the area mask. *)
Theorem boundary_check_corrects_outside
    (w : World) (c : Controller) (b : Mf.Bot) (e : Mf.Entity) (home : Coordinate) :
  running c = true -> bot c = Some b -> Mf.entity b = Some e ->
  homePosition c = Some home ->
  let distance := Z.max (Z.abs (Js.floor (Mf.x (Mf.position e)) - x home))
                        (Z.abs (Js.floor (Mf.z (Mf.position e)) - z home)) in
  (1 < distance ->
   enforceAreaBoundaries w c =
     ran (Done tt) (logged [escaped w] c)
         [SetGoal None; SetGoal (Some (Mf.GoalBlock (x home) (y home) (z home)))]
         [SendConsole (escaped w)]) /\
  (distance <= 1 -> enforceAreaBoundaries w c = mkRun (Done tt) c []) /\
  (Z.abs (x home) < 2 ^ 53 -> Z.abs (z home) < 2 ^ 53 ->
   exists st, getBotStatus c = Done st /\
              (count_occ bool_dec (area st) true = 0%nat <-> 1 < distance) /\
              (count_occ bool_dec (area st) true = 1%nat <-> distance <= 1)).
Proof.
  intros Hrun Hbot Hent Hhome. cbv zeta.
  set (dx := Js.floor (Mf.x (Mf.position e)) - x home).
  set (dz := Js.floor (Mf.z (Mf.position e)) - z home).
  split; [| split].
  - intro Hfar. unfold enforceAreaBoundaries. step. rewrite Hbot, Hhome, Hrun, Hent.
    rewrite far_from_home. fold dx dz.
    destruct (Z.ltb_spec 1 (Z.max (Z.abs dx) (Z.abs dz))); [| lia].
    repeat step. reflexivity.
  - intro Hnear. unfold enforceAreaBoundaries. step. rewrite Hbot, Hhome, Hrun, Hent.
    rewrite far_from_home. fold dx dz.
    destruct (Z.ltb_spec 1 (Z.max (Z.abs dx) (Z.abs dz))); [lia |].
    reflexivity.
  - intros Hsx Hsz. unfold getBotStatus, defaultStatus. rewrite Hbot, Hrun, Hhome, Hent.
    eexists. split; [reflexivity |]. cbn [area].
    rewrite StatusFacts.markArea_offset by assumption. cbv zeta. fold dx dz.
    destruct (Z.leb_spec (Z.abs dx) 1) as [Hx | Hx];
      destruct (Z.leb_spec (Z.abs dz) 1) as [Hz | Hz]; cbn [andb].
    + rewrite count_marked by lia. split; split; intro H; try discriminate H; lia.
    + cbn. split; split; intro H; try discriminate H; try reflexivity; lia.
    + cbn. split; split; intro H; try discriminate H; try reflexivity; lia.
    + cbn. split; split; intro H; try discriminate H; try reflexivity; lia.
Qed.

Lemma boundary_check_corrects_outside_witness :
  enforceAreaBoundaries Scenario.quiet Scenario.spawnedFar =
    ran (Done tt) (logged [escaped Scenario.quiet] Scenario.spawnedFar)
        [SetGoal None; SetGoal (Some (Mf.GoalBlock 0 64 0))]
        [SendConsole (escaped Scenario.quiet)].
Proof.
  apply (boundary_check_corrects_outside Scenario.quiet Scenario.spawnedFar
           Scenario.farAway (Mf.mkEntity (Mf.vec3 (201 # 2) 70 (-7 # 2))) (mkCoord 0 64 0)
           eq_refl eq_refl eq_refl eq_refl).
  vm_compute. reflexivity.
Defined.

(** Beyond the safe integers the two disagree: two blocks from a home at
    [2^53 + 2] the check acts although the mask shows the agent. *)
Example boundary_check_beyond_safe_integers :
  let home := mkCoord (2 ^ 53 + 2) 64 0 in
  markArea (2 ^ 53 + 4) 0 home (repeat false 9) =
    [false; false; false; false; false; true; false; false; false] /\
  (1 <? Z.max (Z.abs (Js.minus (2 ^ 53 + 4) (x home))) (Z.abs (Js.minus 0 (z home))))%Z = true.
Proof. vm_compute. split; reflexivity. Qed.

Definition moving (w : World) (tx ty tz : Z) : ConsoleMessage :=
  note w ("Moving directly to " +++ showXYZ tx ty tz) info.

Definition forward (target : Mf.Vec3) : list Effect :=
  [SetControlState "forward" true; LookAt target].

(** The heading of a direct move from the position [p] toward the
    target column ([tx], [tz]). *)
Definition headingOf (p : Mf.Vec3) (tx tz : Z) : list Effect :=
  let dx := Js.minus tx (Js.floor (Mf.x p)) in
  let dz := Js.minus tz (Js.floor (Mf.z p)) in
  if (0 <? dx)%Z then forward (Mf.vec3 (Js.add (Mf.x p) 1) (Mf.y p) (Mf.z p))
  else if (dx <? 0)%Z then forward (Mf.vec3 (Js.sub (Mf.x p) 1) (Mf.y p) (Mf.z p))
  else if (0 <? dz)%Z then forward (Mf.vec3 (Mf.x p) (Mf.y p) (Js.add (Mf.z p) 1))
  else if (dz <? 0)%Z then forward (Mf.vec3 (Mf.x p) (Mf.y p) (Js.sub (Mf.z p) 1))
  else [].

(** The run of [moveDirectly] with a spawned session. *)
Lemma moveDirectly_spawned (w : World) (c : Controller) (b : Mf.Bot) (e : Mf.Entity)
    (tx ty tz : Z) :
  running c = true -> bot c = Some b -> Mf.entity b = Some e ->
  moveDirectly w tx ty tz c =
    ran (Done tt)
      (logged [moving w tx ty tz]
         (with_timers (timers c ++ [mkTimer (nextHandle c) 1000 false releaseForward])
                      (S (nextHandle c)) c))
      (SetGoal None :: headingOf (Mf.position e) tx tz)
      [SendConsole (moving w tx ty tz)].
Proof.
  intros Hrun Hbot Hent. unfold moveDirectly, setTimeout, headingOf. step.
  rewrite Hbot, Hrun. apply try_done. step. rewrite Hent. cbv zeta.
  destruct (0 <? Js.minus tx (Js.floor (Mf.x (Mf.position e))))%Z;
    [| destruct (Js.minus tx (Js.floor (Mf.x (Mf.position e))) <? 0)%Z;
       [| destruct (0 <? Js.minus tz (Js.floor (Mf.z (Mf.position e))))%Z;
          [| destruct (Js.minus tz (Js.floor (Mf.z (Mf.position e))) <? 0)%Z]]];
    repeat step; unfold addConsoleMessage, after, later; same_run; reflexivity.
Qed.

Lemma moveDirectly_unspawned (w : World) (c : Controller) (b : Mf.Bot) (tx ty tz : Z) :
  running c = true -> bot c = Some b -> Mf.entity b = None ->
  let failure :=
    note w ("Error during direct movement: "
              +++ Js.toString (cannotRead "undefined" "position")) error in
  moveDirectly w tx ty tz c =
    ran (Done tt) (logged [failure] c)
        [SetGoal None; ClearControlStates] [SendConsole failure].
Proof.
  intros Hrun Hbot Hent. cbv zeta. unfold moveDirectly. step.
  rewrite Hbot, Hrun.
  erewrite try_raise by (step; rewrite Hent; reflexivity).
  fields. step. step. unfold throw. fields. rewrite Hbot. reflexivity.
Qed.

(** X12. A direct move of a running, spawned session first drops the
    pathfinder goal, then heads along one axis only: along x whenever
    the target differs from the floored position in x (whatever z is),
    along z only when x already matches, and nowhere when both match.
    The point it looks at is one block along that axis, rounded as the
    sum is.  The y coordinate is never used.  It always arms the 1 s
    timer that releases the forward control and logs the move; the
    frame of that entry follows the calls.  Without an entity it drops
    the goal, logs the [TypeError], clears the control states and
    returns. *)
Theorem direct_move_prefers_x
    (w : World) (c : Controller) (b : Mf.Bot) (tx ty tz : Z) :
  running c = true -> bot c = Some b ->
  match Mf.entity b with
  | Some e =>
      let p := Mf.position e in
      let dx := tx - Js.floor (Mf.x p) in
      let dz := tz - Js.floor (Mf.z p) in
      exists heading,
        moveDirectly w tx ty tz c =
          ran (Done tt)
            (logged [moving w tx ty tz]
               (with_timers
                  (timers c ++ [mkTimer (nextHandle c) 1000 false releaseForward])
                  (S (nextHandle c)) c))
            (SetGoal None :: heading)
            [SendConsole (moving w tx ty tz)] /\
        (0 < dx -> heading = forward (Mf.vec3 (Js.add (Mf.x p) 1) (Mf.y p) (Mf.z p))) /\
        (dx < 0 -> heading = forward (Mf.vec3 (Js.sub (Mf.x p) 1) (Mf.y p) (Mf.z p))) /\
        (dx = 0 -> 0 < dz ->
         heading = forward (Mf.vec3 (Mf.x p) (Mf.y p) (Js.add (Mf.z p) 1))) /\
        (dx = 0 -> dz < 0 ->
         heading = forward (Mf.vec3 (Mf.x p) (Mf.y p) (Js.sub (Mf.z p) 1))) /\
        (dx = 0 -> dz = 0 -> heading = [])
  | None =>
      outcome (moveDirectly w tx ty tz c) = Done tt /\
      effects (moveDirectly w tx ty tz c) =
        [SetGoal None;
         ClearControlStates;
         SendConsole
           (note w ("Error during direct movement: "
                      +++ Js.toString (cannotRead "undefined" "position")) error)] /\
      timers (final (moveDirectly w tx ty tz c)) = timers c
  end.
Proof.
  intros Hrun Hbot. destruct (Mf.entity b) as [e |] eqn:Hent.
  - cbv zeta. exists (headingOf (Mf.position e) tx tz).
    split; [apply (moveDirectly_spawned w c b e); assumption |].
    unfold headingOf. cbv zeta.
    pose proof (Number.minus_pos tx (Js.floor (Mf.x (Mf.position e)))) as Px.
    pose proof (Number.minus_neg tx (Js.floor (Mf.x (Mf.position e)))) as Nx.
    pose proof (Number.minus_pos tz (Js.floor (Mf.z (Mf.position e)))) as Pz.
    pose proof (Number.minus_neg tz (Js.floor (Mf.z (Mf.position e)))) as Nz.
    destruct (Z.ltb_spec 0 (Js.minus tx (Js.floor (Mf.x (Mf.position e))))),
             (Z.ltb_spec (Js.minus tx (Js.floor (Mf.x (Mf.position e)))) 0),
             (Z.ltb_spec 0 (Js.minus tz (Js.floor (Mf.z (Mf.position e))))),
             (Z.ltb_spec (Js.minus tz (Js.floor (Mf.z (Mf.position e)))) 0);
      repeat split; intros; try reflexivity; exfalso; lia.
  - rewrite (moveDirectly_unspawned w c b tx ty tz Hrun Hbot Hent).
    repeat split.
Qed.

Lemma direct_move_prefers_x_witness :
  exists heading,
    effects (moveDirectly Scenario.quiet 0 64 1 Scenario.spawnedFar) =
      SetGoal None :: heading ++ [SendConsole (moving Scenario.quiet 0 64 1)] /\
    heading = forward (Mf.vec3 (Js.sub (201 # 2) 1) 70 (-7 # 2)).
Proof.
  pose proof (direct_move_prefers_x Scenario.quiet Scenario.spawnedFar Scenario.farAway
                0 64 1 eq_refl eq_refl) as H.
  cbn [Mf.entity Scenario.farAway] in H. cbv zeta in H.
  destruct H as (heading & Hrun & _ & Hneg & _).
  exists heading. split; [rewrite Hrun; reflexivity |].
  apply Hneg. vm_compute. reflexivity.
Defined.

End AreaMore.

(** ** Which timers a wander step arms *)

Module WanderMore.
Import Schema Frame Exec Lifecycle Rest Wander AreaMore.

Lemma in_disarm (h : nat) (c : Controller) (t : Timer) :
  In t (timers (disarm h c)) -> In t (timers c).
Proof. unfold disarm. fields. intro H. apply filter_In in H. apply H. Qed.

Lemma rearm_timers (boundary : nat) (ms : Q) (c : Controller) (t : Timer) :
  In t (timers (final (rearm boundary ms c))) ->
  In t (timers c) \/ t = mkTimer (nextHandle c) ms false (wanderStepLater boundary).
Proof.
  pose proof (rearm_run boundary ms c) as H. cbv zeta in H. rewrite H. fields.
  intro Hin. apply in_app_or in Hin. destruct Hin as [Hin | [Hin | []]].
  - left. destruct (timeoutId c); [apply in_disarm in Hin |]; exact Hin.
  - right. symmetry. exact Hin.
Qed.

(** The timers of a wander step that is allowed to run: either the
    rest check answers false and the step moves and re-arms itself, or
    it answers true and no timer changes. *)
Lemma wander_timers (w : World) (boundary : nat) (c : Controller)
    (b : Mf.Bot) (home : Coordinate) :
  bot c = Some b -> homePosition c = Some home -> running c = true ->
  (outcome (shouldSleep w c) = Done false /\
   forall t, In t (timers (final (wanderStep w boundary c))) ->
     In t (timers c) \/
     (callback t = releaseForward /\ delay t = 1000%Q /\ repeats t = false) \/
     (callback t = wanderStepLater boundary /\ repeats t = false /\
      delay t = randomWait (random3 w))) \/
  (outcome (shouldSleep w c) = Done true /\
   forall t, In t (timers (final (wanderStep w boundary c))) -> In t (timers c)).
Proof.
  intros Hbot Hhome Hrun.
  destruct (shouldSleep_result w c) as [Eno | Eyes].
  - left. split; [rewrite Eno; reflexivity |].
    set (tx := Js.plus (x home) (randomOffset (random1 w))).
    set (tz := Js.plus (z home) (randomOffset (random2 w))).
    set (c1 := with_storage
                 (Storage.addConsoleMessage
                    (note w ("Wandering to position " +++ showXYZ tx (y home) tz) info)
                    (storage c)) c).
    assert (Hmove : exists c2 es qs,
               moveDirectly w tx (y home) tz c1 = ran (Done tt) c2 es qs /\
               timeoutId c2 = timeoutId c /\
               forall t', In t' (timers c2) ->
                 In t' (timers c) \/
                 (callback t' = releaseForward /\ delay t' = 1000%Q /\
                  repeats t' = false)).
    { destruct (Mf.entity b) as [e |] eqn:Hent.
      - pose proof (moveDirectly_spawned w c1 b e tx (y home) tz Hrun Hbot Hent) as Hm.
        eexists. eexists. eexists. split; [exact Hm |].
        unfold logged. fields. split; [reflexivity |].
        intros t' Hin. apply in_app_or in Hin. destruct Hin as [Hin | [Hin | []]].
        + left. exact Hin.
        + right. subst t'. repeat split.
      - pose proof (moveDirectly_unspawned w c1 b tx (y home) tz Hrun Hbot Hent) as Hm.
        cbv zeta in Hm. eexists. eexists. eexists. split; [exact Hm |].
        unfold logged. fields. split; [reflexivity |].
        intros t' Hin. left. exact Hin. }
    destruct Hmove as (c2 & es & qs & Hm & Hid & Htimers).
    assert (Hr : final (wanderStep w boundary c) =
                 final (rearm boundary (randomWait (random3 w)) c2)).
    { unfold wanderStep. step. rewrite Hbot, Hhome, Hrun.
      erewrite bind_run by exact Eno. fields. cbv zeta. try rewrite after_nil.
      fold tx tz.
      erewrite try_returns with (a := tt).
      - step. fold c1. erewrite bind_ran by exact Hm.
        unfold after, later. reflexivity.
      - apply nt_done. apply nt_bind; [apply nt_addConsoleMessage | intro].
        apply nt_bind; [apply nt_moveDirectly | intro; apply nt_rearm]. }
    rewrite Hr. intros t Hin. apply rearm_timers in Hin. destruct Hin as [Hin | ->].
    + destruct (Htimers t Hin) as [Hold | Hrel]; [left | right; left]; assumption.
    + right. right. repeat split.
  - right. split; [rewrite Eyes; reflexivity |].
    assert (Hr : final (wanderStep w boundary c) =
                 logged (note w "Night time detected with players online - should sleep"
                              info :: bedNotes w) c).
    { unfold wanderStep. step. rewrite Hbot, Hhome, Hrun.
      erewrite bind_ran by exact Eyes. fields.
      erewrite findAndSleepInBed_run by (unfold logged; fields; exact Hbot).
      unfold after, later. fields. apply controller_ext; reflexivity. }
    rewrite Hr. unfold logged. fields. intros t Hin. exact Hin.
Qed.

(** X13. Whatever the state, the timers left by a wander step are timers
    that were armed before, the 1 s release timer of its direct move, or
    one one-shot timer for the next wander step, whose delay is the
    random wait [5000 + 3000 r] as a Number or the fixed 3000 ms of the
    step's error handler.  For a draw in [0,1) the random wait lies
    between 5000 and 8000, both included.  When the step is not allowed
    to run (no session, no home or not running) or rest is due, it arms
    nothing. *)
Theorem wander_step_arms_only_random_wait
    (w : World) (boundary : nat) (c : Controller) (t : Timer) :
  (In t (timers (final (wanderStep w boundary c))) ->
   In t (timers c) \/
   (callback t = releaseForward /\ delay t = 1000%Q /\ repeats t = false) \/
   (callback t = wanderStepLater boundary /\ repeats t = false /\
    (delay t = randomWait (random3 w) \/ delay t = 3000%Q))) /\
  ((0 <= random3 w)%Q -> (random3 w < 1)%Q ->
   (5000 <= randomWait (random3 w))%Q /\ (randomWait (random3 w) <= 8000)%Q) /\
  ((bot c = None \/ homePosition c = None \/ running c = false \/
    outcome (shouldSleep w c) = Done true) ->
   In t (timers (final (wanderStep w boundary c))) -> In t (timers c)).
Proof.
  split; [| split;
            [intros Hlo Hhi; destruct (randomWait_cases (random3 w) Hlo Hhi) as (H1 & H2 & _);
             split; assumption |]].
  all: assert (Hcases :
    (bot c = None \/ homePosition c = None \/ running c = false) \/
    (exists b home, bot c = Some b /\ homePosition c = Some home /\ running c = true))
    by (destruct (bot c) as [b |]; [| left; left; reflexivity];
        destruct (homePosition c) as [home |]; [| left; right; left; reflexivity];
        destruct (running c); [right | left; right; right; reflexivity];
        exists b, home; repeat split).
  all: destruct Hcases as [Hoff | (b & home & Hbot & Hhome & Hrun)].
  1, 3: assert (Hr : wanderStep w boundary c = mkRun (Done tt) (disarm boundary c) [])
    by (unfold wanderStep, clearInterval; step;
        destruct Hoff as [H | [H | H]]; rewrite H;
        [ reflexivity
        | destruct (bot c); reflexivity
        | destruct (bot c); [destruct (homePosition c) |]; reflexivity ]).
  1, 2: rewrite Hr; fields.
  - intro Hin. left. exact (in_disarm _ _ _ Hin).
  - intros _ Hin. exact (in_disarm _ _ _ Hin).
  - destruct (wander_timers w boundary c b home Hbot Hhome Hrun) as [(_ & Hstep) | (_ & Hrest)].
    + intro Hin. destruct (Hstep t Hin) as [H | [H | H]]; [left | right; left | right; right];
        try assumption.
      destruct H as (H1 & H2 & H3). repeat split; try assumption. left. exact H3.
    + intro Hin. left. exact (Hrest t Hin).
  - destruct (wander_timers w boundary c b home Hbot Hhome Hrun) as [(Eno & _) | (_ & Hrest)].
    + intros [H | [H | [H | H]]]; try congruence.
    + intros _ Hin. exact (Hrest t Hin).
Qed.

Lemma wander_step_arms_only_random_wait_witness :
  let t := mkTimer 8 (randomWait (1 # 3)) false (wanderStepLater 2) in
  In t (timers Scenario.spawnedFar) \/
  (callback t = releaseForward /\ delay t = 1000%Q /\ repeats t = false) \/
  (callback t = wanderStepLater 2 /\ repeats t = false /\
   (delay t = randomWait (random3 Scenario.quiet) \/ delay t = 3000%Q)).
Proof.
  cbv zeta.
  apply (proj1 (wander_step_arms_only_random_wait
                  Scenario.quiet 2 Scenario.spawnedFar
                  (mkTimer 8 (randomWait (1 # 3)) false (wanderStepLater 2)))).
  vm_compute. do 6 right. left. reflexivity.
Defined.

End WanderMore.


(** ** Timers and errors around a disconnect *)

Module DisconnectMore.
Import Schema Frame Exec Lifecycle Rest Wander WanderMore.

Lemma in_disarm2 (h h' : nat) (c : Controller) (t : Timer) :
  In t (timers (disarm h (disarm h' c))) -> In t (timers c).
Proof. intro H. apply in_disarm in H. apply in_disarm in H. exact H. Qed.

(** [c'] differs from [c] at most by timers that are no longer armed. *)
Definition quieter (c c' : Controller) : Prop :=
  storage c' = storage c /\ settings c' = settings c /\
  homePosition c' = homePosition c /\ running c' = running c /\ bot c' = bot c /\
  nextHandle c' = nextHandle c /\
  forall t, In t (timers c') -> In t (timers c).

Lemma quieter_refl (c : Controller) : quieter c c.
Proof. repeat split. intros t H. exact H. Qed.

Lemma quieter_disarm (h : nat) (c : Controller) : quieter c (disarm h c).
Proof. repeat split. apply in_disarm. Qed.

Lemma quieter_trans (c1 c2 c3 : Controller) :
  quieter c1 c2 -> quieter c2 c3 -> quieter c1 c3.
Proof.
  intros (A1 & A2 & A3 & A4 & A5 & A6 & A7) (B1 & B2 & B3 & B4 & B5 & B6 & B7).
  repeat split; try congruence. intros t H. apply A7, B7, H.
Qed.

(** X14. Once the controller is not running and holds no session, a
    firing timer does nothing outward, whichever callback it carries: no
    log entry, no message to the clients, no command to a session; the
    log, the settings and the home stay as they are and no timer is
    armed.  The repeating wake-up and boundary checks and a pending
    wander step remove themselves (or the boundary check); the 10 s
    wander watchdog is the one repeating timer that stays armed. *)
Theorem timers_idle_after_disconnect (w : World) (h : nat) (c : Controller) :
  running c = false -> bot c = None ->
  let r := fireTimer w h c in
  outcome r = Done tt /\ effects r = [] /\
  storage (final r) = storage c /\ settings (final r) = settings c /\
  homePosition (final r) = homePosition c /\
  running (final r) = false /\ bot (final r) = None /\
  nextHandle (final r) = nextHandle c /\
  (forall t, In t (timers (final r)) -> In t (timers c)) /\
  (forall t boundary,
      find (fun t => Nat.eqb (handle t) h) (timers c) = Some t ->
      callback t = wanderWatchdog boundary -> repeats t = true -> final r = c).
Proof.
  intros Hrun Hbot. cbv zeta.
  assert (Hcb : forall cb c', running c' = false -> bot c' = None ->
            exists c'', runCallback w h cb c' = mkRun (Done tt) c'' [] /\ quieter c' c'').
  { intros cb c' Hr Hb. destruct cb; cbn [runCallback].
    - exists c'. split; [step; rewrite Hr; reflexivity | apply quieter_refl].
    - exists (disarm h c'). split; [| apply quieter_disarm].
      unfold clearInterval. step. rewrite Hr. reflexivity.
    - exists c'. split; [step; rewrite Hb; reflexivity | apply quieter_refl].
    - exists c'. split; [| apply quieter_refl].
      unfold forceWakeUpNow. step. rewrite Hb. reflexivity.
    - exists (disarm h c'). split; [| apply quieter_disarm].
      unfold clearInterval. step. rewrite Hr. reflexivity.
    - exists c'. split; [step; rewrite Hb; reflexivity | apply quieter_refl].
    - exists (disarm boundary c'). split; [| apply quieter_disarm].
      unfold wanderStep, clearInterval. step. rewrite Hb. reflexivity.
    - exists c'. split; [step; rewrite Hb; reflexivity | apply quieter_refl].
    - exists c'. split; [step; rewrite Hb; reflexivity | apply quieter_refl].
    - exists c'. split; [| apply quieter_refl].
      unfold attemptWake. step. rewrite Hb. reflexivity. }
  assert (Hfire : exists c', fireTimer w h c = mkRun (Done tt) c' [] /\ quieter c c').
  { unfold fireTimer. step.
    destruct (find (fun t => Nat.eqb (handle t) h) (timers c)) as [t |];
      [| exists c; split; [reflexivity | apply quieter_refl]].
    destruct (repeats t); fields.
    - step. apply Hcb; assumption.
    - step. destruct (Hcb (callback t) (disarm h c) Hrun Hbot) as (c'' & E & Hq).
      exists c''. split; [exact E |].
      apply (quieter_trans _ (disarm h c)); [apply quieter_disarm | exact Hq]. }
  destruct Hfire as (c' & E & Hs & Hset & Hhome & Hr & Hb & Hn & Hin).
  split; [rewrite E; reflexivity |]. split; [rewrite E; reflexivity |].
  rewrite E. fields.
  split; [exact Hs |]. split; [exact Hset |]. split; [exact Hhome |].
  split; [congruence |]. split; [congruence |]. split; [exact Hn |].
  split; [exact Hin |].
  intros t boundary Hfind Hcall Hrep.
  assert (E' : fireTimer w h c = mkRun (Done tt) c []).
  { unfold fireTimer. step. rewrite Hfind, Hrep, Hcall. fields. step.
    cbn [runCallback]. step. rewrite Hbot. reflexivity. }
  rewrite E' in E. injection E as <-. reflexivity.
Qed.

Lemma timers_idle_after_disconnect_witness :
  let stopped := final (stop Scenario.quiet Scenario.spawnedFar) in
  effects (fireTimer Scenario.quiet 5 stopped) = [] /\
  final (fireTimer Scenario.quiet 5 stopped) = stopped /\
  effects (fireTimer Scenario.quiet 2 stopped) = [].
Proof.
  cbv zeta.
  destruct (timers_idle_after_disconnect Scenario.quiet 5
              (final (stop Scenario.quiet Scenario.spawnedFar)) eq_refl eq_refl)
    as (_ & Heff & _ & _ & _ & _ & _ & _ & _ & Hdog).
  destruct (timers_idle_after_disconnect Scenario.quiet 2
              (final (stop Scenario.quiet Scenario.spawnedFar)) eq_refl eq_refl)
    as (_ & Heff2 & _).
  split; [exact Heff |]. split; [| exact Heff2].
  apply (Hdog (mkTimer 5 10000 true (wanderWatchdog 2)) 2%nat); reflexivity.
Defined.

End DisconnectMore.


(** ** Connection errors (the two error listeners) *)

Module ErrorMore.
Import Schema Frame Exec Lifecycle Rest.

Lemma prefix_spec (p s : string) :
  Js.prefix p s = true <-> exists post, s = p +++ post.
Proof.
  revert s. induction p as [| a p IH]; intro s; cbn [Js.prefix String.append].
  - split; [intros _; exists s; reflexivity | reflexivity].
  - destruct s as [| b s].
    + split; [discriminate | intros [post H]; discriminate H].
    + destruct (Ascii.eqb_spec a b) as [-> | Hne].
      * rewrite IH. split; intros [post H]; exists post; congruence.
      * split; [discriminate | intros [post H]; congruence].
Qed.

(** [Js.includes] is the substring test of [String.prototype.includes]. *)
Lemma includes_spec (sub s : string) :
  Js.includes sub s = true <-> exists pre post, s = pre +++ sub +++ post.
Proof.
  induction s as [| b s IH]; cbn [Js.includes].
  - destruct (Js.prefix sub "") eqn:Hp.
    + apply prefix_spec in Hp. destruct Hp as [post Hp].
      split; [intros _; exists "", post; exact Hp | reflexivity].
    + split; [discriminate |]. intros (pre & post & H).
      destruct pre; [| discriminate H]. cbn [String.append] in H.
      assert (Hp' : Js.prefix sub "" = true) by (apply prefix_spec; exists post; exact H).
      congruence.
  - destruct (Js.prefix sub (String b s)) eqn:Hp.
    + apply prefix_spec in Hp. destruct Hp as [post Hp].
      split; [intros _; exists "", post; exact Hp | reflexivity].
    + rewrite IH. split.
      * intros (pre & post & H). exists (String b pre), post. cbn [String.append].
        rewrite H. reflexivity.
      * intros (pre & post & H). destruct pre as [| a pre].
        -- cbn [String.append] in H.
           assert (Hp' : Js.prefix sub (String b s) = true)
             by (apply prefix_spec; exists post; exact H).
           congruence.
        -- cbn [String.append] in H. injection H as _ H. exists pre, post. exact H.
Qed.

Definition mentions (sub s : string) : Prop := exists pre post, s = pre +++ sub +++ post.

Definition errorNotes (w : World) (c : Controller) (err : Js.Error) : list ConsoleMessage :=
  if Js.includes "ENOTFOUND" (Js.message err) then
    [note w ("Server '"
               +++ match settings c with Some st => serverAddress st | None => "undefined" end
               +++ "' does not exist or cannot be reached.") error;
     note w "Please update settings with a valid Minecraft server address." error]
  else if Js.includes "ETIMEDOUT" (Js.message err) then
    [note w "Connection timed out. Server may be offline or unreachable." error]
  else [].

Lemma onError_run (w : World) (t : nat) (err : Js.Error) (c : Controller) :
  onError w t err c =
    ran (Done tt)
      (logged [note w ("Bot error: " +++ Js.message err) error]
         (with_bot None
            (with_running false
               (logged (note w ("CONNECTION ERROR: " +++ Js.message err) error
                          :: errorNotes w c err)
                  (disarm t c)))))
      [SendStatus StatusFacts.idleSnapshot]
      (SendConsole (note w ("CONNECTION ERROR: " +++ Js.message err) error)
         :: map SendConsole (errorNotes w c err)
         ++ [SendConsole (note w ("Bot error: " +++ Js.message err) error)]).
Proof.
  unfold onError, errorNotes, clearTimeout. step. step. step.
  destruct (Js.includes "ENOTFOUND" (Js.message err));
    [| destruct (Js.includes "ETIMEDOUT" (Js.message err))];
    repeat step;
    (erewrite bind_run by apply disconnected_run); fields;
    unfold addConsoleMessage; same_run; reflexivity.
Qed.

(** X15. A session error always ends the session: the connection
    timeout is disarmed, [running] is false, the session is dropped (the
    home is kept) and the disconnected snapshot is published at once,
    ahead of every console frame.  The log gets
    "CONNECTION ERROR: <message>" first and "Bot error: <message>" last;
    in between, a message that mentions ENOTFOUND adds the two entries
    about the unreachable server, otherwise one that mentions ETIMEDOUT
    adds the time-out entry, and any other adds nothing.  The console
    frames follow the snapshot in the order of the log. *)
Theorem session_error_rolls_back (w : World) (t : nat) (err : Js.Error) (c : Controller) :
  let r := onError w t err c in
  let first := note w ("CONNECTION ERROR: " +++ Js.message err) error in
  let last := note w ("Bot error: " +++ Js.message err) error in
  let snapshot := SendStatus StatusFacts.idleSnapshot in
  outcome r = Done tt /\
  running (final r) = false /\ bot (final r) = None /\
  homePosition (final r) = homePosition c /\
  (forall t', In t' (timers (final r)) <-> In t' (timers c) /\ handle t' <> t) /\
  (mentions "ENOTFOUND" (Js.message err) ->
   effects r =
     [snapshot;
      SendConsole first;
      SendConsole
        (note w ("Server '"
                   +++ match settings c with
                       | Some st => serverAddress st
                       | None => "undefined"
                       end
                   +++ "' does not exist or cannot be reached.") error);
      SendConsole
        (note w "Please update settings with a valid Minecraft server address." error);
      SendConsole last]) /\
  (~ mentions "ENOTFOUND" (Js.message err) -> mentions "ETIMEDOUT" (Js.message err) ->
   effects r =
     [snapshot;
      SendConsole first;
      SendConsole
        (note w "Connection timed out. Server may be offline or unreachable." error);
      SendConsole last]) /\
  (~ mentions "ENOTFOUND" (Js.message err) -> ~ mentions "ETIMEDOUT" (Js.message err) ->
   effects r = [snapshot; SendConsole first; SendConsole last]).
Proof.
  cbv zeta. rewrite onError_run. unfold logged. fields.
  split; [reflexivity |]. split; [reflexivity |]. split; [reflexivity |].
  split; [reflexivity |]. split.
  { intro t'. unfold disarm. fields. rewrite filter_In, negb_true_iff, Nat.eqb_neq.
    tauto. }
  unfold errorNotes, mentions.
  destruct (Js.includes "ENOTFOUND" (Js.message err)) eqn:Hn;
    [| destruct (Js.includes "ETIMEDOUT" (Js.message err)) eqn:Ht].
  - apply includes_spec in Hn. repeat split; try reflexivity; intros; contradiction.
  - apply includes_spec in Ht.
    assert (Hn' : ~ (exists pre post, Js.message err = pre +++ "ENOTFOUND" +++ post)).
    { intro H. apply includes_spec in H. congruence. }
    repeat split; try reflexivity; intros; contradiction.
  - assert (Hn' : ~ (exists pre post, Js.message err = pre +++ "ENOTFOUND" +++ post)).
    { intro H. apply includes_spec in H. congruence. }
    assert (Ht' : ~ (exists pre post, Js.message err = pre +++ "ETIMEDOUT" +++ post)).
    { intro H. apply includes_spec in H. congruence. }
    repeat split; try reflexivity; intros; contradiction.
Qed.

Lemma session_error_rolls_back_witness :
  let err := Js.mkError "Error" "getaddrinfo ENOTFOUND play.example.org" in
  map (fun m => message m)
      (skipn 4 (Storage.consoleMessages
                  (storage (final (onError Scenario.quiet 0 err Scenario.connecting))))) =
    ["CONNECTION ERROR: getaddrinfo ENOTFOUND play.example.org";
     "Server 'play.example.org' does not exist or cannot be reached.";
     "Please update settings with a valid Minecraft server address.";
     "Bot error: getaddrinfo ENOTFOUND play.example.org"] /\
  List.length (effects (onError Scenario.quiet 0 err Scenario.connecting)) = 5%nat.
Proof.
  cbv zeta. split; [vm_compute; reflexivity |].
  destruct (session_error_rolls_back Scenario.quiet 0
              (Js.mkError "Error" "getaddrinfo ENOTFOUND play.example.org")
              Scenario.connecting) as (_ & _ & _ & _ & _ & Hnot & _).
  rewrite Hnot; [reflexivity |].
  exists "getaddrinfo ", " play.example.org". reflexivity.
Defined.

End ErrorMore.


(** ** More on rest and wake *)

Module RestMore.
Import Schema Frame Exec Lifecycle Rest Wander.

Definition failedWake (w : World) (retryCount : nat) (err : Js.Error) : ConsoleMessage :=
  note w ("Failed to wake bot (attempt " +++ Js.ofNat (retryCount + 1) +++ "): "
            +++ Js.message err) error.

(** X16. A failed emergency wake is retried at most five times: after the
    failure of attempt number [retryCount + 1] a retry with the next
    count is armed, [500 + 300 * retryCount] ms later (500 up to
    1700 ms), as long as [retryCount] is below 5; from 5 on the failure
    is only logged.  A retry that fires issues a wake only if a session
    is held and still asleep, otherwise it does nothing. *)
Theorem emergency_wake_retries_bounded
    (w : World) (retryCount : nat) (err : Js.Error) (c : Controller) :
  let r := onWakeRejected w (wakeEmergency retryCount) err c in
  let delay := (500 + Z.of_nat retryCount * 300)%Z in
  outcome r = Done tt /\
  ((retryCount < 5)%nat ->
   timers (final r) =
     timers c ++ [mkTimer (nextHandle c) (inject_Z delay) false
                          (attemptWakeLater (retryCount + 1))] /\
   500 <= delay <= 1700 /\
   effects r =
     [SendConsole (failedWake w retryCount err);
      SendConsole (note w ("Retrying wake in " +++ Js.ofZ delay +++ "ms...") warning)]) /\
  ((5 <= retryCount)%nat ->
   timers (final r) = timers c /\
   effects r = [SendConsole (failedWake w retryCount err)]) /\
  (forall t, In t (timers (final r)) -> In t (timers c) \/
             exists k, callback t = attemptWakeLater k /\ (k <= 5)%nat) /\
  (forall w' self k c',
      runCallback w' self (attemptWakeLater k) c' =
        match bot c' with
        | Some b => if Mf.isSleeping b
                    then mkRun (Done tt) c' [Wake (wakeEmergency k)]
                    else mkRun (Done tt) c' []
        | None => mkRun (Done tt) c' []
        end).
Proof.
  cbv zeta.
  assert (Hlow : (retryCount < 5)%nat ->
            onWakeRejected w (wakeEmergency retryCount) err c =
              ran (Done tt)
                (with_timers
                   (timers c ++ [mkTimer (nextHandle c)
                                   (inject_Z (500 + Z.of_nat retryCount * 300)) false
                                   (attemptWakeLater (retryCount + 1))])
                   (S (nextHandle c))
                   (logged [failedWake w retryCount err;
                            note w ("Retrying wake in "
                                      +++ Js.ofZ (500 + Z.of_nat retryCount * 300)
                                      +++ "ms...") warning] c))
                []
                [SendConsole (failedWake w retryCount err);
                 SendConsole (note w ("Retrying wake in "
                                        +++ Js.ofZ (500 + Z.of_nat retryCount * 300)
                                        +++ "ms...") warning)]).
  { intro Hlt. cbn [onWakeRejected]. step.
    destruct (Nat.ltb_spec retryCount 5) as [_ | Hge]; [| lia].
    cbv zeta. unfold setTimeout. repeat step. reflexivity. }
  assert (Hhigh : (5 <= retryCount)%nat ->
            onWakeRejected w (wakeEmergency retryCount) err c =
              ran (Done tt) (logged [failedWake w retryCount err] c)
                  [] [SendConsole (failedWake w retryCount err)]).
  { intro Hge. cbn [onWakeRejected]. step.
    destruct (Nat.ltb_spec retryCount 5) as [Hlt | _]; [lia |]. reflexivity. }
  destruct (Nat.lt_ge_cases retryCount 5) as [Hlt | Hge].
  - rewrite (Hlow Hlt). unfold logged. fields.
    split; [reflexivity |]. split.
    { intros _. split; [reflexivity |]. split; [lia | reflexivity]. }
    split; [intro; lia |]. split.
    { intros t Hin. apply in_app_or in Hin. destruct Hin as [Hin | [<- | []]].
      - left. exact Hin.
      - right. exists (retryCount + 1)%nat. split; [reflexivity | lia]. }
    intros w' self k c'. cbn [runCallback]. unfold attemptWake. step.
    destruct (bot c') as [b |]; [destruct (Mf.isSleeping b) |]; reflexivity.
  - rewrite (Hhigh Hge). unfold logged. fields.
    split; [reflexivity |]. split; [intro; lia |].
    split; [intros _; split; reflexivity |]. split.
    { intros t Hin. left. exact Hin. }
    intros w' self k c'. cbn [runCallback]. unfold attemptWake. step.
    destruct (bot c') as [b |]; [destruct (Mf.isSleeping b) |]; reflexivity.
Qed.

Lemma emergency_wake_retries_bounded_witness :
  timers (final (onWakeRejected Scenario.quiet (wakeEmergency 4)
                   (Js.mkError "Error" "already awake") (Scenario.resting [] 14000))) =
    timers (Scenario.resting [] 14000)
    ++ [mkTimer 7 1700 false (attemptWakeLater 5)] /\
  timers (final (onWakeRejected Scenario.quiet (wakeEmergency 5)
                   (Js.mkError "Error" "already awake") (Scenario.resting [] 14000))) =
    timers (Scenario.resting [] 14000).
Proof.
  destruct (emergency_wake_retries_bounded Scenario.quiet 4
              (Js.mkError "Error" "already awake") (Scenario.resting [] 14000))
    as (_ & Hlow & _).
  destruct (emergency_wake_retries_bounded Scenario.quiet 5
              (Js.mkError "Error" "already awake") (Scenario.resting [] 14000))
    as (_ & _ & Hhigh & _).
  split; [apply Hlow; lia | apply Hhigh; lia].
Defined.

(** The four outcomes of the condition check. *)
Lemma checkSleepConditions_run (w : World) (c : Controller) (b : Mf.Bot) :
  running c = true -> bot c = Some b ->
  checkSleepConditions w c =
    if Mf.isSleeping b then
      match others b with
      | [] =>
          ran (Done tt)
            (logged [note w "WAKE UP TRIGGER: No players online while sleeping!" warning;
                     note w "Attempting to wake up bot..." info] c)
            [Wake wakeAttempt]
            [SendConsole (note w "WAKE UP TRIGGER: No players online while sleeping!"
                               warning);
             SendConsole (note w "Attempting to wake up bot..." info)]
      | _ :: _ =>
          if isNightTime b then mkRun (Done tt) c []
          else ran (Done tt)
                 (logged [note w "Daytime detected - waking up from bed" info] c)
                 [Wake wakeDaytime]
                 [SendConsole (note w "Daytime detected - waking up from bed" info)]
      end
    else
      match others b with
      | [] => mkRun (Done tt) c []
      | _ :: _ =>
          if isNightTime b
          then ran (Done tt) (logged (bedNotes w) c) (bedSent w) (bedQueued w)
          else mkRun (Done tt) c []
      end.
Proof.
  intros Hrun Hbot.
  destruct (Mf.isSleeping b) eqn:Hsleep, (others b) as [| p ps] eqn:Hothers.
  - apply (checkSleepConditions_alone w c b Hrun Hbot Hsleep Hothers).
  - unfold checkSleepConditions. step. rewrite Hbot, Hrun, Hsleep, Hothers.
    cbn [List.length Nat.ltb Nat.leb andb negb].
    destruct (isNightTime b); cbn [andb negb]; [reflexivity | step; reflexivity].
  - unfold checkSleepConditions. step. rewrite Hbot, Hrun, Hsleep, Hothers.
    cbn [List.length Nat.ltb Nat.leb andb negb].
    destruct (isNightTime b); reflexivity.
  - unfold checkSleepConditions. step. rewrite Hbot, Hrun, Hsleep, Hothers.
    cbn [List.length Nat.ltb Nat.leb andb negb].
    destruct (isNightTime b); cbn [andb negb];
      [apply (findAndSleepInBed_run w c b Hbot) | reflexivity].
Qed.

(** X17. What the condition check of a running controller with a session
    does is decided by three facts, in this order.  Asleep with no other
    participant: the retrying wake attempt, at day and at night.  Asleep
    with company: the single daytime wake outside the night window,
    nothing inside it.  Awake: a bed search exactly at night with
    company.  It never both wakes and searches, and it changes nothing
    but the log. *)
Theorem condition_check_table (w : World) (c : Controller) (b : Mf.Bot) :
  running c = true -> bot c = Some b ->
  let r := checkSleepConditions w c in
  outcome r = Done tt /\
  (In (Wake wakeAttempt) (effects r) <-> Mf.isSleeping b = true /\ others b = []) /\
  (In (Wake wakeDaytime) (effects r) <->
   Mf.isSleeping b = true /\ others b <> [] /\ isNightTime b = false) /\
  (In (FindBlock 10) (effects r) <->
   Mf.isSleeping b = false /\ isNightTime b = true /\ others b <> []) /\
  (effects r = [] <->
   (Mf.isSleeping b = true /\ others b <> [] /\ isNightTime b = true) \/
   (Mf.isSleeping b = false /\ (isNightTime b = false \/ others b = []))) /\
  (forall bed, ~ In (Sleep bed) (effects r)) /\
  timers (final r) = timers c /\ running (final r) = true /\ bot (final r) = Some b.
Proof.
  intros Hrun Hbot. cbv zeta.
  assert (Hbed : ~ In (Wake wakeAttempt) (bedEffects w) /\
                 ~ In (Wake wakeDaytime) (bedEffects w) /\
                 In (FindBlock 10) (bedEffects w) /\ bedEffects w <> [] /\
                 forall bed, ~ In (Sleep bed) (bedEffects w)).
  { unfold bedEffects, bedSent, bedQueued, bedNotes.
    destruct (findBlock w); cbn [In app map];
      repeat split; try discriminate; try tauto;
      intros; intro H; repeat (destruct H as [H | H]; try discriminate H); exact H. }
  destruct Hbed as (Hb1 & Hb2 & Hb3 & Hb4 & Hb5).
  rewrite (checkSleepConditions_run w c b Hrun Hbot).
  destruct (Mf.isSleeping b), (others b) as [| p ps], (isNightTime b);
    unfold logged; fields; fold (bedEffects w); cbn [In andb negb];
    repeat split; intros;
    repeat match goal with
           | H : _ /\ _ |- _ => destruct H
           | H : _ \/ _ |- _ => destruct H
           | H : False |- _ => destruct H
           end;
    try reflexivity; try discriminate; try congruence; try tauto;
    try (exfalso; eapply Hb5; eassumption);
    try (left; repeat split; congruence);
    try (right; split; [reflexivity |]; first [left; reflexivity | right; reflexivity]);
    try apply Hb5;
    try (intro Hs; repeat (destruct Hs as [Hs | Hs]; try discriminate Hs); contradiction).
Qed.

Lemma condition_check_table_witness :
  In (Wake wakeAttempt)
     (effects (checkSleepConditions Scenario.quiet (Scenario.resting [] 6000))) /\
  ~ In (Wake wakeDaytime)
       (effects (checkSleepConditions Scenario.quiet (Scenario.resting [] 6000))).
Proof.
  destruct (condition_check_table Scenario.quiet (Scenario.resting [] 6000)
              (Scenario.asleep [] 6000) eq_refl eq_refl)
    as (_ & Hattempt & Hday & _).
  split.
  - apply (proj2 Hattempt). split; reflexivity.
  - intro H. destruct (proj1 Hday H) as (_ & Hne & _). apply Hne. reflexivity.
Defined.

Lemma others_length (u : string) (names : list string) :
  In u names -> NoDup names ->
  S (List.length (filter (fun name => negb (String.eqb name u)) names)) =
  List.length names.
Proof.
  induction names as [| a names IH]; intros Hin Hnd; [destruct Hin |].
  inversion Hnd as [| ? ? Hnotin Hnd']; subst. cbn [filter].
  destruct (String.eqb_spec a u) as [-> | Hne]; cbn [negb List.length].
  - f_equal. clear IH Hin Hnd.
    induction names as [| a' names IH']; [reflexivity |]. cbn [filter].
    inversion Hnd' as [| ? ? Hn' Hnd'']; subst.
    destruct (String.eqb_spec a' u) as [-> | Hne']; cbn [negb List.length].
    + exfalso. apply Hnotin. left. reflexivity.
    + f_equal. apply IH'; [| exact Hnd''].
      intro H. apply Hnotin. right. exact H.
  - f_equal. apply IH; [| exact Hnd'].
    destruct Hin as [-> | Hin]; [contradiction Hne; reflexivity | exact Hin].
Qed.

(** X18. [shouldSleep] counts every listed participant and asks for more
    than one, while the condition check drops the agent's own name and
    asks for at least one.  When the session lists the agent exactly
    once among distinct names the two agree: [shouldSleep] answers true
    exactly at night with another participant present.  A list without
    the agent's own name can make them differ. *)
Theorem shouldSleep_agrees_with_check
    (w : World) (c : Controller) (b : Mf.Bot) (names : list string) :
  bot c = Some b -> Mf.players b = Some names ->
  In (Mf.username b) names -> NoDup names ->
  (outcome (shouldSleep w c) = Done true <->
   isNightTime b = true /\ others b <> []) /\
  (outcome (shouldSleep w c) = Done false <->
   isNightTime b = false \/ others b = []).
Proof.
  intros Hbot Hnames Hin Hnd.
  pose proof (others_length (Mf.username b) names Hin Hnd) as Hlen.
  assert (Hothers : others b = filter (fun name => negb (String.eqb name (Mf.username b)))
                                      names)
    by (unfold others, otherPlayers; rewrite Hnames; reflexivity).
  assert (Hrun : shouldSleep w c =
                 if isNightTime b && Nat.ltb 1 (List.length names)
                 then ran (Done true)
                        (logged [note w "Night time detected with players online - should sleep"
                                      info] c)
                        []
                        [SendConsole
                           (note w "Night time detected with players online - should sleep"
                                 info)]
                 else mkRun (Done false) c []).
  { unfold shouldSleep. step. rewrite Hbot, Hnames.
    destruct (isNightTime b && Nat.ltb 1 (List.length names)); [step |]; reflexivity. }
  rewrite Hrun, Hothers.
  destruct (isNightTime b);
    destruct (Nat.ltb_spec 1 (List.length names)) as [Hmany | Hone];
    destruct (filter (fun name => negb (String.eqb name (Mf.username b))) names) eqn:Hf;
    cbn [andb outcome List.length] in *;
    repeat split; intros;
    repeat match goal with
           | H : _ /\ _ |- _ => destruct H
           | H : _ \/ _ |- _ => destruct H
           end;
    try reflexivity; try discriminate; try congruence; try lia;
    try (left; reflexivity); try (right; reflexivity).
Qed.

Lemma shouldSleep_agrees_with_check_witness :
  outcome (shouldSleep Scenario.quiet (Scenario.resting ["alice"] 14000)) = Done true.
Proof.
  apply (shouldSleep_agrees_with_check Scenario.quiet (Scenario.resting ["alice"] 14000)
           (Scenario.asleep ["alice"] 14000) ["Gadalar"; "alice"] eq_refl eq_refl).
  - left. reflexivity.
  - repeat constructor; cbn; intuition discriminate.
  - split; [reflexivity | discriminate].
Defined.

(** At night, with alice listed but not the agent itself, the condition
    check looks for a bed while [shouldSleep] answers false. *)
Example shouldSleep_differs_without_own_name :
  let b := Mf.mkBot "Gadalar" (Some (Mf.mkEntity (Mf.vec3 0 64 0))) false
                    (Some (Mf.mkTime 14000)) (Some ["alice"]) in
  let c := with_bot (Some b) Scenario.spawnedFar in
  outcome (shouldSleep Scenario.quiet c) = Done false /\
  In (FindBlock 10) (effects (checkSleepConditions Scenario.quiet c)).
Proof. cbv zeta. split; [reflexivity | vm_compute; left; reflexivity]. Qed.

End RestMore.


(** ** The spawn listener *)

Module SpawnMore.
Import Schema Frame Exec Lifecycle Rest Wander.

(** [m] leaves the home as it was, whether it returns or raises. *)
Definition keeps_home {A} (m : Act A) : Prop :=
  forall c, homePosition (final (m c)) = homePosition c.

Lemma kh_ret {A} (a : A) : keeps_home (ret a).
Proof. intro c. reflexivity. Qed.

Lemma kh_throw {A} (e : Js.Error) : keeps_home (@throw A e).
Proof. intro c. reflexivity. Qed.

Lemma kh_get : keeps_home get.
Proof. intro c. reflexivity. Qed.

Lemma kh_emit (e : Effect) : keeps_home (emit e).
Proof. intro c. reflexivity. Qed.

Lemma kh_arm cb ms rep : keeps_home (arm cb ms rep).
Proof. intro c. reflexivity. Qed.

Lemma kh_addConsoleMessage w message type : keeps_home (addConsoleMessage w message type).
Proof. intro c. reflexivity. Qed.

Lemma kh_broadcastStatus : keeps_home broadcastStatus.
Proof. intro c. unfold broadcastStatus. destruct (getBotStatus c); reflexivity. Qed.

Lemma kh_modify (f : Controller -> Controller) :
  (forall c, homePosition (f c) = homePosition c) -> keeps_home (modify f).
Proof. intros H c. exact (H c). Qed.

Lemma kh_bind {A B} (m : Act A) (k : A -> Act B) :
  keeps_home m -> (forall a, keeps_home (k a)) -> keeps_home (bind m k).
Proof.
  intros Hm Hk c. unfold bind. specialize (Hm c).
  destruct (m c) as [[a | e] c1 s1 q1]; cbn [final] in *.
  - specialize (Hk a c1). destruct (k a c1) as [o c2 s2 q2]; cbn [final] in *. congruence.
  - exact Hm.
Qed.

Lemma kh_try_catch {A} (m : Act A) (h : Js.Error -> Act A) :
  keeps_home m -> (forall e, keeps_home (h e)) -> keeps_home (try_catch m h).
Proof.
  intros Hm Hh c. unfold try_catch. specialize (Hm c).
  destruct (m c) as [[a | e] c1 s1 q1]; cbn [final] in *.
  - exact Hm.
  - specialize (Hh e c1). destruct (h e c1) as [o c2 s2 q2]; cbn [final] in *. congruence.
Qed.

Create HintDb home.
#[export] Hint Resolve kh_ret kh_throw kh_get kh_emit kh_arm kh_addConsoleMessage
  kh_broadcastStatus : home.

Ltac home :=
  repeat first
    [ progress intros
    | progress cbv zeta
    | solve [auto with home]
    | apply kh_bind
    | apply kh_try_catch
    | apply kh_modify; intro; reflexivity
    | progress unfold when, setTimeout, setInterval, clearTimeout, clearInterval
    | match goal with
      | |- keeps_home (match ?x with _ => _ end) => destruct x
      end ].

Lemma kh_shouldSleep w : keeps_home (shouldSleep w).
Proof. unfold shouldSleep. home. Qed.
#[export] Hint Resolve kh_shouldSleep : home.

Lemma kh_findAndSleepInBed w : keeps_home (findAndSleepInBed w).
Proof. unfold findAndSleepInBed. home. Qed.
#[export] Hint Resolve kh_findAndSleepInBed : home.

Lemma kh_checkSleepConditions w : keeps_home (checkSleepConditions w).
Proof. unfold checkSleepConditions, attemptWakeUp. home. Qed.
#[export] Hint Resolve kh_checkSleepConditions : home.

Lemma kh_moveDirectly w x y z : keeps_home (moveDirectly w x y z).
Proof. unfold moveDirectly. home. Qed.
#[export] Hint Resolve kh_moveDirectly : home.

Lemma kh_wanderStep w boundary : keeps_home (wanderStep w boundary).
Proof. unfold wanderStep, rearm. home. Qed.
#[export] Hint Resolve kh_wanderStep : home.

Lemma kh_startWandering w : keeps_home (startWandering w).
Proof. unfold startWandering. home. Qed.
#[export] Hint Resolve kh_startWandering : home.

Lemma nt_shouldSleep w : never_throws (shouldSleep w).
Proof. unfold shouldSleep. total. Qed.

Lemma nt_findAndSleepInBed w : never_throws (findAndSleepInBed w).
Proof. unfold findAndSleepInBed. total. Qed.

Lemma nt_checkSleepConditions w : never_throws (checkSleepConditions w).
Proof.
  unfold checkSleepConditions, attemptWakeUp.
  pose proof (nt_findAndSleepInBed w). total.
Qed.

Lemma nt_wanderStep w boundary : never_throws (wanderStep w boundary).
Proof.
  unfold wanderStep.
  pose proof (nt_findAndSleepInBed w). pose proof (nt_shouldSleep w).
  pose proof nt_rearm. total.
Qed.

Lemma nt_startWandering w : never_throws (startWandering w).
Proof. unfold startWandering. pose proof (nt_wanderStep w). total. Qed.

(** The state a sequence ends in when it returns. *)
Lemma bind_final {A B} (m : Act A) (k : A -> Act B) (c : Controller) (b : B) :
  outcome (bind m k c) = Done b ->
  exists a, outcome (m c) = Done a /\
            final (bind m k c) = final (k a (final (m c))) /\
            outcome (k a (final (m c))) = Done b.
Proof.
  unfold bind. destruct (m c) as [[a | e] c1 s1 q1]; cbn [outcome final].
  - destruct (k a c1) as [o c2 s2 q2] eqn:E. cbn [outcome final]. intros ->.
    exists a. rewrite E. cbn [outcome final]. repeat split.
  - discriminate.
Qed.

(** X19. When the session reports the spawn, the home becomes the
    coordinate held in the controller's settings at that moment, even if
    the listener raises afterwards.  With a session that has its entity
    the listener returns (the library calls being taken to return): the
    status snapshot is the first thing it sends, the frames of the two
    entries "Bot has spawned in the world" and "Setting home position
    to ..." are the first it leaves queued, in this order, and the
    connection timeout the listener was given is no longer armed. *)
Theorem spawn_sets_home (w : World) (t : nat) (c : Controller) (st : BotSettings) :
  settings c = Some st ->
  let r := onSpawn w t c in
  let spawned := note w "Bot has spawned in the world" info in
  let setting :=
    note w ("Setting home position to " +++ showXYZ (posX st) (posY st) (posZ st)) info in
  homePosition (final r) = Some (mkCoord (posX st) (posY st) (posZ st)) /\
  (forall b e, bot c = Some b -> Mf.entity b = Some e ->
     outcome r = Done tt /\
     (exists status rest, sent r = SendStatus status :: rest) /\
     (exists rest, queued r = SendConsole spawned :: SendConsole setting :: rest) /\
     (forall t', In t' (timers (final r)) -> handle t' <> t)).
Proof.
  intro Hset. cbv zeta.
  set (home := mkCoord (posX st) (posY st) (posZ st)).
  set (c2 := logged [note w "Bot has spawned in the world" info;
                     note w ("Setting home position to "
                               +++ showXYZ (posX st) (posY st) (posZ st)) info]
                    (with_homePosition (Some home) c)).
  set (tail := fun _ : unit =>
                 checkSleepConditions w ;; startWandering w ;;
                 _ <- setTimeout spawnRecheck 5000 ;; clearTimeout t).
  assert (Hr : onSpawn w t c =
               later [SendConsole (note w "Bot has spawned in the world" info);
                      SendConsole (note w ("Setting home position to "
                                             +++ showXYZ (posX st) (posY st) (posZ st))
                                        info)]
                     (bind broadcastStatus tail c2)).
  { unfold onSpawn. step. step. rewrite Hset. step. step.
    rewrite later_later. same_run; reflexivity. }
  assert (Hkeep : keeps_home (bind broadcastStatus tail)) by (unfold tail; home).
  rewrite Hr. fields. split; [rewrite Hkeep; reflexivity |].
  intros b e Hbot Hent.
  destruct (getBotStatus_spawned c2 b e Hbot Hent) as [status Hstatus].
  rewrite (bind_broadcast tail c2 status Hstatus). fields.
  assert (Hdone : outcome (tail tt c2) = Done tt).
  { apply nt_done. unfold tail, setTimeout, clearTimeout.
    pose proof (nt_checkSleepConditions w). pose proof (nt_startWandering w). total. }
  split; [exact Hdone |].
  split; [exists status, (sent (tail tt c2)); reflexivity |].
  split; [exists (queued (tail tt c2)); reflexivity |].
  unfold tail in *.
  apply bind_final in Hdone. destruct Hdone as (a1 & _ & -> & Hdone).
  apply bind_final in Hdone. destruct Hdone as (a2 & _ & -> & Hdone).
  unfold setTimeout. rewrite bind_arm. unfold clearTimeout, modify. fields.
  intros t' Hin. apply filter_In in Hin. destruct Hin as [_ Hne].
  apply negb_true_iff, Nat.eqb_neq in Hne. exact Hne.
Qed.

Lemma spawn_sets_home_witness :
  homePosition Scenario.spawnedFar = Some (mkCoord 0 64 0) /\
  forall t', In t' (timers Scenario.spawnedFar) -> handle t' <> 0%nat.
Proof.
  destruct (spawn_sets_home Scenario.quiet 0
              (with_bot (Some Scenario.farAway) Scenario.connecting)
              Scenario.realServer eq_refl) as (Hhome & Hrest).
  split; [exact Hhome |].
  apply (Hrest Scenario.farAway (Mf.mkEntity (Mf.vec3 (201 # 2) 70 (-7 # 2)))
               eq_refl eq_refl).
Defined.

(** Without an entity the snapshot cannot be read and the listener
    raises after the home is set; the connection timeout stays armed. *)
Example spawn_without_entity_raises :
  let b := Mf.mkBot "Gadalar" None false None None in
  let r := onSpawn Scenario.quiet 0 (with_bot (Some b) Scenario.connecting) in
  outcome r = Thrown (cannotRead "undefined" "position") /\
  homePosition (final r) = Some (mkCoord 0 64 0) /\
  sent r = [] /\
  exists t', In t' (timers (final r)) /\ handle t' = 0%nat.
Proof.
  vm_compute. repeat split. eexists. split; [left; reflexivity | reflexivity].
Qed.

End SpawnMore.


(** ** client/src/hooks/use-websocket.tsx: what a dashboard client shows *)

Module Client.
Import Schema.

(** The state held by the [useWebSocket] hook. *)
Record View := mkView {
  isConnected : bool;
  botStatus : BotStatus;
  consoleMessages : list ConsoleMessage
}.

Definition initial : View :=
  mkView false
         (mkStatus false "Idle" (mkCoord 0 0 0) "day" [] (repeat false 9))
         [].

(** A parsed frame of the socket: the three types the server sends, any
    other type, or text that [JSON.parse] rejects. *)
Inductive WebSocketMessage :=
| status (data : BotStatus)
| console (data : ConsoleMessage)
| consoleClear
| other (type : string)
| malformed.

Definition onopen (v : View) : View := mkView true (botStatus v) (consoleMessages v).
Definition onclose (v : View) : View := mkView false (botStatus v) (consoleMessages v).

Definition onmessage (v : View) (f : WebSocketMessage) : View :=
  match f with
  | status data => mkView (isConnected v) data (consoleMessages v)
  | console data => mkView (isConnected v) (botStatus v) (consoleMessages v ++ [data])
  | consoleClear => mkView (isConnected v) (botStatus v) []
  | other _ => v
  | malformed => v
  end.

(** What the controller's sends look like on the socket; commands to the
    game session are not sent to clients. *)
Definition wire (e : Effect) : option WebSocketMessage :=
  match e with
  | SendStatus st => Some (status st)
  | SendConsole m => Some (console m)
  | SendConsoleClear => Some consoleClear
  | _ => None
  end.

(** The view of a client that receives every frame of a callback. *)
Definition deliver (es : list Effect) (v : View) : View :=
  fold_left (fun v e => match wire e with Some f => onmessage v f | None => v end) es v.

End Client.

(** ** The log a client shows and the log the server keeps *)

Module ClientSync.
Import Schema Exec LogContent.

Definition log (c : Controller) : list ConsoleMessage :=
  Storage.consoleMessages (storage c).

(** [push] and [shift] of the store, on the list alone. *)
Definition push (m : ConsoleMessage) (l : list ConsoleMessage) : list ConsoleMessage :=
  Storage.consoleMessages
    (Storage.addConsoleMessage m (Storage.mkStorage (Storage.botSettings Storage.create) l)).

(** The log that results from the console frames among [es]. *)
Definition replayLog (es : list Effect) (l : list ConsoleMessage) : list ConsoleMessage :=
  fold_left (fun l e => match e with
                        | SendConsole m => push m l
                        | SendConsoleClear => []
                        | _ => l
                        end) es l.

(** [m] changes the log only by what it publishes. *)
Definition coherent {A} (m : Act A) : Prop :=
  forall c, log (final (m c)) = replayLog (effects (m c)) (log c).

(** The frames that change a client's console. *)
Definition onLog (e : Effect) : bool :=
  match e with
  | SendConsole _ | SendConsoleClear => true
  | _ => false
  end.

(** [m] only appends to the log: what it sends at once leaves the
    console alone, and the log changes by the frames it leaves queued. *)
Definition appends {A} (m : Act A) : Prop :=
  forall c, Forall (fun e => onLog e = false) (sent (m c)) /\
            log (final (m c)) = replayLog (queued (m c)) (log c).

Lemma replay_silent (es : list Effect) (l : list ConsoleMessage) :
  Forall (fun e => onLog e = false) es -> replayLog es l = l.
Proof.
  unfold replayLog. intro H. revert l.
  induction H as [| e es He _ IH]; intro l; cbn [fold_left]; [reflexivity |].
  rewrite IH. destruct e; try reflexivity; discriminate He.
Qed.

Lemma appends_coherent {A} (m : Act A) : appends m -> coherent m.
Proof.
  intros H c. destruct (H c) as [Hs Hq]. unfold effects.
  unfold replayLog at 1. rewrite fold_left_app. fold (replayLog (sent (m c)) (log c)).
  rewrite (replay_silent _ _ Hs). exact Hq.
Qed.

Lemma ap_ret {A} (a : A) : appends (ret a).
Proof. intro c. split; [constructor | reflexivity]. Qed.

Lemma ap_throw {A} (e : Js.Error) : appends (@throw A e).
Proof. intro c. split; [constructor | reflexivity]. Qed.

Lemma ap_get : appends get.
Proof. intro c. split; [constructor | reflexivity]. Qed.

Lemma ap_emit (e : Effect) : onLog e = false -> appends (emit e).
Proof. intros H c. split; [repeat constructor; exact H | reflexivity]. Qed.

Lemma ap_arm cb ms rep : appends (arm cb ms rep).
Proof. intro c. split; [constructor | reflexivity]. Qed.

Lemma ap_addConsoleMessage w message type : appends (addConsoleMessage w message type).
Proof. intro c. split; [constructor | reflexivity]. Qed.

Lemma ap_broadcastStatus : appends broadcastStatus.
Proof.
  intro c. unfold broadcastStatus.
  destruct (getBotStatus c); split; repeat constructor.
Qed.

Lemma ap_newBot w host user : appends (newBot w host user).
Proof.
  intro c. unfold newBot.
  destruct (createBot w) as [e | b]; split; repeat constructor.
Qed.

Lemma ap_botQuit w : appends (botQuit w).
Proof.
  intro c. unfold botQuit.
  destruct (quit w) as [e |]; split; repeat constructor.
Qed.

Lemma ap_modify (f : Controller -> Controller) :
  (forall c, log (f c) = log c) -> appends (modify f).
Proof. intros H c. split; [constructor | exact (H c)]. Qed.

Lemma ap_bind {A B} (m : Act A) (k : A -> Act B) :
  appends m -> (forall a, appends (k a)) -> appends (bind m k).
Proof.
  intros Hm Hk c. unfold bind. destruct (Hm c) as [Hs Hq].
  destruct (m c) as [[a | e] c1 s1 q1]; cbn [final sent queued] in *.
  - destruct (Hk a c1) as [Hs' Hq'].
    destruct (k a c1) as [o c2 s2 q2]; cbn [final sent queued] in *.
    split; [apply Forall_app; split; assumption |].
    unfold replayLog in *. rewrite fold_left_app, <- Hq. exact Hq'.
  - split; assumption.
Qed.

Lemma ap_try_catch {A} (m : Act A) (h : Js.Error -> Act A) :
  appends m -> (forall e, appends (h e)) -> appends (try_catch m h).
Proof.
  intros Hm Hh c. unfold try_catch. destruct (Hm c) as [Hs Hq].
  destruct (m c) as [[a | e] c1 s1 q1]; cbn [final sent queued] in *.
  - split; assumption.
  - destruct (Hh e c1) as [Hs' Hq'].
    destruct (h e c1) as [o c2 s2 q2]; cbn [final sent queued] in *.
    split; [apply Forall_app; split; assumption |].
    unfold replayLog in *. rewrite fold_left_app, <- Hq. exact Hq'.
Qed.

Create HintDb sync.
#[export] Hint Resolve ap_ret ap_throw ap_get ap_arm ap_addConsoleMessage
  ap_broadcastStatus ap_newBot ap_botQuit : sync.

Ltac sync :=
  repeat first
    [ progress intros
    | progress cbv zeta
    | solve [auto with sync]
    | apply ap_bind
    | apply ap_try_catch
    | apply ap_emit; reflexivity
    | apply ap_modify; intro; reflexivity
    | progress unfold when, setTimeout, setInterval, clearTimeout, clearInterval
    | match goal with
      | |- appends (match ?x with _ => _ end) => destruct x
      end ].

Lemma ap_shouldSleep w : appends (shouldSleep w).
Proof. unfold shouldSleep. sync. Qed.
#[export] Hint Resolve ap_shouldSleep : sync.

Lemma ap_findAndSleepInBed w : appends (findAndSleepInBed w).
Proof. unfold findAndSleepInBed. sync. Qed.
#[export] Hint Resolve ap_findAndSleepInBed : sync.

Lemma ap_attemptWakeUp w : appends (attemptWakeUp w).
Proof. unfold attemptWakeUp. sync. Qed.
#[export] Hint Resolve ap_attemptWakeUp : sync.

Lemma ap_checkSleepConditions w : appends (checkSleepConditions w).
Proof. unfold checkSleepConditions. sync. Qed.
#[export] Hint Resolve ap_checkSleepConditions : sync.

Lemma ap_attemptWake retryCount : appends (attemptWake retryCount).
Proof. unfold attemptWake. sync. Qed.
#[export] Hint Resolve ap_attemptWake : sync.

Lemma ap_forceWakeUpNow w : appends (forceWakeUpNow w).
Proof. unfold forceWakeUpNow. sync. Qed.
#[export] Hint Resolve ap_forceWakeUpNow : sync.

Lemma ap_enforceAreaBoundaries w : appends (enforceAreaBoundaries w).
Proof. unfold enforceAreaBoundaries. sync. Qed.
#[export] Hint Resolve ap_enforceAreaBoundaries : sync.

Lemma ap_moveDirectly w x y z : appends (moveDirectly w x y z).
Proof. unfold moveDirectly. sync. Qed.
#[export] Hint Resolve ap_moveDirectly : sync.

Lemma ap_rearm boundary ms : appends (rearm boundary ms).
Proof. unfold rearm. sync. Qed.
#[export] Hint Resolve ap_rearm : sync.

Lemma ap_wanderStep w boundary : appends (wanderStep w boundary).
Proof. unfold wanderStep. sync. Qed.
#[export] Hint Resolve ap_wanderStep : sync.

Lemma ap_startWandering w : appends (startWandering w).
Proof. unfold startWandering. sync. Qed.
#[export] Hint Resolve ap_startWandering : sync.

Lemma ap_disconnected : appends disconnected.
Proof. unfold disconnected. sync. Qed.
#[export] Hint Resolve ap_disconnected : sync.

Lemma ap_runCallback w self cb : appends (runCallback w self cb).
Proof. destruct cb; cbn [runCallback]; sync. Qed.
#[export] Hint Resolve ap_runCallback : sync.

Lemma ap_onSleepRejected w err : appends (onSleepRejected w err).
Proof. unfold onSleepRejected. sync. Qed.
#[export] Hint Resolve ap_onSleepRejected : sync.

Lemma ap_onWakeRejected w call err : appends (onWakeRejected w call err).
Proof. unfold onWakeRejected. sync. Qed.
#[export] Hint Resolve ap_onWakeRejected : sync.

Lemma co_clearConsole w : coherent (clearConsole w).
Proof. intro c. unfold clearConsole. repeat step. reflexivity. Qed.

Lemma co_dispatch w ev : coherent (dispatch w ev).
Proof.
  destruct ev; cbn [dispatch]; try apply co_clearConsole; apply appends_coherent.
  - unfold start, setupEventHandlers. sync.
  - unfold stop. sync.
  - unfold updateSettings. sync.
  - unfold addClient. sync.
  - unfold onSpawn. sync.
  - unfold onKicked. sync.
  - unfold onError. sync.
  - unfold onPlayerJoined. sync.
  - unfold onPlayerLeft. sync.
  - unfold onTime. sync.
  - unfold onMove. sync.
  - unfold onGoalReached. sync.
  - unfold onSleepResolved. sync.
  - apply ap_onSleepRejected.
  - unfold onWakeResolved. sync.
  - apply ap_onWakeRejected.
  - unfold fireTimer. sync.
Qed.

Lemma push_lastn (m : ConsoleMessage) (cl : list ConsoleMessage) :
  push m (lastn 100 cl) = lastn 100 (cl ++ [m]).
Proof. unfold push. apply add_lastn. reflexivity. Qed.

Lemma deliver_replay (es : list Effect) (v : Client.View) :
  lastn 100 (Client.consoleMessages (Client.deliver es v)) =
  replayLog es (lastn 100 (Client.consoleMessages v)).
Proof.
  revert v. unfold Client.deliver, replayLog.
  induction es as [| e es IH]; intro v; cbn [fold_left]; [reflexivity |].
  rewrite IH. f_equal.
  destruct e; cbn [Client.wire Client.onmessage Client.consoleMessages];
    try reflexivity.
  symmetry. apply push_lastn.
Qed.

(** The controller and one client, through a sequence of callbacks each
    with its own outside world. *)
Fixpoint runAll (evs : list (World * Event)) (c : Controller) (v : Client.View)
  : Controller * Client.View :=
  match evs with
  | [] => (c, v)
  | (w, ev) :: rest =>
      let r := dispatch w ev c in
      runAll rest (final r) (Client.deliver (effects r) v)
  end.

(** X20. The store changes its log only through what the controller
    publishes.  So a client that receives every frame stays in step with
    the server: if the server's log is the last 100 entries of the
    client's console (as it is from the first clear the client sees),
    the same holds after any sequence of commands, session events and
    timers, whether the callbacks return or raise. *)
Theorem client_console_follows_log
    (evs : list (World * Event)) (c : Controller) (v : Client.View) :
  log c = lastn 100 (Client.consoleMessages v) ->
  let (c', v') := runAll evs c v in
  log c' = lastn 100 (Client.consoleMessages v').
Proof.
  revert c v. induction evs as [| [w ev] evs IH]; intros c v Hsync; cbn [runAll].
  - exact Hsync.
  - apply IH. rewrite (co_dispatch w ev c), deliver_replay, Hsync. reflexivity.
Qed.

Lemma client_console_follows_log_witness :
  let cleared := dispatch Scenario.quiet CallClearConsole Scenario.spawnedFar in
  let v := Client.deliver (effects cleared) Client.initial in
  let (c', v') := runAll [(Scenario.quiet, Kicked "Flying is not enabled");
                          (Scenario.quiet, CallStart)] (final cleared) v in
  log c' = lastn 100 (Client.consoleMessages v').
Proof.
  cbv zeta.
  apply (client_console_follows_log
           [(Scenario.quiet, Kicked "Flying is not enabled"); (Scenario.quiet, CallStart)]
           (final (dispatch Scenario.quiet CallClearConsole Scenario.spawnedFar))
           (Client.deliver
              (effects (dispatch Scenario.quiet CallClearConsole Scenario.spawnedFar))
              Client.initial)).
  reflexivity.
Defined.

End ClientSync.
